(** * rag-commute-agent: the calendar selection, the invoice ledger, the cost
    calculation and the request pipeline, embedded from the sources.

    - [Calendar]: [components/Calendar.tsx] ([isSameDay], [handleDateClick]).
    - [Py], [Qdrant]: the Python values and the vector-store calls the backend
      code relies on.
    - [Model], [Nodes], [Notebook04], [Api]: the notebook cells and [api.py]
      of the implementation guide (the agent state, the LangGraph nodes and
      graph, invoice parsing and storage, the FastAPI endpoints).
    - [Frontend]: [components/TransportCalculator.tsx] ([handleCalculate]).
    - [Exact], [Fixtures]: a concrete number type and concrete stores, requests
      and files on which the code is evaluated.
    - [RouterSpec]: the classification contract of the specification.
    - [Observations]: the notions the properties are stated with.
    - [JsFacts] to [Evaluation]: the properties.

    Binary64 numbers, the embedding model, the similarity score and the chat
    model are parameters ([Binary64], [Services]); the vector store is a list
    of points per collection.

    Strings are sequences of 8-bit characters.  A JavaScript [Date] is its time
    value (milliseconds since the epoch, a valid date); the local calendar
    fields come from the host's time zone and are parameters of the model. *)

From stdpp Require Import base decidable option numbers list sorting strings gmap pretty.
From Stdlib Require Import ZArith Lia.

Local Open Scope Z_scope.

(* ------------------------------------------------------------------------- *)
(** ** Array helpers of the JavaScript sources *)

Module Js.

(** [Array.prototype.findIndex]: the first index whose element satisfies
    the predicate, [-1] when there is none. *)
Fixpoint findIndex {A} (p : A → bool) (l : list A) : Z :=
  match l with
  | [] => -1
  | x :: l' =>
      if p x then 0
      else let i := findIndex p l' in if i <? 0 then -1 else i + 1
  end.

(** [Array.prototype.filter] with the two-argument callback
    [(element, index) => ...], indices counted from [i]. *)
Fixpoint filter_from {A} (p : A → Z → bool) (i : Z) (l : list A) : list A :=
  match l with
  | [] => []
  | x :: l' =>
      if p x i then x :: filter_from p (i + 1) l' else filter_from p (i + 1) l'
  end.

Definition filter {A} (p : A → Z → bool) (l : list A) : list A :=
  filter_from p 0 l.

(** [Array.prototype.sort] with the comparator
    [(a, b) => a.getTime() - b.getTime()]: a stable ascending sort on the
    time values. *)
Definition sort_by_time (l : list Z) : list Z := merge_sort Z.le l.

End Js.

(* ------------------------------------------------------------------------- *)
(** ** components/Calendar.tsx *)

Module Calendar.

Section handlers.
(** [Date.prototype.getFullYear], [getMonth] and [getDate] of the host. *)
Variables getFullYear getMonth getDate : Z → Z.

Definition isSameDay (a b : Z) : bool :=
  (getFullYear a =? getFullYear b)
  && (getMonth a =? getMonth b)
  && (getDate a =? getDate b).

(** The argument handed to [onDateChange], that is the next value of
    [selectedDates]. *)
Definition handleDateClick (selectedDates : list Z) (day : Z) : list Z :=
  let existingIndex := Js.findIndex (λ d, isSameDay d day) selectedDates in
  let newDates :=
    if existingIndex >? -1
    then Js.filter (λ _ index, negb (index =? existingIndex)) selectedDates
    else selectedDates ++ [day] in
  Js.sort_by_time newDates.

(** No two entries of the list fall on the same calendar day. *)
Definition distinct_days (l : list Z) : Prop :=
  ∀ i j a b, l !! i = Some a → l !! j = Some b →
             isSameDay a b = true → i = j.

(** Some entry of the list falls on the calendar day of [day]. *)
Definition selected (l : list Z) (day : Z) : Prop :=
  ∃ d, d ∈ l ∧ isSameDay d day = true.

Definition day_key (a : Z) : Z * Z * Z :=
  (getFullYear a, getMonth a, getDate a).

End handlers.

(** The host in UTC: calendar fields of a time value by the civil-from-days
    computation on the proleptic Gregorian calendar ([getMonth] counts from
    0). *)
Definition ms_per_day : Z := 86400000.

Definition civil_from_days (z0 : Z) : Z * Z * Z :=
  let z := z0 + 719468 in
  let era := z `div` 146097 in
  let doe := z - era * 146097 in
  let yoe := (doe - doe `div` 1460 + doe `div` 36524 - doe `div` 146096) `div` 365 in
  let doy := doe - (365 * yoe + yoe `div` 4 - yoe `div` 100) in
  let mp := (5 * doy + 2) `div` 153 in
  let d := doy - (153 * mp + 2) `div` 5 + 1 in
  let m := if mp <? 10 then mp + 3 else mp - 9 in
  let y := yoe + era * 400 + (if m <=? 2 then 1 else 0) in
  (y, m - 1, d).

Definition utcFullYear (t : Z) : Z := (civil_from_days (t `div` ms_per_day)).1.1.
Definition utcMonth (t : Z) : Z := (civil_from_days (t `div` ms_per_day)).1.2.
Definition utcDate (t : Z) : Z := (civil_from_days (t `div` ms_per_day)).2.

(** 2024-01-15, 2024-01-16 and 2024-01-17 at 00:00 UTC. *)
Definition jan15 : Z := 1705276800000.
Definition jan16 : Z := 1705363200000.
Definition jan17 : Z := 1705449600000.

End Calendar.

(* ------------------------------------------------------------------------- *)
(** ** Python values *)

(** Binary64 numbers (Python [float], JavaScript [number]) are kept abstract:
    the operations the sources apply to them are the fields of this class. *)
Class Binary64 (F : Type) := {
  fof_Z : Z → F;               (* [float(n)] of an integer, integer literals *)
  fdec : Z → nat → F;          (* the decimal literal [m / 10^e] *)
  fadd : F → F → F;            (* [+] *)
  fmul : F → F → F;            (* [*] *)
  fnan : F;                    (* the value pandas stores for an empty field *)
  fleb : F → F → bool;         (* [<=] *)
  fround2 : F → F;             (* [round(x, 2)] *)
  fstr : F → string;           (* [str(x)], also inside an f-string *)
  ffmt2 : F → string;          (* [format(x, '.2f')] *)
  fparse : string → option F;  (* [float(s)]; [None] stands for ValueError *)
}.

Module Py.

(** Results of code that may raise. *)
Inductive outcome (A : Type) : Type :=
| Ok (a : A)
| Raise (exn : string).
Arguments Ok {A} a.
Arguments Raise {A} exn.

Definition bind {A B} (m : outcome A) (k : A → outcome B) : outcome B :=
  match m with Ok a => k a | Raise e => Raise e end.

Fixpoint mapM {A B} (f : A → outcome B) (l : list A) : outcome (list B) :=
  match l with
  | [] => Ok []
  | x :: l' => bind (f x) (λ y, bind (mapM f l') (λ ys, Ok (y :: ys)))
  end.

Definition nl : string := String (Ascii.ascii_of_nat 10) EmptyString.

(** [str.lower] on the ASCII letters. *)
Definition lower_char (c : Ascii.ascii) : Ascii.ascii :=
  let n := Ascii.N_of_ascii c in
  if ((65 <=? n) && (n <=? 90))%N then Ascii.ascii_of_N (n + 32) else c.

Fixpoint lower (s : string) : string :=
  match s with
  | EmptyString => EmptyString
  | String c s' => String (lower_char c) (lower s')
  end.

(** [needle in hay] on strings. *)
Fixpoint contains (needle hay : string) : bool :=
  String.prefix needle hay
  || match hay with
     | EmptyString => false
     | String _ hay' => contains needle hay'
     end.

(** [sep.join(l)]. *)
Fixpoint join (sep : string) (l : list string) : string :=
  match l with
  | [] => ""
  | [x] => x
  | x :: l' => x +:+ sep +:+ join sep l'
  end.

(** Truth value of an [Optional[str]]: [None] and the empty string are false. *)
Definition truthy (o : option string) : bool :=
  match o with
  | None | Some EmptyString => false
  | Some _ => true
  end.

(** [o or d] on an [Optional[str]]. *)
Definition or_default (o : option string) (d : string) : string :=
  match o with
  | None | Some EmptyString => d
  | Some s => s
  end.

(** [s.endswith(suffix)]. *)
Definition endswith (s suffix : string) : bool :=
  String.prefix (String.rev suffix) (String.rev s).

(** [list(enumerate(l))], counting from [i]. *)
Fixpoint enumerate_from {A} (i : nat) (l : list A) : list (nat * A) :=
  match l with
  | [] => []
  | x :: l' => (i, x) :: enumerate_from (S i) l'
  end.

Definition enumerate {A} (l : list A) : list (nat * A) := enumerate_from 0 l.

Section values.
Context {F : Type} `{!Binary64 F}.

(** The values found in data-frame cells, payloads and response bodies. *)
Inductive val : Type :=
| VStr (s : string)
| VInt (z : Z)
| VFloat (x : F)
| VStrs (l : list string)
| VMap (m : gmap string F).

(** [str(v)] of a scalar. *)
Definition str (v : val) : string :=
  match v with
  | VStr s => s
  | VInt z => pretty z
  | VFloat x => fstr x
  | _ => ""
  end.

(** [float(v)]. *)
Definition float (v : val) : outcome F :=
  match v with
  | VStr s =>
      match fparse s with
      | Some x => Ok x
      | None => Raise "ValueError"
      end
  | VInt z => Ok (fof_Z z)
  | VFloat x => Ok x
  | _ => Raise "TypeError"
  end.

(** A [dict] with string keys, in insertion order. *)
Definition dict : Type := list (string * val).

Fixpoint get (k : string) (d : dict) : option val :=
  match d with
  | [] => None
  | (k', v) :: d' => if String.eqb k k' then Some v else get k d'
  end.

(** [sum(l)]: the items are added from the left, starting from [0].  Python
    starts from the integer [0], so the sum of no items is the integer [0];
    here it is the float [0.0], which is equal to it as a number. *)
Definition sum (l : list F) : F := foldl fadd (fof_Z 0) l.

(** A pandas [DataFrame] as [pd.read_csv] returns it: the header and the data
    rows, one cell per column.  An empty field is the float NaN; the cells of
    a column that holds anything non-numeric are strings. *)
Record DataFrame : Type := mkDataFrame {
  columns : list string;
  rows : list (list val);
}.

Fixpoint index_of (k : string) (l : list string) : option nat :=
  match l with
  | [] => None
  | k' :: l' => if String.eqb k k' then Some O else S <$> index_of k l'
  end.

(** [row.get(k)] for a row of [df.iterrows()]; [None] when the frame has no
    such column. *)
Definition row_get (df : DataFrame) (row : list val) (k : string) : option val :=
  i ← index_of k (columns df); row !! i.

(** [row[k]]. *)
Definition row_item (df : DataFrame) (row : list val) (k : string) : outcome val :=
  match row_get df row k with
  | Some v => Ok v
  | None => Raise "KeyError"
  end.

End values.
Arguments val F : clear implicits.
Arguments dict F : clear implicits.
Arguments DataFrame F : clear implicits.

End Py.

(* ------------------------------------------------------------------------- *)
(** ** The external services and the vector store *)

(** The embedding model, the similarity of two vectors and the chat model.
    Vectors are of an abstract type [V]. *)
Class Services (F V : Type) := {
  embed_query : string → V;
  cosine : V → V → F;
  llm_invoke : string → string;
}.

Module Qdrant.
Section store.
Context {F V : Type} `{!Binary64 F, !Services F V}.

Record point (P : Type) : Type := Point {
  id : string;
  vector : V;
  payload : P;
}.
Arguments Point {P} _ _ _.
Arguments id {P} _.
Arguments vector {P} _.
Arguments payload {P} _.

Record scored (P : Type) : Type := Scored {
  hit : point P;
  score : F;
}.
Arguments Scored {P} _ _.
Arguments hit {P} _.
Arguments score {P} _.

(** [client.upsert]: a point replaces the stored point of the same id, and is
    added otherwise. *)
Fixpoint upsert1 {P} (p : point P) (coll : list (point P)) : list (point P) :=
  match coll with
  | [] => [p]
  | q :: coll' =>
      if String.eqb (id q) (id p) then p :: coll' else q :: upsert1 p coll'
  end.

Definition upsert {P} (coll : list (point P)) (points : list (point P))
  : list (point P) :=
  foldl (λ c p, upsert1 p c) coll points.

(** [client.search(collection_name, query_vector, limit)], called without a
    filter: the [limit] best-scoring points of the whole collection, best
    first. *)
Definition search {P} (coll : list (point P)) (query_vector : V) (limit : nat)
  : list (scored P) :=
  take limit
    (merge_sort (λ a b, Is_true (fleb (score b) (score a)))
       ((λ p, Scored p (cosine query_vector (vector p))) <$> coll)).

(** [client.scroll(collection_name, scroll_filter, limit)[0]]: the first
    [limit] points whose payload passes the filter. *)
Definition scroll {P} (coll : list (point P)) (must : P → bool) (limit : nat)
  : list (point P) :=
  take limit (List.filter (λ p, must (payload p)) coll).

End store.
Arguments Point {V P} _ _ _.
Arguments id {V P} _.
Arguments vector {V P} _.
Arguments payload {V P} _.
Arguments Scored {F V P} _ _.
Arguments hit {F V P} _.
Arguments score {F V P} _.
End Qdrant.

(* ------------------------------------------------------------------------- *)
(** ** The stored collections and the agent state *)

Module Model.
Section model.
Context {F V : Type}.

(** Payload of a point of the [documents] collection, as [chat] writes it. *)
Record doc_payload : Type := DocPayload {
  d_text : option string;
  d_doc_id : option string;
  d_session_id : option string;
}.

(** Payload of a point of the [tfl_invoices] collection, as [store_invoice]
    and [upload_invoice] write it: the invoice and user ids followed by the
    entries of the transaction ([store_invoice] adds [transaction_id], and
    [parse_csv_invoice] the zones and the timestamp). *)
Record txn_payload : Type := TxnPayload {
  p_invoice_id : string;
  p_user_id : string;
  p_transaction_id : option string;
  p_date : Py.val F;
  p_amount : F;
  p_journey_type : Py.val F;
  p_zones : option (Py.val F);
  p_timestamp : option (Py.val F);
}.

(** Payload of a point of the [conversation_memory] collection (the schema
    of LANGGRAPH_FLOW.md; notebook 02 creates the collection). *)
Record memory_payload : Type := MemoryPayload {
  m_user_query : string;
  m_assistant_response : string;
  m_session_id : string;
  m_user_id : string;
}.

(** What the code reaches through the globals [client] and [llm]: the three
    collections and the prompts sent to the model so far. *)
Record world : Type := World {
  documents : list (Qdrant.point (V:=V) doc_payload);
  tfl_invoices : list (Qdrant.point (V:=V) txn_payload);
  conversation_memory : list (Qdrant.point (V:=V) memory_payload);
  llm_prompts : list string;
}.

Inductive role : Type := Human | AI.

Record message : Type := Message { msg_role : role; content : string }.

Record retrieved_doc : Type := RetrievedDoc { rd_content : string; rd_score : F }.

(** [class AgentState(TypedDict)]. *)
Record AgentState : Type := mkAgentState {
  messages : list message;
  query : string;
  request_type : string;
  route_path : option string;
  retrieved_docs : list retrieved_doc;
  context : string;
  memory : gmap string string;
  invoice_id : option string;
  selected_dates : list string;
  calculated_amount : option F;
  cost_breakdown : option (Py.dict F);
  response : string;
}.

Definition set_messages (x : list message) (s : AgentState) : AgentState :=
  mkAgentState x (query s) (request_type s) (route_path s) (retrieved_docs s)
    (context s) (memory s) (invoice_id s) (selected_dates s)
    (calculated_amount s) (cost_breakdown s) (response s).

Definition set_query (x : string) (s : AgentState) : AgentState :=
  mkAgentState (messages s) x (request_type s) (route_path s) (retrieved_docs s)
    (context s) (memory s) (invoice_id s) (selected_dates s)
    (calculated_amount s) (cost_breakdown s) (response s).

Definition set_request_type (x : string) (s : AgentState) : AgentState :=
  mkAgentState (messages s) (query s) x (route_path s) (retrieved_docs s)
    (context s) (memory s) (invoice_id s) (selected_dates s)
    (calculated_amount s) (cost_breakdown s) (response s).

Definition set_route_path (x : option string) (s : AgentState) : AgentState :=
  mkAgentState (messages s) (query s) (request_type s) x (retrieved_docs s)
    (context s) (memory s) (invoice_id s) (selected_dates s)
    (calculated_amount s) (cost_breakdown s) (response s).

Definition set_retrieved_docs (x : list retrieved_doc) (s : AgentState)
  : AgentState :=
  mkAgentState (messages s) (query s) (request_type s) (route_path s) x
    (context s) (memory s) (invoice_id s) (selected_dates s)
    (calculated_amount s) (cost_breakdown s) (response s).

Definition set_context (x : string) (s : AgentState) : AgentState :=
  mkAgentState (messages s) (query s) (request_type s) (route_path s)
    (retrieved_docs s) x (memory s) (invoice_id s) (selected_dates s)
    (calculated_amount s) (cost_breakdown s) (response s).

Definition set_calculated_amount (x : option F) (s : AgentState) : AgentState :=
  mkAgentState (messages s) (query s) (request_type s) (route_path s)
    (retrieved_docs s) (context s) (memory s) (invoice_id s) (selected_dates s)
    x (cost_breakdown s) (response s).

Definition set_cost_breakdown (x : option (Py.dict F)) (s : AgentState)
  : AgentState :=
  mkAgentState (messages s) (query s) (request_type s) (route_path s)
    (retrieved_docs s) (context s) (memory s) (invoice_id s) (selected_dates s)
    (calculated_amount s) x (response s).

Definition set_response (x : string) (s : AgentState) : AgentState :=
  mkAgentState (messages s) (query s) (request_type s) (route_path s)
    (retrieved_docs s) (context s) (memory s) (invoice_id s) (selected_dates s)
    (calculated_amount s) (cost_breakdown s) x.

Definition set_documents (x : list (Qdrant.point (V:=V) doc_payload)) (w : world)
  : world :=
  World x (tfl_invoices w) (conversation_memory w) (llm_prompts w).

Definition set_tfl_invoices (x : list (Qdrant.point (V:=V) txn_payload))
  (w : world) : world :=
  World (documents w) x (conversation_memory w) (llm_prompts w).

Definition set_llm_prompts (x : list string) (w : world) : world :=
  World (documents w) (tfl_invoices w) (conversation_memory w) x.

End model.
Arguments doc_payload : clear implicits.
Arguments txn_payload F : clear implicits.
Arguments memory_payload : clear implicits.
Arguments world F V : clear implicits.
Arguments retrieved_doc F : clear implicits.
Arguments AgentState F : clear implicits.
End Model.

(* ------------------------------------------------------------------------- *)
(** ** notebooks/05_nodes.ipynb and notebooks/06_graph.ipynb *)

Module Nodes.
Import Model.
Section nodes.
Context {F V : Type} `{!Binary64 F, !Services F V}.

Local Abbreviation AgentState := (Model.AgentState F).
Local Abbreviation world := (Model.world F V).

(** Cell 3: entry node. *)
Definition receive_query (state : AgentState) : AgentState :=
  match last (messages state) with
  | None => state
  | Some last_message =>
      let query := content last_message in
      let request_type := "general_rag" in
      let request_type :=
        if Py.contains "invoice" (Py.lower query) || Py.truthy (invoice_id state)
        then "tfl_chat" else request_type in
      let request_type :=
        match selected_dates state with
        | [] => request_type
        | _ :: _ => "tfl_calculation"
        end in
      set_request_type request_type (set_query query state)
  end.

(** Cell 4: route decision node. *)
Definition route_request (state : AgentState) : AgentState :=
  let request_type := request_type state in
  if String.eqb request_type "tfl_invoice"
  then set_route_path (Some "process_tfl_invoice") state
  else if String.eqb request_type "tfl_calculation"
  then set_route_path (Some "calculate_cost") state
  else if String.eqb request_type "tfl_chat"
  then set_route_path (Some "tfl_chat") state
  else set_route_path (Some "rag_flow") state.

(** Cell 5: RAG retrieval node. *)
Definition retrieve_documents (w : world) (state : AgentState) : AgentState :=
  let query_vector := embed_query (F:=F) (query state) in
  let results := Qdrant.search (documents w) query_vector 5 in
  set_retrieved_docs
    ((λ r, RetrievedDoc (default "" (d_text (Qdrant.payload (Qdrant.hit r))))
                        (Qdrant.score r)) <$> results)
    state.

(** Cell 6: format context node. *)
Definition format_context (state : AgentState) : AgentState :=
  let docs := retrieved_docs state in
  set_context
    (Py.join (Py.nl +:+ Py.nl)
       ((λ '(i, doc),
          "Document " +:+ pretty (S i) +:+ " (relevance: "
          +:+ ffmt2 (rd_score doc) +:+ "):" +:+ Py.nl +:+ rd_content doc)
        <$> Py.enumerate docs))
    state.

(** Cell 7: LLM generation node.  The prompt goes to the model, the reply
    becomes the response and is appended to the messages as an [AIMessage]. *)
Definition generate_response (w : world) (state : AgentState)
  : world * AgentState :=
  let system_prompt :=
    "You are a helpful assistant. Use the provided context to answer questions." in
  let prompt :=
    system_prompt +:+ Py.nl +:+ Py.nl +:+ "Context:" +:+ Py.nl +:+ context state
    +:+ Py.nl +:+ Py.nl +:+ "Question: " +:+ query state
    +:+ Py.nl +:+ Py.nl +:+ "Answer:" in
  let response_text := llm_invoke (F:=F) (V:=V) prompt in
  (set_llm_prompts (llm_prompts w ++ [prompt]) w,
   set_messages (messages state ++ [Message AI response_text])
     (set_response response_text state)).

(** [t.get("date") in selected_date_strs]. *)
Definition date_in (date : Py.val F) (selected_date_strs : list string) : bool :=
  match date with
  | Py.VStr d => bool_decide (d ∈ selected_date_strs)
  | _ => false
  end.

(** The loop building [per_day], one transaction at a time. *)
Definition per_day_step (per_day : gmap string F) (t : txn_payload F)
  : gmap string F :=
  match p_date t with
  | Py.VStr date =>
      <[date := fadd (default (fof_Z 0) (per_day !! date)) (p_amount t)]> per_day
  | _ => per_day
  end.

(** Cell 8: TFL cost calculation node. *)
Definition calculate_cost (w : world) (state : AgentState) : AgentState :=
  let selected_dates := selected_dates state in
  if negb (Py.truthy (invoice_id state))
     || match selected_dates with [] => true | _ :: _ => false end
  then set_response "Error: Missing invoice_id or selected_dates" state
  else
    let invoice_id := default "" (invoice_id state) in
    let results :=
      Qdrant.scroll (tfl_invoices w)
        (λ p, String.eqb (p_invoice_id p) invoice_id) 1000 in
    let transactions := Qdrant.payload <$> results in
    let selected_date_strs := selected_dates in
    let filtered :=
      List.filter (λ t, date_in (p_date t) selected_date_strs) transactions in
    let total := Py.sum (p_amount <$> filtered) in
    let per_day := foldl per_day_step ∅ filtered in
    set_response ("Total cost for selected dates: £" +:+ fstr (fround2 total))
      (set_cost_breakdown
         (Some [("total_amount", Py.VFloat (fround2 total));
                ("per_day_breakdown", Py.VMap per_day);
                ("transactions_count", Py.VInt (Z.of_nat (length filtered)))])
         (set_calculated_amount (Some (fround2 total)) state)).

(** Notebook 06, cell 2: the conditional routing function. *)
Definition route_decision (state : AgentState) : string :=
  match route_path state with
  | Some route =>
      if String.eqb route "calculate_cost" then "calculate_cost"
      else if String.eqb route "rag_flow" then "retrieve_documents"
      else "generate_response"
  | None => "generate_response"
  end.

(** The nodes added to the [StateGraph]. *)
Inductive node : Type :=
| n_receive_query
| n_route_request
| n_retrieve_documents
| n_format_context
| n_generate_response
| n_calculate_cost.

Global Instance node_eq_dec : EqDecision node.
Proof. solve_decision. Defined.

Definition run_node (n : node) (w : world) (state : AgentState)
  : world * AgentState :=
  match n with
  | n_receive_query => (w, receive_query state)
  | n_route_request => (w, route_request state)
  | n_retrieve_documents => (w, retrieve_documents w state)
  | n_format_context => (w, format_context state)
  | n_generate_response => generate_response w state
  | n_calculate_cost => (w, calculate_cost w state)
  end.

(** The mapping handed to [add_conditional_edges]. *)
Definition conditional_target (name : string) : option node :=
  if String.eqb name "retrieve_documents" then Some n_retrieve_documents
  else if String.eqb name "calculate_cost" then Some n_calculate_cost
  else if String.eqb name "generate_response" then Some n_generate_response
  else None.

(** The edges of the graph; [None] is [END]. *)
Definition next_node (n : node) (state : AgentState) : option node :=
  match n with
  | n_receive_query => Some n_route_request
  | n_route_request => conditional_target (route_decision state)
  | n_retrieve_documents => Some n_format_context
  | n_format_context => Some n_generate_response
  | n_generate_response => None
  | n_calculate_cost => None
  end.

(** [app.invoke]: the nodes run from the entry point until [END]; the result
    carries the nodes that ran, in order. *)
Fixpoint run (fuel : nat) (n : node) (w : world) (state : AgentState)
  (trace : list node) : option (list node * world * AgentState) :=
  match fuel with
  | O => None
  | S fuel' =>
      let '(w', state') := run_node n w state in
      match next_node n state' with
      | None => Some (trace ++ [n], w', state')
      | Some n' => run fuel' n' w' state' (trace ++ [n])
      end
  end.

Definition invoke (w : world) (state : AgentState)
  : option (list node * world * AgentState) :=
  run 6 n_receive_query w state [].

End nodes.
End Nodes.

(* ------------------------------------------------------------------------- *)
(** ** notebooks/04_invoice_parser.ipynb *)

Module Notebook04.
Import Model.
Section invoice_parser.
Context {F V : Type} `{!Binary64 F, !Services F V}.

Local Abbreviation world := (Model.world F V).

(** The dict built for one row. *)
Record transaction : Type := Transaction {
  t_date : Py.val F;
  t_amount : F;
  t_journey_type : Py.val F;
  t_zones : option (Py.val F);
  t_timestamp : option (Py.val F);
}.

(** Cell 2.  [now_iso] is [datetime.now().isoformat()].  The source reads
    the clock anew for every row, so the stamps of one parse can differ from
    row to row; here the rows of one parse get the same reading. *)
Definition parse_csv_row (now_iso : string) (df : Py.DataFrame F)
  (row : list (Py.val F)) : Py.outcome transaction :=
  Py.bind (Py.row_item df row "date") (λ date,
  Py.bind (Py.row_item df row "amount") (λ amount_cell,
  Py.bind (Py.float amount_cell) (λ amount,
  Py.Ok (Transaction date amount
           (default (Py.VStr "unknown") (Py.row_get df row "journey_type"))
           (Some (default (Py.VStr "") (Py.row_get df row "zones")))
           (Some (default (Py.VStr now_iso) (Py.row_get df row "timestamp"))))))).

Definition parse_csv_invoice (now_iso : string) (df : Py.DataFrame F)
  : Py.outcome (list transaction) :=
  Py.mapM (parse_csv_row now_iso df) (Py.rows df).

(** The text embedded for a transaction. *)
Definition transaction_text (t : transaction) : string :=
  Py.str (t_date t) +:+ " " +:+ Py.str (t_journey_type t) +:+ " "
  +:+ fstr (t_amount t).

(** [f"{invoice_id}_{i}"]. *)
Definition point_id (invoice_id : string) (i : nat) : string :=
  invoice_id +:+ "_" +:+ pretty i.

(** The points built by the loop of cell 4 (and of [upload_invoice]);
    [with_transaction_id] tells whether the payload gets a
    [transaction_id] entry. *)
Definition invoice_points (with_transaction_id : bool)
  (transactions : list transaction) (invoice_id user_id : string)
  : list (Qdrant.point (V:=V) (txn_payload F)) :=
  (λ '(i, t),
     Qdrant.Point (point_id invoice_id i)
       (embed_query (F:=F) (transaction_text t))
       (TxnPayload invoice_id user_id
          (if with_transaction_id then Some (point_id invoice_id i) else None)
          (t_date t) (t_amount t) (t_journey_type t) (t_zones t) (t_timestamp t)))
  <$> Py.enumerate transactions.

(** Cell 4. *)
Definition store_invoice (transactions : list transaction)
  (invoice_id user_id : string) (w : world) : world :=
  set_tfl_invoices
    (Qdrant.upsert (tfl_invoices w)
       (invoice_points true transactions invoice_id user_id)) w.

(** Cell 5. *)
Definition calculate_cost (invoice_id : string) (selected_dates : list string)
  (user_id : string) (w : world) : Py.dict F :=
  let results :=
    Qdrant.scroll (tfl_invoices w)
      (λ p, String.eqb (p_invoice_id p) invoice_id
            && String.eqb (p_user_id p) user_id) 1000 in
  let transactions := Qdrant.payload <$> results in
  let selected_date_strs := selected_dates in
  let filtered :=
    List.filter (λ t, Nodes.date_in (p_date t) selected_date_strs) transactions in
  let total := Py.sum (p_amount <$> filtered) in
  let per_day := foldl Nodes.per_day_step ∅ filtered in
  [("total_amount", Py.VFloat (fround2 total));
   ("selected_dates", Py.VStrs selected_date_strs);
   ("per_day_breakdown", Py.VMap per_day);
   ("transactions_count", Py.VInt (Z.of_nat (length filtered)))].

End invoice_parser.
Arguments transaction F : clear implicits.
End Notebook04.

(* ------------------------------------------------------------------------- *)
(** ** api.py *)

Module Api.
Import Model.
Section endpoints.
Context {F V : Type} `{!Binary64 F, !Services F V}.

Local Abbreviation world := (Model.world F V).

(** The dict appended for one row of the uploaded CSV. *)
Definition upload_row (df : Py.DataFrame F) (row : list (Py.val F))
  : Py.outcome (Notebook04.transaction F) :=
  Py.bind (Py.float (default (Py.VInt 0) (Py.row_get df row "amount"))) (λ amount,
  Py.Ok (Notebook04.Transaction
           (Py.VStr (Py.str (default (Py.VStr "") (Py.row_get df row "date"))))
           amount
           (Py.VStr (Py.str (default (Py.VStr "unknown")
                               (Py.row_get df row "journey_type"))))
           None None)).

(** The parsing loop of [upload_invoice]: one dict per row of the frame. *)
Definition upload_transactions (df : Py.DataFrame F)
  : Py.outcome (list (Notebook04.transaction F)) :=
  Py.mapM (upload_row df) (Py.rows df).

(** [f"invoice_{user_id or 'default'}_{int(time.time())}"]. *)
Definition new_invoice_id (user_id : option string) (now : Z) : string :=
  "invoice_" +:+ Py.or_default user_id "default" +:+ "_" +:+ pretty now.

(** [POST /api/transport/upload].  [now] is [int(time.time())], [df] what
    [pd.read_csv] makes of the uploaded bytes.  An exception leaves the
    request without a response body. *)
Definition upload_invoice (now : Z) (filename : string) (df : Py.DataFrame F)
  (user_id : option string) (w : world) : Py.outcome (Py.dict F) * world :=
  if Py.endswith filename ".csv" then
    match upload_transactions df with
    | Py.Raise e => (Py.Raise e, w)
    | Py.Ok transactions =>
        let invoice_id := new_invoice_id user_id now in
        let points :=
          Notebook04.invoice_points false transactions invoice_id
            (Py.or_default user_id "default") in
        (Py.Ok [("invoice_id", Py.VStr invoice_id);
                ("transactions_count",
                 Py.VInt (Z.of_nat (length transactions)))],
         set_tfl_invoices (Qdrant.upsert (tfl_invoices w) points) w)
    end
  else (Py.Ok [("error", Py.VStr "Only CSV supported for MVP")], w).

(** The storing and retrieving steps of [POST /api/chat], which follow the
    decoding of the upload (see [chat]): the decoded [text] is stored as a
    document, then the three documents nearest to the message are fetched. *)
Definition chat_retrieve (now : Z) (text message : string)
  (session_id : option string) (w : world)
  : list (Qdrant.scored (F:=F) (V:=V) doc_payload) * world :=
  let doc_id :=
    "doc_" +:+ Py.or_default session_id "default" +:+ "_" +:+ pretty now in
  let vector := embed_query (F:=F) text in
  let w' :=
    set_documents
      (Qdrant.upsert (documents w)
         [Qdrant.Point doc_id vector
            (DocPayload (Some text) (Some doc_id) session_id)]) w in
  let query_vector := embed_query (F:=F) message in
  (Qdrant.search (documents w') query_vector 3, w').

(** [POST /api/chat].  [decoded] is what [contents.decode('utf-8')] gives for
    the uploaded bytes: the text, or [UnicodeDecodeError] when the bytes are
    not UTF-8.  The exception leaves the request without a response, before
    anything is stored.  The answer is streamed one character of
    [response_text] at a time; [response_text] is what is returned here. *)
Definition chat (now : Z) (decoded : Py.outcome string) (message : string)
  (session_id : option string) (w : world) : Py.outcome string * world :=
  match decoded with
  | Py.Raise e => (Py.Raise e, w)
  | Py.Ok text =>
      let '(results, w') := chat_retrieve now text message session_id w in
      let context :=
        Py.join Py.nl
          ((λ r, default "" (d_text (Qdrant.payload (Qdrant.hit r))))
             <$> results) in
      let prompt :=
        "Context:" +:+ Py.nl +:+ context +:+ Py.nl +:+ Py.nl +:+ "Question: "
        +:+ message +:+ Py.nl +:+ Py.nl +:+ "Answer:" in
      let response_text := llm_invoke (F:=F) (V:=V) prompt in
      (Py.Ok response_text, set_llm_prompts (llm_prompts w' ++ [prompt]) w')
  end.

End endpoints.
End Api.

(* ------------------------------------------------------------------------- *)
(** ** components/TransportCalculator.tsx *)

Module Frontend.
Section calculator.
Context {F : Type} `{!Binary64 F}.

Inductive toast_type : Type := success | error.

(** The component state. *)
Record calculator : Type := Calculator {
  selectedDates : list Z;
  uploadedFile : option string;
  isLoading : bool;
  totalCost : option F;
  enableChat : bool;
}.

(** [handleCalculate], run to completion: the state it leaves and the calls of
    [showToast].  [random] is the value [Math.random()] returns. *)
Definition handleCalculate (random : F) (st : calculator)
  : calculator * list (string * toast_type) :=
  match uploadedFile st, selectedDates st with
  | None, _ | _, [] =>
      (st, [("Please upload an invoice and select dates.", error)])
  | Some _, _ :: _ =>
      let mockResult :=
        fadd (fmul (fof_Z (Z.of_nat (length (selectedDates st)))) (fdec 575 2))
             (fmul random (fof_Z 10)) in
      (Calculator (selectedDates st) (uploadedFile st) false (Some mockResult)
         (enableChat st),
       [("Calculation successful!", success)])
  end.

End calculator.
Arguments calculator F : clear implicits.
End Frontend.

(* ------------------------------------------------------------------------- *)
(** ** A concrete carrier for evaluating the code

    Numbers with two decimals, kept as a count of hundredths, and NaN.  On
    the amounts used below (fractions that are multiples of 0.25) binary64
    arithmetic is exact and gives the same results. *)

Module Exact.

Inductive cents : Type :=
| Cents (hundredths : Z)
| NaN.

Global Instance cents_eq_dec : EqDecision cents.
Proof. solve_decision. Defined.

Definition add (a b : cents) : cents :=
  match a, b with
  | Cents x, Cents y => Cents (x + y)
  | _, _ => NaN
  end.

Definition mul (a b : cents) : cents :=
  match a, b with
  | Cents x, Cents y => Cents ((x * y) `div` 100)
  | _, _ => NaN
  end.

Definition leb (a b : cents) : bool :=
  match a, b with
  | Cents x, Cents y => x <=? y
  | _, _ => false
  end.

Definition two_digits (r : Z) : string :=
  pretty (r `div` 10) +:+ pretty (r `mod` 10).

Definition show_abs (h : Z) : string :=
  let r := h `mod` 100 in
  pretty (h `div` 100) +:+ "."
  +:+ (if r `mod` 10 =? 0 then pretty (r `div` 10) else two_digits r).

Definition show (a : cents) : string :=
  match a with
  | Cents h => if h <? 0 then "-" +:+ show_abs (- h) else show_abs h
  | NaN => "nan"
  end.

Definition show2 (a : cents) : string :=
  match a with
  | Cents h =>
      let m := Z.abs h in
      (if h <? 0 then "-" else "") +:+ pretty (m `div` 100) +:+ "."
      +:+ two_digits (m `mod` 100)
  | NaN => "nan"
  end.

Definition digit (c : Ascii.ascii) : option Z :=
  let n := Z.of_N (Ascii.N_of_ascii c) in
  if (48 <=? n) && (n <=? 57) then Some (n - 48) else None.

Fixpoint digits_value (s : string) (acc : Z) : option Z :=
  match s with
  | EmptyString => Some acc
  | String c s' => d ← digit c; digits_value s' (10 * acc + d)
  end.

Fixpoint split_dot (s : string) : string * option string :=
  match s with
  | EmptyString => (EmptyString, None)
  | String c s' =>
      if Ascii.eqb c (Ascii.ascii_of_nat 46) then (EmptyString, Some s')
      else let '(a, b) := split_dot s' in (String c a, b)
  end.

(** Unsigned decimals with at most two fractional digits; anything else is
    rejected. *)
Definition parse (s : string) : option cents :=
  let '(ip, fp) := split_dot s in
  match ip with
  | EmptyString => None
  | _ =>
      i ← digits_value ip 0;
      match fp with
      | None => Some (Cents (100 * i))
      | Some f =>
          match String.length f with
          | 0%nat => Some (Cents (100 * i))
          | 1%nat => d ← digits_value f 0; Some (Cents (100 * i + 10 * d))
          | 2%nat => d ← digits_value f 0; Some (Cents (100 * i + d))
          | _ => None
          end
      end
  end.

Global Instance cents_binary64 : Binary64 cents := {|
  fof_Z z := Cents (100 * z);
  fdec m e := Cents ((100 * m) `div` (10 ^ Z.of_nat e));
  fadd := add;
  fmul := mul;
  fnan := NaN;
  fleb := leb;
  fround2 a := a;
  fstr := show;
  ffmt2 := show2;
  fparse := parse;
|}.

(** Texts stand for their own embeddings; equal texts score 1, others 0; the
    model answers every prompt with the same line. *)
Global Instance services : Services cents string := {|
  embed_query text := text;
  cosine a b := if String.eqb a b then Cents 100 else Cents 0;
  llm_invoke prompt := "Here is what I found in the context.";
|}.

End Exact.

(* ------------------------------------------------------------------------- *)
(** ** Fixtures: a ledger, requests and files used to evaluate the code *)

Module Fixtures.
Import Model Exact.

Definition txn (invoice user date : string) (amount : Z) (journey : string)
  : Qdrant.point (V:=string) (txn_payload cents) :=
  Qdrant.Point (invoice +:+ "_" +:+ date +:+ "_" +:+ journey) date
    (TxnPayload invoice user None (Py.VStr date) (Cents amount)
       (Py.VStr journey) None None).

(** Scenario A of the specification, with amounts 8.50, 2.25 and 4.50. *)
Definition ledger : list (Qdrant.point (V:=string) (txn_payload cents)) :=
  [txn "invoice_001" "alice" "2024-01-15" 850 "tube";
   txn "invoice_001" "alice" "2024-01-15" 225 "bus";
   txn "invoice_001" "alice" "2024-01-16" 450 "tube"].

(** A store holding the ledger and one document of session [B]. *)
Definition foreign_doc : Qdrant.point (V:=string) doc_payload :=
  Qdrant.Point "doc_B_1700000000" "payslip of B"
    (DocPayload (Some "payslip of B") (Some "doc_B_1700000000") (Some "B")).

Definition store : world cents string := World [foreign_doc] ledger [] [].

Definition request (text : string) (invoice : option string)
  (dates : list string) : AgentState cents :=
  mkAgentState [Message Human text] "" "general_rag" None [] "" ∅ invoice dates
    None None "".

(** Dates and free text together, with an invoice id. *)
Definition dates_and_question : AgentState cents :=
  request "How much did I spend on these days?" (Some "invoice_001")
    ["2024-01-15"; "2024-01-17"].

(** Dates and free text together, without an invoice id. *)
Definition dates_and_question_no_invoice : AgentState cents :=
  request "How much did I spend on these days?" None ["2024-01-15"].

(** Free text about an invoice. *)
Definition invoice_question : AgentState cents :=
  request "What is on my invoice?" (Some "invoice_001") [].

(** A calculation request as the front end could send it with nothing
    selected. *)
Definition empty_selection : AgentState cents :=
  mkAgentState [] "" "tfl_calculation" None [] "" ∅ (Some "invoice_001") []
    None None "".

(** Three data rows, the second with an empty [amount] field. *)
Definition csv_missing_amount : Py.DataFrame cents :=
  Py.mkDataFrame ["date"; "amount"; "journey_type"]
    [[Py.VStr "2024-01-15"; Py.VFloat (Cents 850); Py.VStr "tube"];
     [Py.VStr "2024-01-15"; Py.VFloat NaN; Py.VStr "bus"];
     [Py.VStr "2024-01-16"; Py.VFloat (Cents 450); Py.VStr "tube"]].

(** Three data rows, the second with a non-numeric [amount]: the column holds
    strings. *)
Definition csv_bad_amount : Py.DataFrame cents :=
  Py.mkDataFrame ["date"; "amount"; "journey_type"]
    [[Py.VStr "2024-01-15"; Py.VStr "8.50"; Py.VStr "tube"];
     [Py.VStr "2024-01-15"; Py.VStr "abc"; Py.VStr "bus"];
     [Py.VStr "2024-01-16"; Py.VStr "4.50"; Py.VStr "tube"]].

(** The calculator with an uploaded invoice and two selected days. *)
Definition two_days : Frontend.calculator cents :=
  Frontend.Calculator [Calendar.jan15; Calendar.jan16] (Some "invoice.csv")
    false None false.

(** The rows of [csv_missing_amount] as [upload_invoice] parses them. *)
Definition parsed_rows : list (Notebook04.transaction cents) :=
  [Notebook04.Transaction (Py.VStr "2024-01-15") (Cents 850) (Py.VStr "tube")
     None None;
   Notebook04.Transaction (Py.VStr "2024-01-15") NaN (Py.VStr "bus") None None;
   Notebook04.Transaction (Py.VStr "2024-01-16") (Cents 450) (Py.VStr "tube")
     None None].

(** The same rows as [parse_csv_invoice] returns them, with the defaults for
    the columns the file does not have. *)
Definition with_defaults (now_iso : string) (t : Notebook04.transaction cents)
  : Notebook04.transaction cents :=
  Notebook04.Transaction (Notebook04.t_date t) (Notebook04.t_amount t)
    (Notebook04.t_journey_type t) (Some (Py.VStr ""))
    (Some (Py.VStr now_iso)).

End Fixtures.

(* ------------------------------------------------------------------------- *)
(** ** The classification contract of the specification (section 4.6) *)

Module RouterSpec.
Import Model.

Inductive kind : Type :=
| invoiceUpload
| costCalculation
| invoiceChat
| generalDocumentChat
| combinedCalculationAndChat.

(** The precedence order as the specification words it. *)
Definition spec_classify (raw_invoice_bytes : bool) (date_selection : list string)
  (free_text : string) (chat_context : bool) (invoiceId : option string)
  : option kind :=
  let has_dates := match date_selection with [] => false | _ :: _ => true end in
  let has_query := negb (String.eqb free_text "") in
  if raw_invoice_bytes then Some invoiceUpload
  else if has_dates && negb has_query then Some costCalculation
  else if has_query && (Py.truthy invoiceId || chat_context)
  then Some (if Py.truthy invoiceId then invoiceChat else generalDocumentChat)
  else if has_dates && has_query then Some combinedCalculationAndChat
  else None.

(** The request kinds the code's request types stand for. *)
Definition kind_of_request_type (request_type : string) : option kind :=
  if String.eqb request_type "tfl_invoice" then Some invoiceUpload
  else if String.eqb request_type "tfl_calculation" then Some costCalculation
  else if String.eqb request_type "tfl_chat" then Some invoiceChat
  else if String.eqb request_type "general_rag" then Some generalDocumentChat
  else None.

(** The contract applied to an agent state, which carries no file bytes. *)
Definition spec_kind {F} (chat_context : bool) (s : AgentState F) : option kind :=
  spec_classify false (selected_dates s)
    (default "" (content <$> last (messages s))) chat_context (invoice_id s).

End RouterSpec.

(* ------------------------------------------------------------------------- *)
(** ** Notions used to state the properties *)

Module Observations.
Import Model Nodes.
Section observations.
Context {F V : Type} `{!Binary64 F, !Services F V}.

Local Abbreviation AgentState := (Model.AgentState F).
Local Abbreviation world := (Model.world F V).

(** The request carries a non-empty date selection. *)
Definition has_dates (s : AgentState) : bool :=
  match selected_dates s with [] => false | _ :: _ => true end.

(** The query mentions an invoice, or the request carries an invoice id. *)
Definition mentions_invoice (s : AgentState) (query : string) : bool :=
  Py.contains "invoice" (Py.lower query) || Py.truthy (invoice_id s).

(** An entry of the breakdown the node leaves in the state. *)
Definition breakdown_entry (k : string) (s : AgentState) : option (Py.val F) :=
  bd ← cost_breakdown s; Py.get k bd.

(** The total the breakdown records for a date. *)
Definition daily_total (s : AgentState) (d : string) : option F :=
  match breakdown_entry "per_day_breakdown" s with
  | Some (Py.VMap per_day) => per_day !! d
  | _ => None
  end.

(** The breakdown lists [d] among its unmatched dates, with a daily total of
    zero. *)
Definition reports_unmatched (s : AgentState) (d : string) : Prop :=
  (∃ l, breakdown_entry "unmatchedDates" s = Some (Py.VStrs l) ∧ d ∈ l)
  ∧ daily_total s d = Some (fof_Z 0).

(** The transactions the node sums: those of the invoice (the first 1000 the
    store returns) whose date is selected. *)
Definition matched (w : world) (invoice : string) (dates : list string)
  : list (txn_payload F) :=
  List.filter (λ t, date_in (p_date t) dates)
    (Qdrant.payload
       <$> Qdrant.scroll (tfl_invoices w)
             (λ p, String.eqb (p_invoice_id p) invoice) 1000).

(** The amount cell of a row converts to a number. *)
Definition amount_converts (df : Py.DataFrame F) (row : list (Py.val F)) : Prop :=
  ∃ x, Py.float (default (Py.VInt 0) (Py.row_get df row "amount")) = Py.Ok x.

(** The transaction entries of a payload, without the ids. *)
Definition entries (p : txn_payload F)
  : Py.val F * F * Py.val F * option (Py.val F) * option (Py.val F) :=
  (p_date p, p_amount p, p_journey_type p, p_zones p, p_timestamp p).



End observations.
End Observations.

(* ------------------------------------------------------------------------- *)
(** ** Notions about the stored points *)

Module StoreNotions.
Import Model.
Section notions.
Context {F V : Type}.

(** [p] is the first point of the collection that carries its id: the point
    a later upsert of the same id replaces. *)
Inductive heads {P} (p : Qdrant.point (V:=V) P)
  : list (Qdrant.point (V:=V) P) → Prop :=
| heads_here coll : heads p (p :: coll)
| heads_later q coll :
    Qdrant.id q ≠ Qdrant.id p → heads p coll → heads p (q :: coll).

(** The stored transaction with another user id. *)
Definition with_user (user : string)
  (p : Qdrant.point (V:=V) (txn_payload F)) : Qdrant.point (V:=V) (txn_payload F) :=
  Qdrant.Point (Qdrant.id p) (Qdrant.vector p)
    (TxnPayload (p_invoice_id (Qdrant.payload p)) user
       (p_transaction_id (Qdrant.payload p)) (p_date (Qdrant.payload p))
       (p_amount (Qdrant.payload p)) (p_journey_type (Qdrant.payload p))
       (p_zones (Qdrant.payload p)) (p_timestamp (Qdrant.payload p))).

(** The date and the amount of a stored transaction. *)
Definition pair_of (p : txn_payload F) : Py.val F * F := (p_date p, p_amount p).

(** Two stored transactions that differ at most in the user id. *)
Definition same_but_user (p q : Qdrant.point (V:=V) (txn_payload F)) : Prop :=
  ∃ user, q = with_user user p.

(** The transactions of a parsed file that a calculation over [dates] sums:
    those among the first 1000 whose date is selected. *)
Definition selected_transactions (ts : list (Notebook04.transaction F))
  (dates : list string) : list (Notebook04.transaction F) :=
  List.filter (λ t, Nodes.date_in (Notebook04.t_date t) dates) (take 1000 ts).

(** No stored point carries an id of the invoice. *)
Definition fresh_invoice (coll : list (Qdrant.point (V:=V) (txn_payload F)))
  (invoice_id : string) : Prop :=
  ∀ p, p ∈ coll →
       p_invoice_id (Qdrant.payload p) ≠ invoice_id
       ∧ ∀ i, Qdrant.id p ≠ Notebook04.point_id invoice_id i.

End notions.
End StoreNotions.

(* ------------------------------------------------------------------------- *)
(** ** JavaScript dates in local time, and the rest of components/Calendar.tsx

    The host's local time is UTC shifted by a constant [offset] (a time zone
    without daylight-saving changes).  A [Date] holds a time value, a whole
    number of milliseconds of at most [max_time] on either side of the
    epoch, or NaN, and is then an Invalid Date: a date is an [option Z] with
    [None] for the Invalid Date.  The getters are those of a valid date.  On
    an Invalid Date every getter gives NaN and every setter leaves the date
    invalid, which is what [≫=] does with [None].  For an offset of less
    than a day, which the statements about these functions assume, the
    numbers that occur stay below 2^53 in absolute value, so that the
    arithmetic of the host on them is exact. *)

Module JsDate.

(** The day number (days since 1970-01-01) of the first day of the year [y],
    month [m] (from 0) plus [d - 1], on the proleptic Gregorian calendar. *)
Definition days_from_civil (y m d : Z) : Z :=
  let y' := if m <=? 1 then y - 1 else y in
  let era := y' `div` 400 in
  let yoe := y' - era * 400 in
  let mp := (m + 10) `mod` 12 in
  let doy := (153 * mp + 2) `div` 5 + d - 1 in
  let doe := yoe * 365 + yoe `div` 4 - yoe `div` 100 + doy in
  era * 146097 + doe - 719468.

(** [MakeDay(year, month, date)]: months outside 0..11 carry into the
    year. *)
Definition MakeDay (year month date : Z) : Z :=
  let ym := year + month `div` 12 in
  let mn := month `mod` 12 in
  days_from_civil ym mn 1 + date - 1.

Definition MakeDate (day time : Z) : Z := day * Calendar.ms_per_day + time.

Definition Day (t : Z) : Z := t `div` Calendar.ms_per_day.
Definition TimeWithinDay (t : Z) : Z := t `mod` Calendar.ms_per_day.
Definition YearFromTime (t : Z) : Z := (Calendar.civil_from_days (Day t)).1.1.
Definition MonthFromTime (t : Z) : Z := (Calendar.civil_from_days (Day t)).1.2.
Definition DateFromTime (t : Z) : Z := (Calendar.civil_from_days (Day t)).2.
Definition WeekDay (t : Z) : Z := (Day t + 4) `mod` 7.

(** [TimeClip]: a time more than 8.64e15 ms away from the epoch is NaN. *)
Definition max_time : Z := 8640000000000000.

Definition TimeClip (time : Z) : option Z :=
  if (- max_time <=? time) && (time <=? max_time) then Some time else None.

Section local.
Variable offset : Z.

Definition LocalTime (t : Z) : Z := t + offset.
Definition UTC (t : Z) : Z := t - offset.

Definition getFullYear (t : Z) : Z := YearFromTime (LocalTime t).
Definition getMonth (t : Z) : Z := MonthFromTime (LocalTime t).
Definition getDate (t : Z) : Z := DateFromTime (LocalTime t).
Definition getDay (t : Z) : Z := WeekDay (LocalTime t).

(** [new Date(year, month, date)]: local midnight; a year from 0 to 99
    stands for 1900 + year. *)
Definition newDate (year month date : Z) : option Z :=
  let yr := if (0 <=? year) && (year <=? 99) then 1900 + year else year in
  TimeClip (UTC (MakeDate (MakeDay yr month date) 0)).

(** [d.setDate(date)] on the valid date [t]: the new time value. *)
Definition setDate (t date : Z) : option Z :=
  let lt := LocalTime t in
  TimeClip (UTC (MakeDate (MakeDay (YearFromTime lt) (MonthFromTime lt) date)
                   (TimeWithinDay lt))).

(** [d.setMonth(month)] on the valid date [t]: the new time value. *)
Definition setMonth (t month : Z) : option Z :=
  let lt := LocalTime t in
  TimeClip (UTC (MakeDate (MakeDay (YearFromTime lt) month (DateFromTime lt))
                   (TimeWithinDay lt))).

(** [changeMonth]: the updater handed to [setCurrentMonth], on a valid
    [prev]. *)
Definition changeMonth (amount : Z) (prev : Z) : option Z :=
  newDate ← setDate prev 1;
  setMonth newDate (getMonth prev + amount).

(** [renderCells]: the first cell of the grid. *)
Definition grid_start (currentMonth : Z) : option Z :=
  monthStart ← newDate (getFullYear currentMonth) (getMonth currentMonth) 1;
  setDate monthStart (getDate monthStart - getDay monthStart).

(** The loop filling [days]: [n] pushes, starting from [startDate]. *)
Fixpoint push_days (n : nat) (startDate : option Z) : list (option Z) :=
  match n with
  | O => []
  | S n' =>
      startDate
      :: push_days n' (startDate ≫= λ t, setDate t (getDate t + 1))
  end.

Definition days (currentMonth : option Z) : list (option Z) :=
  push_days 42 (currentMonth ≫= grid_start).

(** [d.getMonth() === currentMonth.getMonth()], false when either is NaN. *)
Definition isCurrentMonth (currentMonth d : option Z) : bool :=
  match currentMonth, d with
  | Some c, Some t => getMonth t =? getMonth c
  | _, _ => false
  end.

Definition isSameDay : Z → Z → bool :=
  Calendar.isSameDay getFullYear getMonth getDate.

(** The [onClick] of a cell: the next selection. *)
Definition cell_click (currentMonth : option Z) (selectedDates : list Z)
  (d : option Z) : list Z :=
  match d with
  | Some day =>
      if isCurrentMonth currentMonth d
      then Calendar.handleDateClick getFullYear getMonth getDate
             selectedDates day
      else selectedDates
  | None => selectedDates
  end.

(** The time value of [time] within the day on the first of the month [k],
    counted from January of year 0. *)
Definition month_time (k time : Z) : Z := UTC (MakeDate (MakeDay 0 k 1) time).

End local.

(** The civil date of day [doe] of the 400-year era [era], as
    [civil_from_days] computes it once it has split the day number. *)
Definition civil_tail (doe era : Z) : Z * Z * Z :=
  let yoe := (doe - doe `div` 1460 + doe `div` 36524 - doe `div` 146096) `div` 365 in
  let doy := doe - (365 * yoe + yoe `div` 4 - yoe `div` 100) in
  let mp := (5 * doy + 2) `div` 153 in
  let d := doy - (153 * mp + 2) `div` 5 + 1 in
  let m := if mp <? 10 then mp + 3 else mp - 9 in
  let y := yoe + era * 400 + (if m <=? 2 then 1 else 0) in
  (y, m - 1, d).

(** One 400-year era of the calendar: the civil date of the day [doe] of era
    [era]. *)
Definition civil_of_era (era doe : Z) : Z * Z * Z :=
  Calendar.civil_from_days (era * 146097 + doe - 719468).

(** [p] holds for the [fuel] integers from [z] on. *)
Fixpoint all_from (fuel : nat) (z : Z) (p : Z → bool) : bool :=
  match fuel with
  | O => true
  | S fuel' => p z && all_from fuel' (z + 1) p
  end.

(** The day number of a civil date read from day [doe] of era 0 is that day,
    and its month and date are in range. *)
Definition day_round_trip (doe : Z) : bool :=
  let '(y, m, d) := civil_of_era 0 doe in
  (days_from_civil y m d =? doe - 719468)
  && (0 <=? m) && (m <=? 11) && (1 <=? d) && (d <=? 31).

(** The first of month [k mod 12] of year [k div 12] of era 0 is read back
    from its day number. *)
Definition first_round_trip (k : Z) : bool :=
  let y := k `div` 12 in
  let m := k `mod` 12 in
  let '(y', m', d') := Calendar.civil_from_days (days_from_civil y m 1) in
  (y' =? y) && (m' =? m) && (d' =? 1).

(** A month has 28 to 31 days: the days from the first of month [k] (counted
    from January of year 0) to the first of the next month. *)
Definition month_length (k : Z) : bool :=
  let n := MakeDay 0 (k + 1) 1 - MakeDay 0 k 1 in
  (28 <=? n) && (n <=? 31).

End JsDate.

(* ------------------------------------------------------------------------- *)
(** ** The page: App.tsx, components/FileUpload.tsx and the handlers of
       components/TransportCalculator.tsx

    A file is known by its name.  [Date.now()] and [Math.random()] are
    arguments of the handlers that read them. *)

Module Ui.

(** [String.prototype.endsWith]. *)
Definition endsWith (s searchString : string) : bool :=
  String.prefix (String.rev searchString) (String.rev s).

(** [Array.prototype.join]. *)
Fixpoint join (l : list string) (separator : string) : string :=
  match l with
  | [] => ""
  | [x] => x
  | x :: l' => x +:+ separator +:+ join l' separator
  end.

(** types.ts, [Toast]. *)
Record Toast : Type := MkToast {
  toast_id : Z;
  toast_message : string;
  toast_type : Frontend.toast_type;
}.

(** App.tsx: the updaters [showToast] and [dismissToast] hand to
    [setToasts]. *)
Definition showToast (now : Z) (message : string) (type : Frontend.toast_type)
  (prev : list Toast) : list Toast :=
  let newToast := MkToast now message type in
  prev ++ [newToast].

Definition dismissToast (id : Z) (prev : list Toast) : list Toast :=
  List.filter (λ toast, negb (toast_id toast =? id)) prev.

(** FileUpload.tsx, [handleFileChange]: what it does with the chosen or
    dropped files. *)
Inductive file_change : Type :=
| onFileUpload (file : string)
| alert (message : string)
| nothing.

Definition handleFileChange (acceptedTypes : list string)
  (files : option (list string)) : file_change :=
  match files with
  | Some (file :: _) =>
      if existsb (λ type, endsWith file type) acceptedTypes
      then onFileUpload file
      else alert ("Invalid file type. Please upload one of: "
                  +:+ join acceptedTypes ", ")
  | _ => nothing
  end.

(** FileUpload.tsx, [getFileIcon]. *)
Inductive icon : Type := CsvIcon | PdfIcon | FileIcon.

Definition getFileIcon (fileName : string) : icon :=
  if endsWith fileName ".csv" then CsvIcon
  else if endsWith fileName ".pdf" then PdfIcon
  else FileIcon.

Section app.
Context {F : Type} `{!Binary64 F}.

(** The time zone of the host, as the offset of local time in
    milliseconds. *)
Variable offset : Z.

(** The state of [App] and of its [TransportCalculator], and the selections
    held by the calls of [handleCalculate] that wait on their timer, oldest
    first. *)
Record app : Type := App {
  calc : Frontend.calculator F;
  sharedInvoiceFile : option string;
  toasts : list Toast;
  calculating : list (list Z);
}.

Definition initial : app :=
  App (Frontend.Calculator [] None false None false) None [] [].

Definition handleClear (now : Z) (st : app) : app :=
  App (Frontend.Calculator [] None (Frontend.isLoading (calc st)) None false)
    None
    (showToast now "Selection cleared" Frontend.success (toasts st))
    (calculating st).

Definition handleFileUpload (file : string) (st : app) : app :=
  let c := calc st in
  App (Frontend.Calculator (Frontend.selectedDates c) (Some file)
         (Frontend.isLoading c) (Frontend.totalCost c) (Frontend.enableChat c))
    (if Frontend.enableChat c then Some file else sharedInvoiceFile st)
    (toasts st)
    (calculating st).

Definition handleFileRemove (st : app) : app :=
  let c := calc st in
  App (Frontend.Calculator (Frontend.selectedDates c) None
         (Frontend.isLoading c) (Frontend.totalCost c) (Frontend.enableChat c))
    None
    (toasts st)
    (calculating st).

Definition handleToggleChat (now : Z) (enabled : bool) (st : app) : app :=
  let c := calc st in
  let c' :=
    Frontend.Calculator (Frontend.selectedDates c) (Frontend.uploadedFile c)
      (Frontend.isLoading c) (Frontend.totalCost c) enabled in
  match enabled, Frontend.uploadedFile c with
  | true, Some uploadedFile =>
      App c' (Some uploadedFile)
        (showToast now "Chat enabled with uploaded invoice" Frontend.success
           (toasts st))
        (calculating st)
  | _, _ =>
      App c' None
        (showToast now "Chat disabled" Frontend.success (toasts st))
        (calculating st)
  end.

(** The calendar's [onDateChange] after a click on [day]. *)
Definition onDateClick (day : Z) (st : app) : app :=
  let c := calc st in
  App (Frontend.Calculator
         (Calendar.handleDateClick (JsDate.getFullYear offset)
            (JsDate.getMonth offset) (JsDate.getDate offset)
            (Frontend.selectedDates c) day)
         (Frontend.uploadedFile c) (Frontend.isLoading c)
         (Frontend.totalCost c) (Frontend.enableChat c))
    (sharedInvoiceFile st) (toasts st) (calculating st).

(** [handleCalculate] up to its [await]. *)
Definition handleCalculate_begin (now : Z) (st : app) : app :=
  let c := calc st in
  match Frontend.uploadedFile c, Frontend.selectedDates c with
  | None, _ | _, [] =>
      App c (sharedInvoiceFile st)
        (showToast now "Please upload an invoice and select dates."
           Frontend.error (toasts st))
        (calculating st)
  | Some _, _ :: _ =>
      App (Frontend.Calculator (Frontend.selectedDates c)
             (Frontend.uploadedFile c) true None (Frontend.enableChat c))
        (sharedInvoiceFile st) (toasts st)
        (calculating st ++ [Frontend.selectedDates c])
  end.

(** [handleCalculate] from its [await] on, when the oldest timer fires. *)
Definition handleCalculate_resume (now : Z) (random : F) (st : app) : app :=
  match calculating st with
  | [] => st
  | selectedDates :: rest =>
      let c := calc st in
      let mockResult :=
        fadd (fmul (fof_Z (Z.of_nat (length selectedDates))) (fdec 575 2))
             (fmul random (fof_Z 10)) in
      App (Frontend.Calculator (Frontend.selectedDates c)
             (Frontend.uploadedFile c) false (Some mockResult)
             (Frontend.enableChat c))
        (sharedInvoiceFile st)
        (showToast now "Calculation successful!" Frontend.success (toasts st))
        rest
  end.

Definition isButtonDisabled (st : app) : bool :=
  let c := calc st in
  negb (bool_decide (is_Some (Frontend.uploadedFile c)))
  || bool_decide (Frontend.selectedDates c = [])
  || Frontend.isLoading c.

(** What happens on the page. *)
Inductive event : Type :=
| Clear (now : Z)
| FilesChosen (files : option (list string))
| FileRemoved
| ChatToggled (now : Z) (enabled : bool)
| DayClicked (day : Z)
| CalculateClicked (now : Z)
| TimerFired (now : Z) (random : F)
| ToastDismissed (id : Z).

Definition step (st : app) (e : event) : app :=
  match e with
  | Clear now => handleClear now st
  | FilesChosen files =>
      match handleFileChange [".csv"; ".pdf"] files with
      | onFileUpload file => handleFileUpload file st
      | _ => st
      end
  | FileRemoved => handleFileRemove st
  | ChatToggled now enabled => handleToggleChat now enabled st
  | DayClicked day => onDateClick day st
  | CalculateClicked now => handleCalculate_begin now st
  | TimerFired now random => handleCalculate_resume now random st
  | ToastDismissed id =>
      App (calc st) (sharedInvoiceFile st) (dismissToast id (toasts st))
        (calculating st)
  end.

Definition run (events : list event) : app := fold_left step events initial.

End app.
Arguments app F : clear implicits.
Arguments event F : clear implicits.
End Ui.

(* ------------------------------------------------------------------------- *)
(** ** Facts about the array helpers and the vector store *)

Module JsFacts.
Import Js.

Lemma findIndex_range {A} (p : A → bool) l :
  findIndex p l = -1 ∨ 0 ≤ findIndex p l < Z.of_nat (length l).
Proof.
  induction l as [|x l IH]; simpl; [by left|].
  destruct (p x); [right; lia|].
  destruct (Z.ltb_spec (findIndex p l) 0); [by left | right; lia].
Qed.

Lemma findIndex_none {A} (p : A → bool) l :
  findIndex p l = -1 ↔ ∀ x, x ∈ l → p x = false.
Proof.
  induction l as [|x l IH]; simpl.
  - split; [intros _ x Hx; by apply elem_of_nil in Hx | done].
  - destruct (p x) eqn:Hp.
    + split; [done | intros H; specialize (H x); rewrite Hp in H].
      discriminate H. by left.
    + pose proof (findIndex_range p l) as Hr.
      destruct (Z.ltb_spec (findIndex p l) 0).
      * split; [intros _ y Hy | done].
        apply elem_of_cons in Hy as [-> | Hy]; [done|].
        apply IH; [lia | done].
      * split; [lia | intros H'].
        assert (findIndex p l = -1); [|lia].
        apply IH. intros y Hy. apply H'. by right.
Qed.

Lemma findIndex_found {A} (p : A → bool) l :
  0 ≤ findIndex p l →
  ∃ x, l !! Z.to_nat (findIndex p l) = Some x ∧ p x = true.
Proof.
  induction l as [|x l IH]; simpl; [lia|].
  destruct (p x) eqn:Hp; [intros _; by exists x|].
  destruct (Z.ltb_spec (findIndex p l) 0); [lia|]. intros _.
  destruct IH as (y & Hy & Hpy); [done|]. exists y. split; [|done].
  by replace (Z.to_nat (findIndex p l + 1)) with (S (Z.to_nat (findIndex p l))) by lia.
Qed.

Lemma filter_from_past {A} (l : list A) (i k : Z) :
  k < i → filter_from (λ _ index, negb (index =? k)) i l = l.
Proof.
  revert i. induction l as [|x l IH]; intros i Hik; simpl; [done|].
  destruct (Z.eqb_spec i k); [lia|]. simpl. f_equal. apply IH. lia.
Qed.

Lemma filter_from_neq {A} (l : list A) (i k : Z) :
  i ≤ k →
  filter_from (λ _ index, negb (index =? k)) i l = delete (Z.to_nat (k - i)) l.
Proof.
  revert i. induction l as [|x l IH]; intros i Hik; simpl; [done|].
  destruct (Z.eqb_spec i k) as [->|Hne]; simpl.
  - replace (Z.to_nat (k - k)) with 0%nat by lia. simpl.
    apply filter_from_past. lia.
  - replace (Z.to_nat (k - i)) with (S (Z.to_nat (k - (i + 1)))) by lia.
    simpl. f_equal. apply IH. lia.
Qed.

Lemma sort_by_time_perm l : sort_by_time l ≡ₚ l.
Proof. apply merge_sort_Permutation. Qed.

Lemma sort_by_time_sorted l : Sorted Z.le (sort_by_time l).
Proof. apply (Sorted_merge_sort Z.le). Qed.

End JsFacts.

Module QdrantFacts.
Import Qdrant.
Section store.
Context {F V : Type} `{!Binary64 F, !Services F V}.


Lemma elem_of_upsert1 {P} (p q : point (V:=V) P) coll :
  q ∈ coll → id q ≠ id p → q ∈ upsert1 p coll.
Proof.
  induction coll as [|r coll IH]; simpl; intros Hin Hne.
  - by apply elem_of_nil in Hin.
  - apply elem_of_cons in Hin as [-> | Hin].
    + destruct (String.eqb_spec (id r) (id p)); [done | by left].
    + destruct (String.eqb_spec (id r) (id p)); right; [done | by apply IH].
Qed.


End store.
End QdrantFacts.

(* ------------------------------------------------------------------------- *)
(** ** Properties of the calendar selection *)

Module CalendarFacts.
Import Calendar.

Section handlers.
Variables getFullYear getMonth getDate : Z → Z.

Local Abbreviation isSameDay := (Calendar.isSameDay getFullYear getMonth getDate).
Local Abbreviation handleDateClick :=
  (Calendar.handleDateClick getFullYear getMonth getDate).
Local Abbreviation distinct_days :=
  (Calendar.distinct_days getFullYear getMonth getDate).
Local Abbreviation selected := (Calendar.selected getFullYear getMonth getDate).
Local Abbreviation day_key := (Calendar.day_key getFullYear getMonth getDate).

Lemma isSameDay_key a b : isSameDay a b = true ↔ day_key a = day_key b.
Proof.
  unfold Calendar.isSameDay, Calendar.day_key. rewrite !andb_true_iff, !Z.eqb_eq.
  split; [intros [[-> ->] ->]; done | intros [= -> -> ->]; done].
Qed.

Lemma isSameDay_refl a : isSameDay a a = true.
Proof. by apply isSameDay_key. Qed.

Lemma isSameDay_sym a b : isSameDay a b = isSameDay b a.
Proof.
  apply eq_true_iff_eq. rewrite !isSameDay_key. split; congruence.
Qed.

Lemma distinct_days_NoDup l : distinct_days l ↔ NoDup (day_key <$> l).
Proof.
  rewrite NoDup_alt. unfold Calendar.distinct_days. split.
  - intros H i j k Hi Hj.
    apply list_lookup_fmap_Some in Hi as (a & -> & Ha).
    apply list_lookup_fmap_Some in Hj as (b & Hk & Hb).
    eapply H; eauto. by apply isSameDay_key.
  - intros H i j a b Ha Hb Hab. apply isSameDay_key in Hab.
    apply (H i j (day_key a)).
    + by rewrite list_lookup_fmap, Ha.
    + by rewrite list_lookup_fmap, Hb, Hab.
Qed.

Lemma distinct_days_perm l k : l ≡ₚ k → distinct_days l → distinct_days k.
Proof. rewrite !distinct_days_NoDup. by intros ->. Qed.

(** The two branches of the handler, up to the final sort. *)
Lemma handleDateClick_found l day n x :
  Js.findIndex (λ d, isSameDay d day) l = Z.of_nat n → l !! n = Some x →
  handleDateClick l day ≡ₚ delete n l.
Proof.
  intros Hi Hx. unfold Calendar.handleDateClick. rewrite Hi.
  destruct (Z.gtb_spec (Z.of_nat n) (-1)); [|lia].
  rewrite JsFacts.sort_by_time_perm. unfold Js.filter.
  rewrite JsFacts.filter_from_neq by lia.
  by replace (Z.to_nat (Z.of_nat n - 0)) with n by lia.
Qed.

Lemma handleDateClick_fresh l day :
  Js.findIndex (λ d, isSameDay d day) l = -1 →
  handleDateClick l day ≡ₚ l ++ [day].
Proof.
  intros Hi. unfold Calendar.handleDateClick. rewrite Hi. simpl.
  apply JsFacts.sort_by_time_perm.
Qed.

(** C10. Clicking a day in a selection that is sorted ascending and holds
    at most one entry per calendar day gives a selection that is again
    sorted ascending with at most one entry per calendar day; the clicked
    day is selected afterwards exactly when it was not selected before,
    and the entries on every other day are the same as before. *)
Theorem handleDateClick_toggles (selectedDates : list Z) (day : Z) :
  Sorted Z.le selectedDates →
  distinct_days selectedDates →
  Sorted Z.le (handleDateClick selectedDates day)
  ∧ distinct_days (handleDateClick selectedDates day)
  ∧ (selected (handleDateClick selectedDates day) day
     ↔ ¬ selected selectedDates day)
  ∧ (∀ d, isSameDay d day = false →
          (d ∈ handleDateClick selectedDates day ↔ d ∈ selectedDates)).
Proof.
  intros _ Hdist. split; [apply JsFacts.sort_by_time_sorted|].
  destruct (JsFacts.findIndex_range (λ d, isSameDay d day) selectedDates)
    as [Hnone | Hsome].
  - pose proof (handleDateClick_fresh _ _ Hnone) as Hperm.
    pose proof (proj1 (JsFacts.findIndex_none _ _) Hnone) as Hall.
    simpl in Hall. split; [|split].
    + apply (distinct_days_perm (selectedDates ++ [day])); [done|].
      apply distinct_days_NoDup. rewrite fmap_app. simpl.
      apply NoDup_app. split; [by apply distinct_days_NoDup|].
      split; [|apply NoDup_singleton].
      intros k Hk Hk'. apply list_elem_of_singleton in Hk' as ->.
      apply list_elem_of_fmap in Hk as (d & Hd & Hin).
      symmetry in Hd. apply isSameDay_key in Hd.
      rewrite (Hall d Hin) in Hd. discriminate.
    + split.
      * intros _ (d & Hin & Hd). rewrite (Hall d Hin) in Hd. discriminate.
      * intros _. exists day. split; [|apply isSameDay_refl].
        rewrite Hperm. apply elem_of_app. right. by left.
    + intros d Hd. rewrite Hperm, elem_of_app, list_elem_of_singleton.
      split; [intros [?| ->]; [done|] | by left].
      rewrite isSameDay_refl in Hd. discriminate.
  - destruct (JsFacts.findIndex_found (λ d, isSameDay d day) selectedDates)
      as (x & Hx & Hxd); [lia|]. simpl in Hxd.
    set (n := Z.to_nat (Js.findIndex (λ d, isSameDay d day) selectedDates)) in *.
    assert (Hperm : handleDateClick selectedDates day ≡ₚ delete n selectedDates).
    { apply (handleDateClick_found _ _ n x); [unfold n; lia | done]. }
    pose proof (delete_Permutation _ _ _ Hx) as Hsplit.
    assert (Hkeys : NoDup (day_key x :: (day_key <$> delete n selectedDates))).
    { apply distinct_days_NoDup in Hdist. by rewrite Hsplit in Hdist. }
    apply NoDup_cons in Hkeys as [Hfresh Hrest].
    split; [|split].
    + apply (distinct_days_perm (delete n selectedDates)); [done|].
      by apply distinct_days_NoDup.
    + split.
      * intros (d & Hin & Hd) _. apply Hfresh.
        rewrite Hperm in Hin. apply list_elem_of_fmap. exists d.
        split; [|done]. apply isSameDay_key.
        apply isSameDay_key in Hd, Hxd. apply isSameDay_key. congruence.
      * intros Hno. destruct Hno. exists x. split; [|done].
        by eapply list_elem_of_lookup_2.
    + intros d Hd. rewrite Hperm. rewrite (elem_of_Permutation_proper _ _ _ Hsplit).
      rewrite elem_of_cons. split; [by right | intros [-> | ?]; [|done]].
      rewrite Hxd in Hd. discriminate.
Qed.
End handlers.

Example utc_jan15 : (utcFullYear jan15, utcMonth jan15, utcDate jan15) = (2024, 0, 15).
Proof. reflexivity. Qed.

Example click_selects :
  handleDateClick utcFullYear utcMonth utcDate [jan15; jan17] jan16
  = [jan15; jan16; jan17].
Proof. reflexivity. Qed.

Example click_deselects :
  handleDateClick utcFullYear utcMonth utcDate [jan15; jan16; jan17] (jan16 + 3600000)
  = [jan15; jan17].
Proof. reflexivity. Qed.

Lemma selection_distinct :
  distinct_days utcFullYear utcMonth utcDate [jan15; jan17].
Proof.
  apply distinct_days_NoDup. apply (bool_decide_unpack _). by vm_compute.
Qed.

Lemma handleDateClick_toggles_witness :
  Sorted Z.le [jan15; jan17]
  ∧ distinct_days utcFullYear utcMonth utcDate [jan15; jan17]
  ∧ Sorted Z.le (handleDateClick utcFullYear utcMonth utcDate [jan15; jan17] jan16).
Proof.
  assert (Hs : Sorted Z.le [jan15; jan17]).
  { repeat constructor. unfold jan15, jan17. lia. }
  split; [exact Hs|]. split; [exact selection_distinct|].
  exact (proj1 (handleDateClick_toggles utcFullYear utcMonth utcDate
                  [jan15; jan17] jan16 Hs selection_distinct)).
Defined.

End CalendarFacts.

(* ------------------------------------------------------------------------- *)
(** ** Properties of the request pipeline *)

Module Pipeline.
Import Model Nodes Observations.

Section pipeline.
Context {F V : Type} `{!Binary64 F, !Services F V}.

Local Abbreviation AgentState := (Model.AgentState F).
Local Abbreviation world := (Model.world F V).

Lemma receive_query_no_messages (s : AgentState) :
  messages s = [] → receive_query s = s.
Proof. intros H. unfold receive_query. by rewrite H. Qed.

Lemma receive_query_frame (s : AgentState) :
  messages (receive_query s) = messages s
  ∧ memory (receive_query s) = memory s
  ∧ invoice_id (receive_query s) = invoice_id s
  ∧ selected_dates (receive_query s) = selected_dates s
  ∧ calculated_amount (receive_query s) = calculated_amount s
  ∧ cost_breakdown (receive_query s) = cost_breakdown s.
Proof. unfold receive_query. by destruct (last (messages s)). Qed.

Lemma route_request_frame (s : AgentState) :
  messages (route_request s) = messages s
  ∧ memory (route_request s) = memory s
  ∧ request_type (route_request s) = request_type s
  ∧ invoice_id (route_request s) = invoice_id s
  ∧ selected_dates (route_request s) = selected_dates s.
Proof.
  unfold route_request.
  by repeat (match goal with |- context [if ?b then _ else _] => destruct b end).
Qed.

Lemma calculate_cost_frame (w : world) (s : AgentState) :
  messages (calculate_cost w s) = messages s
  ∧ memory (calculate_cost w s) = memory s.
Proof. unfold calculate_cost. by destruct (_ || _). Qed.

(** The route chosen for each request type. *)
Lemma route_decision_spec (s : AgentState) :
  route_decision (route_request s)
  = if String.eqb (request_type s) "tfl_invoice" then "generate_response"
    else if String.eqb (request_type s) "tfl_calculation" then "calculate_cost"
    else if String.eqb (request_type s) "tfl_chat" then "generate_response"
    else "retrieve_documents".
Proof.
  unfold route_decision, route_request.
  by repeat (match goal with |- context [if ?b then _ else _] => destruct b end).
Qed.

(** C2 (as amended). For a state with at least one message, [receive_query]
    classifies by the date selection first: a non-empty selection gives
    [tfl_calculation] whether or not there is free text; otherwise a query that
    mentions "invoice" or a set invoice id gives [tfl_chat]; otherwise the
    request is [general_rag].  [route_request] then names the path
    [calculate_cost], [tfl_chat] or [rag_flow] accordingly. *)
Theorem receive_query_precedence (s : AgentState) (m : message) :
  last (messages s) = Some m →
  request_type (receive_query s)
  = (if has_dates s then "tfl_calculation"
     else if mentions_invoice s (content m) then "tfl_chat"
     else "general_rag")
  ∧ route_path (route_request (receive_query s))
    = Some (if has_dates s then "calculate_cost"
            else if mentions_invoice s (content m) then "tfl_chat"
            else "rag_flow").
Proof.
  intros Hm. unfold receive_query, has_dates, mentions_invoice. rewrite Hm.
  destruct (selected_dates s); [|done].
  by destruct (Py.contains _ _ || Py.truthy _).
Qed.

(** C6. A request classified as a calculation runs [receive_query],
    [route_request] and [calculate_cost] and then ends: [generate_response] is
    not among the nodes that ran and no prompt was sent to the model. *)
Theorem calculation_skips_generation (w : world) (s : AgentState) :
  request_type (receive_query s) = "tfl_calculation" →
  ∃ trace w' s',
    invoke w s = Some (trace, w', s')
    ∧ trace = [n_receive_query; n_route_request; n_calculate_cost]
    ∧ (n_generate_response ∉ trace)
    ∧ llm_prompts w' = llm_prompts w.
Proof.
  intros Hrt.
  exists [n_receive_query; n_route_request; n_calculate_cost], w,
    (calculate_cost w (route_request (receive_query s))).
  split; [|split; [done|split; [|done]]].
  - unfold invoke. simpl. rewrite route_decision_spec, Hrt. reflexivity.
  - intros Hin. by repeat (apply elem_of_cons in Hin as [? | Hin]; [done|]);
      apply elem_of_nil in Hin.
Qed.

(** The graph always reaches [END]. *)
Lemma invoke_total (w : world) (s : AgentState) :
  let s1 := route_request (receive_query s) in
  invoke w s
  = if String.eqb (request_type (receive_query s)) "tfl_calculation"
    then Some ([n_receive_query; n_route_request; n_calculate_cost], w,
               calculate_cost w s1)
    else if String.eqb (request_type (receive_query s)) "tfl_invoice"
            || String.eqb (request_type (receive_query s)) "tfl_chat"
    then Some ([n_receive_query; n_route_request; n_generate_response],
               (generate_response w s1).1, (generate_response w s1).2)
    else
      let s2 := format_context (retrieve_documents w s1) in
      Some ([n_receive_query; n_route_request; n_retrieve_documents;
             n_format_context; n_generate_response],
            (generate_response w s2).1, (generate_response w s2).2).
Proof.
  unfold invoke. simpl. rewrite route_decision_spec.
  destruct (String.eqb_spec (request_type (receive_query s)) "tfl_calculation")
    as [->|?]; [done|].
  destruct (String.eqb_spec (request_type (receive_query s)) "tfl_invoice");
    [done|].
  by destruct (String.eqb_spec (request_type (receive_query s)) "tfl_chat").
Qed.

(** C7 (as amended). Handling a request never writes the
    [conversation_memory] collection nor the [memory] entry of the state.
    What the pipeline keeps of a free-text exchange is the message list: on
    every path other than the calculation path the generated reply is
    appended to [messages], and the calculation path leaves [messages] and the
    whole store as they were. *)
Theorem pipeline_memory_frame (w : world) (s : AgentState) :
  ∃ trace w' s',
    invoke w s = Some (trace, w', s')
    ∧ conversation_memory w' = conversation_memory w
    ∧ memory s' = memory s
    ∧ (if String.eqb (request_type (receive_query s)) "tfl_calculation"
       then (n_generate_response ∉ trace) ∧ w' = w ∧ messages s' = messages s
       else n_generate_response ∈ trace
            ∧ messages s' = messages s ++ [Message AI (response s')]).
Proof.
  pose proof (invoke_total w s) as Hinv. simpl in Hinv.
  destruct (receive_query_frame s) as (Hm1 & Hmem1 & _).
  destruct (route_request_frame (receive_query s)) as (Hm2 & Hmem2 & _).
  destruct (String.eqb_spec (request_type (receive_query s)) "tfl_calculation")
    as [Hc|Hc].
  - eexists _, _, _. split; [exact Hinv|].
    destruct (calculate_cost_frame w (route_request (receive_query s))) as [Hm3 Hmem3].
    split; [done|]. split; [congruence|]. split; [|split; [done|congruence]].
    intros Hin. by repeat (apply elem_of_cons in Hin as [? | Hin]; [done|]);
      apply elem_of_nil in Hin.
  - simpl in Hinv.
    destruct (String.eqb (request_type (receive_query s)) "tfl_invoice"
              || String.eqb (request_type (receive_query s)) "tfl_chat");
      eexists _, _, _; (split; [exact Hinv|]); simpl;
      (split; [done|]); (split; [congruence|]);
      (split; [set_solver | congruence]).
Qed.

End pipeline.
End Pipeline.

(* ------------------------------------------------------------------------- *)
(** ** Properties of the cost calculation *)

Module Calculation.
Import Model Nodes Observations.

Section calculation.
Context {F V : Type} `{!Binary64 F, !Services F V}.

Local Abbreviation AgentState := (Model.AgentState F).
Local Abbreviation world := (Model.world F V).

Lemma elem_of_matched (w : world) invoice dates t :
  t ∈ matched w invoice dates →
  date_in (p_date t) dates = true
  ∧ ∃ p, p ∈ tfl_invoices w ∧ Qdrant.payload p = t ∧ p_invoice_id t = invoice.
Proof.
  unfold matched, Qdrant.scroll. rewrite list_elem_of_In, filter_In.
  intros [Hin Hd]. split; [done|]. apply list_elem_of_In in Hin.
  apply list_elem_of_fmap in Hin as (p & -> & Hp).
  apply subseteq_take in Hp. apply list_elem_of_In, filter_In in Hp as [Hp Hid].
  exists p. split; [by apply list_elem_of_In|]. split; [done|].
  by apply String.eqb_eq.
Qed.

Lemma per_day_absent (l : list (txn_payload F)) (per_day : gmap string F) d :
  per_day !! d = None →
  (∀ t, t ∈ l → p_date t ≠ Py.VStr d) →
  foldl per_day_step per_day l !! d = None.
Proof.
  revert per_day. induction l as [|t l IH]; intros per_day Hd Hl; simpl; [done|].
  apply IH; [|intros t' Ht'; apply Hl; by right].
  unfold per_day_step. destruct (p_date t) eqn:Ht; try done.
  rewrite lookup_insert_ne; [done|]. intros ->. apply (Hl t); [by left | done].
Qed.

Lemma calculate_cost_ok (w : world) (s : AgentState) invoice :
  Py.truthy (invoice_id s) = true → invoice_id s = Some invoice →
  selected_dates s ≠ [] →
  let filtered := matched w invoice (selected_dates s) in
  let total := fround2 (Py.sum (p_amount <$> filtered)) in
  calculate_cost w s
  = set_response ("Total cost for selected dates: £" +:+ fstr total)
      (set_cost_breakdown
         (Some [("total_amount", Py.VFloat total);
                ("per_day_breakdown", Py.VMap (foldl per_day_step ∅ filtered));
                ("transactions_count", Py.VInt (Z.of_nat (length filtered)))])
         (set_calculated_amount (Some total) s)).
Proof.
  intros Ht Hi Hd. unfold calculate_cost. rewrite Ht, Hi. simpl.
  by destruct (selected_dates s).
Qed.

(** C3 (as amended). When a selected date matches no transaction of the
    invoice, the calculation still succeeds; the breakdown it stores has the
    three entries [total_amount], [per_day_breakdown] and [transactions_count]
    and no list of unmatched dates, and the date has no entry in
    [per_day_breakdown]: it is left out, not listed with a zero total. *)
Theorem unmatched_date_left_out (w : world) (s : AgentState) (invoice d : string) :
  invoice_id s = Some invoice → invoice ≠ "" →
  d ∈ selected_dates s →
  (∀ p, p ∈ tfl_invoices w → p_invoice_id (Qdrant.payload p) = invoice →
        p_date (Qdrant.payload p) ≠ Py.VStr d) →
  ∃ total per_day count,
    cost_breakdown (calculate_cost w s)
    = Some [("total_amount", Py.VFloat total);
            ("per_day_breakdown", Py.VMap per_day);
            ("transactions_count", Py.VInt count)]
    ∧ calculated_amount (calculate_cost w s) = Some total
    ∧ per_day !! d = None
    ∧ Py.get "unmatchedDates" (default [] (cost_breakdown (calculate_cost w s)))
      = None.
Proof.
  intros Hi Hne Hd Hno.
  assert (Ht : Py.truthy (invoice_id s) = true).
  { rewrite Hi. by destruct invoice. }
  assert (Hsel : selected_dates s ≠ []).
  { intros Hnil. rewrite Hnil in Hd. by apply elem_of_nil in Hd. }
  rewrite (calculate_cost_ok w s invoice Ht Hi Hsel). simpl.
  eexists _, _, _. split; [reflexivity|]. split; [done|]. split; [|done].
  apply per_day_absent; [done|]. intros t Hin.
  apply elem_of_matched in Hin as (_ & p & Hp & <- & Hinv). by apply Hno.
Qed.

(** C4 (as amended). With an empty date selection the calculation node
    computes no breakdown: it sets the response to the error text and leaves
    everything else, [calculated_amount] and [cost_breakdown] included, as it
    was.  The stand-alone [calculate_cost] of the parser notebook has no such
    guard: for an empty selection it returns a zero total, an empty per-day
    breakdown and a transaction count of 0. *)
Theorem empty_selection_rejected (w : world) (s : AgentState)
  (invoice user : string) :
  selected_dates s = [] →
  calculate_cost w s
  = set_response "Error: Missing invoice_id or selected_dates" s
  ∧ Notebook04.calculate_cost invoice [] user w
    = [("total_amount", Py.VFloat (fround2 (fof_Z 0)));
       ("selected_dates", Py.VStrs []);
       ("per_day_breakdown", Py.VMap ∅);
       ("transactions_count", Py.VInt 0)].
Proof.
  intros Hd. split.
  - unfold calculate_cost. rewrite Hd. by rewrite orb_true_r.
  - unfold Notebook04.calculate_cost.
    assert (Hnil : ∀ l : list (txn_payload F),
               List.filter (λ t, date_in (p_date t) []) l = []).
    { induction l as [|t l IH]; simpl; [done|].
      assert (date_in (p_date t) [] = false) as ->; [|done].
      unfold date_in. destruct (p_date t); try done;
        apply bool_decide_eq_false, not_elem_of_nil. }
    by rewrite Hnil.
Qed.

(** C5. The cost calculation has no hidden input: it reads the ledger, the
    invoice id and the selected dates and nothing else, neither a clock nor
    a random source nor any other part of the store or of the state.  Two
    runs that agree on these three give the same response, and the same
    amount and breakdown whenever they compute one. *)
Theorem calculate_cost_inputs (w1 w2 : world) (s1 s2 : AgentState) :
  tfl_invoices w1 = tfl_invoices w2 →
  invoice_id s1 = invoice_id s2 →
  selected_dates s1 = selected_dates s2 →
  response (calculate_cost w1 s1) = response (calculate_cost w2 s2)
  ∧ (Py.truthy (invoice_id s1) = true → selected_dates s1 ≠ [] →
     calculated_amount (calculate_cost w1 s1)
     = calculated_amount (calculate_cost w2 s2)
     ∧ cost_breakdown (calculate_cost w1 s1)
       = cost_breakdown (calculate_cost w2 s2)).
Proof.
  intros Hw Hi Hd. unfold calculate_cost. rewrite <- Hw, <- Hi, <- Hd.
  destruct (Py.truthy (invoice_id s1)); simpl; [|split; [done|by intros]].
  destruct (selected_dates s1); [split; [done|by intros]|done].
Qed.

End calculation.
End Calculation.

(* ------------------------------------------------------------------------- *)
(** ** Properties of invoice parsing and storage *)

Module Ingest.
Import Model Observations.

Lemma length_append (a s : string) :
  String.length (a +:+ s) = (String.length a + String.length s)%nat.
Proof. induction a as [|c a IH]; simpl; [done | by rewrite IH]. Qed.

Lemma append_inv_tail (a b s : string) : a +:+ s = b +:+ s → a = b.
Proof.
  revert b. induction a as [|c a IH]; intros [|d b] Heq; simpl in Heq.
  - done.
  - apply (f_equal String.length) in Heq.
    rewrite !length_append in Heq. simpl in Heq. lia.
  - apply (f_equal String.length) in Heq.
    rewrite !length_append in Heq. simpl in Heq. lia.
  - injection Heq as -> Heq. f_equal. by apply IH.
Qed.

Lemma mapM_length {A B} (f : A → Py.outcome B) l ys :
  Py.mapM f l = Py.Ok ys → length ys = length l.
Proof.
  revert ys. induction l as [|x l IH]; intros ys; simpl.
  - by intros [= <-].
  - destruct (f x); simpl; [|done]. destruct (Py.mapM f l); simpl; [|done].
    intros [= <-]. simpl. f_equal. by apply IH.
Qed.

Lemma mapM_ok {A B} (f : A → Py.outcome B) l :
  (∀ x, x ∈ l → ∃ y, f x = Py.Ok y) → ∃ ys, Py.mapM f l = Py.Ok ys.
Proof.
  induction l as [|x l IH]; intros Hall; simpl; [by eexists|].
  destruct (Hall x) as [y ->]; [by left|]. simpl.
  destruct IH as [ys ->]; [intros z Hz; apply Hall; by right|]. by eexists.
Qed.

Lemma mapM_raise {A B} (f : A → Py.outcome B) l x e :
  x ∈ l → f x = Py.Raise e → ∃ e', Py.mapM f l = Py.Raise e'.
Proof.
  induction l as [|z l IH]; intros Hin Hx; [by apply elem_of_nil in Hin|].
  simpl. apply elem_of_cons in Hin as [<- | Hin].
  - rewrite Hx. by eexists.
  - destruct (f z); simpl; [|by eexists].
    destruct (IH Hin Hx) as [e' ->]. by eexists.
Qed.

Section ingest.
Context {F V : Type} `{!Binary64 F, !Services F V}.

Local Abbreviation world := (Model.world F V).

Lemma upload_row_ok df row :
  amount_converts df row → ∃ t, Api.upload_row df row = Py.Ok t.
Proof. intros [x Hx]. unfold Api.upload_row. rewrite Hx. by eexists. Qed.

Lemma upload_row_raise df row :
  ¬ amount_converts df row → ∃ e, Api.upload_row df row = Py.Raise e.
Proof.
  intros Hno. unfold Api.upload_row.
  destruct (Py.float _) eqn:Hf; [destruct Hno; by eexists | by eexists].
Qed.

(** The parser of notebook 04 returns one transaction per data row, or
    raises. *)
Lemma parse_csv_invoice_length now_iso (df : Py.DataFrame F) ts :
  Notebook04.parse_csv_invoice now_iso df = Py.Ok ts →
  length ts = length (Py.rows df).
Proof. apply mapM_length. Qed.

Lemma parse_csv_row_raise now_iso (df : Py.DataFrame F) row :
  ¬ amount_converts df row → ∃ e, Notebook04.parse_csv_row now_iso df row = Py.Raise e.
Proof.
  intros Hno. unfold Notebook04.parse_csv_row, Py.row_item.
  destruct (Py.row_get df row "date") as [date|]; simpl; [|by eexists].
  destruct (Py.row_get df row "amount") as [cell|] eqn:Hv; simpl; [|by eexists].
  destruct (Py.float cell) eqn:Hf; simpl; [|by eexists].
  destruct Hno. unfold amount_converts. rewrite Hv. by eexists.
Qed.

(** C8 (as amended). Parsing a CSV drops no row and counts no skipped rows:
    [parse_csv_invoice] and the loop of [upload_invoice] return one
    transaction per data row whenever they return.  The loop of
    [upload_invoice] returns when the amount of every row converts to a
    number, which an empty field (NaN) does, and the response then counts
    every row; when the amount of some row does not convert, both parsers
    raise, and the upload stores nothing. *)
Theorem csv_rows_kept_or_parse_aborts (now : Z) (now_iso filename : string)
  (df : Py.DataFrame F) (user_id : option string) (w : world) :
  Py.endswith filename ".csv" = true →
  (∀ ts, Notebook04.parse_csv_invoice now_iso df = Py.Ok ts →
         length ts = length (Py.rows df))
  ∧ (∀ ts, Api.upload_transactions df = Py.Ok ts →
           length ts = length (Py.rows df))
  ∧ ((∀ row, row ∈ Py.rows df → amount_converts df row) →
     (∃ ts, Api.upload_transactions df = Py.Ok ts)
     ∧ (Api.upload_invoice now filename df user_id w).1
       = Py.Ok [("invoice_id", Py.VStr (Api.new_invoice_id user_id now));
                ("transactions_count",
                 Py.VInt (Z.of_nat (length (Py.rows df))))])
  ∧ (∀ row, row ∈ Py.rows df → ¬ amount_converts df row →
     (∃ e, Notebook04.parse_csv_invoice now_iso df = Py.Raise e)
     ∧ ∃ e, Api.upload_invoice now filename df user_id w = (Py.Raise e, w))
  ∧ Py.float (Py.VFloat fnan) = Py.Ok (fnan : F).
Proof.
  intros Hcsv. split; [|split; [|split; [|split]]].
  - intros ts. apply parse_csv_invoice_length.
  - intros ts. apply mapM_length.
  - intros Hall.
    destruct (mapM_ok (Api.upload_row df) (Py.rows df)) as [ts Hts].
    { intros row Hrow. by apply upload_row_ok, Hall. }
    split; [by exists ts|].
    unfold Api.upload_invoice, Api.upload_transactions. rewrite Hcsv, Hts.
    simpl. by rewrite (mapM_length _ _ _ Hts).
  - intros row Hrow Hno. split.
    + destruct (parse_csv_row_raise now_iso df row Hno) as [e He].
      by apply (mapM_raise _ _ _ _ Hrow He).
    + destruct (upload_row_raise df row Hno) as [e He].
      unfold Api.upload_invoice, Api.upload_transactions. rewrite Hcsv.
      destruct (mapM_raise _ _ _ _ Hrow He) as [e' ->]. by eexists.
  - done.
Qed.

Lemma enumerate_from_fmap {A B} (f : nat → A → B) (g : nat → B) l i :
  (∀ j x, f j x = g j) →
  (λ '(j, x), f j x) <$> Py.enumerate_from i l = g <$> seq i (length l).
Proof.
  intros Hfg. revert i. induction l as [|x l IH]; intros i; simpl; [done|].
  by rewrite Hfg, IH.
Qed.

Lemma invoice_points_ids b (ts : list (Notebook04.transaction F)) inv user :
  Qdrant.id <$> Notebook04.invoice_points (V:=V) b ts inv user
  = Notebook04.point_id inv <$> seq 0 (length ts).
Proof.
  unfold Notebook04.invoice_points, Py.enumerate. rewrite <- list_fmap_compose.
  rewrite <- (enumerate_from_fmap (λ j _, Notebook04.point_id inv j)); [|done].
  apply list_fmap_ext. by intros i [j t] _.
Qed.

Lemma invoice_points_entries b (ts : list (Notebook04.transaction F)) inv inv' user :
  entries ∘ Qdrant.payload <$> Notebook04.invoice_points (V:=V) b ts inv user
  = entries ∘ Qdrant.payload <$> Notebook04.invoice_points (V:=V) b ts inv' user.
Proof.
  unfold Notebook04.invoice_points, Py.enumerate. generalize 0%nat.
  induction ts as [|t ts IH]; intros i; simpl; [done|]. f_equal. apply IH.
Qed.

Lemma new_invoice_id_inj user now1 now2 :
  Api.new_invoice_id user now1 = Api.new_invoice_id user now2 → now1 = now2.
Proof.
  unfold Api.new_invoice_id. intros Heq.
  do 3 apply String.app_inj in Heq. by apply (inj pretty).
Qed.

(** C9 (as amended). Uploading the same file twice stores the same
    transaction entries (date, amount, journey type), but the point ids do not
    come from the content: the i-th id is the invoice id followed by the
    position i, both in [upload_invoice] and in [store_invoice], and
    [upload_invoice] builds the invoice id from the user id and the second of
    the upload.  Two uploads of a file with at least one row therefore get
    the same ids exactly when they happen within the same second. *)
Theorem upload_ids_follow_clock (now1 now2 : Z) (filename : string)
  (df : Py.DataFrame F) (user_id : option string) (w : world)
  (ts : list (Notebook04.transaction F)) (invoice_id user : string) :
  Py.endswith filename ".csv" = true →
  Api.upload_transactions df = Py.Ok ts →
  let points now :=
    Notebook04.invoice_points (V:=V) false ts (Api.new_invoice_id user_id now)
      (Py.or_default user_id "default") in
  tfl_invoices (Api.upload_invoice now1 filename df user_id w).2
  = Qdrant.upsert (tfl_invoices w) (points now1)
  ∧ entries ∘ Qdrant.payload <$> points now1
    = entries ∘ Qdrant.payload <$> points now2
  ∧ Qdrant.id <$> points now1
    = Notebook04.point_id (Api.new_invoice_id user_id now1) <$> seq 0 (length ts)
  ∧ Qdrant.id <$> Notebook04.invoice_points (V:=V) true ts invoice_id user
    = Notebook04.point_id invoice_id <$> seq 0 (length ts)
  ∧ (ts ≠ [] →
     (Qdrant.id <$> points now1 = Qdrant.id <$> points now2 ↔ now1 = now2)).
Proof.
  intros Hcsv Hts points. split; [|split; [|split; [|split]]].
  - unfold Api.upload_invoice. by rewrite Hcsv, Hts.
  - apply invoice_points_entries.
  - apply invoice_points_ids.
  - apply invoice_points_ids.
  - intros Hne. split; [|by intros ->].
    unfold points. rewrite !invoice_points_ids.
    destruct ts as [|t ts]; [done|]. intros Heq.
    apply (f_equal head) in Heq. cbn [head fmap list_fmap seq length] in Heq.
    apply (inj Some) in Heq. unfold Notebook04.point_id in Heq.
    apply append_inv_tail in Heq. by apply new_invoice_id_inj in Heq.
Qed.

End ingest.
End Ingest.

(* ------------------------------------------------------------------------- *)
(** ** Similarity retrieval and the sessions of the stored documents *)

Module Isolation.
Import Model Observations.

Section isolation.
Context {F V : Type} `{!Binary64 F, !Services F V}.

Local Abbreviation world := (Model.world F V).



End isolation.
End Isolation.

(* ------------------------------------------------------------------------- *)
(** ** The front-end calculation *)

Module FrontendFacts.
Import Frontend.

Section frontend.
Context {F : Type} `{!Binary64 F}.

(** With a file and a selection, the total shown is 5.75 per selected day
    plus ten times the random draw. *)
Lemma handleCalculate_total (random : F) (st : calculator F) (file : string) :
  uploadedFile st = Some file → selectedDates st ≠ [] →
  totalCost (handleCalculate random st).1
  = Some (fadd (fmul (fof_Z (Z.of_nat (length (selectedDates st)))) (fdec 575 2))
               (fmul random (fof_Z 10))).
Proof.
  intros Hf Hd. unfold handleCalculate. rewrite Hf.
  by destruct (selectedDates st).
Qed.

End frontend.
End FrontendFacts.

(* ------------------------------------------------------------------------- *)
(** ** The code evaluated on the fixtures *)

Module Evaluation.
Import Model Exact Fixtures.

Example literal_5_75 : (fdec 575 2, fof_Z 10) = (Cents 575, Cents 1000).
Proof. reflexivity. Qed.

Example show_8_5 : (show (Cents 850), show (Cents 1075), show (Cents 1000)) = ("8.5", "10.75", "10.0").
Proof. reflexivity. Qed.

Example parse_8_50 : (parse "8.50", parse "2.25", parse "abc", parse "") = (Some (Cents 850), Some (Cents 225), None, None).
Proof. reflexivity. Qed.


(** C2, a request the code classifies differently from the specification's
    precedence: dates and free text together are a calculation for the code,
    an invoice chat (with an invoice id) or a combined request (without) for
    the specification. *)
Lemma classification_differs :
  RouterSpec.kind_of_request_type
    (request_type (Nodes.receive_query dates_and_question))
  = Some RouterSpec.costCalculation
  ∧ RouterSpec.spec_kind false dates_and_question = Some RouterSpec.invoiceChat
  ∧ RouterSpec.kind_of_request_type
      (request_type (Nodes.receive_query dates_and_question_no_invoice))
    = Some RouterSpec.costCalculation
  ∧ RouterSpec.spec_kind false dates_and_question_no_invoice
    = Some RouterSpec.combinedCalculationAndChat
  ∧ RouterSpec.spec_kind true dates_and_question_no_invoice
    = Some RouterSpec.generalDocumentChat.
Proof. by vm_compute. Qed.

Lemma receive_query_precedence_witness :
  last (messages dates_and_question)
  = Some (Message Human "How much did I spend on these days?")
  ∧ request_type (Nodes.receive_query dates_and_question) = "tfl_calculation"
  ∧ route_path (Nodes.route_request (Nodes.receive_query dates_and_question))
    = Some "calculate_cost".
Proof.
  split; [reflexivity|].
  exact (Pipeline.receive_query_precedence dates_and_question
           (Message Human "How much did I spend on these days?") eq_refl).
Defined.

(** C3, a selected date without transactions: the breakdown has no entry
    for unmatched dates and no daily total for the date. *)
Lemma unmatched_date_not_reported :
  "2024-01-17" ∈ selected_dates dates_and_question
  ∧ Observations.matched store "invoice_001" ["2024-01-17"] = []
  ∧ Observations.breakdown_entry "unmatchedDates"
      (Nodes.calculate_cost store dates_and_question) = None
  ∧ Observations.daily_total (Nodes.calculate_cost store dates_and_question)
      "2024-01-17" = None
  ∧ Observations.daily_total (Nodes.calculate_cost store dates_and_question)
      "2024-01-15" = Some (Cents 1075)
  ∧ ¬ Observations.reports_unmatched
        (Nodes.calculate_cost store dates_and_question) "2024-01-17".
Proof.
  split; [set_solver|]. split; [by vm_compute|]. split; [by vm_compute|].
  split; [by vm_compute|]. split; [by vm_compute|].
  intros [_ Hd]. vm_compute in Hd. discriminate Hd.
Qed.

Lemma ledger_has_no_jan17 (p : Qdrant.point (V:=string) (txn_payload cents)) :
  p ∈ tfl_invoices store → p_invoice_id (Qdrant.payload p) = "invoice_001" →
  p_date (Qdrant.payload p) ≠ Py.VStr "2024-01-17".
Proof.
  intros Hp _. simpl in Hp. unfold ledger in Hp.
  repeat (apply elem_of_cons in Hp as [-> | Hp]; [by simpl|]).
  by apply elem_of_nil in Hp.
Qed.

Lemma unmatched_date_left_out_witness :
  ∃ total per_day count,
    cost_breakdown (Nodes.calculate_cost store dates_and_question)
    = Some [("total_amount", Py.VFloat total);
            ("per_day_breakdown", Py.VMap per_day);
            ("transactions_count", Py.VInt count)]
    ∧ calculated_amount (Nodes.calculate_cost store dates_and_question)
      = Some total
    ∧ per_day !! "2024-01-17" = None
    ∧ Py.get "unmatchedDates"
        (default [] (cost_breakdown (Nodes.calculate_cost store dates_and_question)))
      = None.
Proof.
  apply (Calculation.unmatched_date_left_out store dates_and_question
           "invoice_001" "2024-01-17" eq_refl).
  - discriminate.
  - apply list_elem_of_further, list_elem_of_here.
  - exact ledger_has_no_jan17.
Defined.

(** C4, the empty selection: the node answers with the error text and
    computes no breakdown. *)
Lemma empty_selection_is_an_error :
  selected_dates empty_selection = []
  ∧ cost_breakdown (Nodes.calculate_cost store empty_selection) = None
  ∧ calculated_amount (Nodes.calculate_cost store empty_selection) = None
  ∧ response (Nodes.calculate_cost store empty_selection)
    = "Error: Missing invoice_id or selected_dates"
  ∧ (λ r, response r.2) <$> Nodes.invoke store empty_selection
    = Some "Error: Missing invoice_id or selected_dates".
Proof. by vm_compute. Qed.

Lemma empty_selection_rejected_witness :
  selected_dates empty_selection = []
  ∧ Nodes.calculate_cost store empty_selection
    = set_response "Error: Missing invoice_id or selected_dates" empty_selection.
Proof.
  split; [reflexivity|].
  exact (proj1 (Calculation.empty_selection_rejected (V:=string) store
                  empty_selection "invoice_001" "alice" eq_refl)).
Defined.

(** The placeholder in the front end, which stands in for the call of the
    calculation until the page is connected to it: two runs of
    [handleCalculate] on the same file and the same two selected days, with
    the random draws 0 and 0.5, show the totals 11.50 and 16.50. *)
Example handleCalculate_not_repeatable :
  Frontend.totalCost (Frontend.handleCalculate (Cents 0) two_days).1
  = Some (Cents 1150)
  ∧ Frontend.totalCost (Frontend.handleCalculate (Cents 50) two_days).1
    = Some (Cents 1650)
  ∧ Frontend.totalCost (Frontend.handleCalculate (Cents 0) two_days).1
    ≠ Frontend.totalCost (Frontend.handleCalculate (Cents 50) two_days).1.
Proof.
  split; [by vm_compute|]. split; [by vm_compute|].
  intros Heq. vm_compute in Heq. discriminate Heq.
Qed.

Lemma calculate_cost_inputs_witness :
  tfl_invoices store = ledger
  ∧ calculated_amount (Nodes.calculate_cost store dates_and_question)
    = calculated_amount
        (Nodes.calculate_cost (World [] ledger [] ["an earlier prompt"])
           (request "The total, please." (Some "invoice_001")
              ["2024-01-15"; "2024-01-17"]))
  ∧ cost_breakdown (Nodes.calculate_cost store dates_and_question)
    = cost_breakdown
        (Nodes.calculate_cost (World [] ledger [] ["an earlier prompt"])
           (request "The total, please." (Some "invoice_001")
              ["2024-01-15"; "2024-01-17"])).
Proof.
  split; [reflexivity|].
  refine (proj2 (Calculation.calculate_cost_inputs store
                   (World [] ledger [] ["an earlier prompt"])
                   dates_and_question
                   (request "The total, please." (Some "invoice_001")
                      ["2024-01-15"; "2024-01-17"])
                   eq_refl eq_refl eq_refl) eq_refl _).
  discriminate.
Defined.

Lemma calculation_skips_generation_witness :
  request_type (Nodes.receive_query dates_and_question) = "tfl_calculation"
  ∧ ∃ trace w' s',
      Nodes.invoke store dates_and_question = Some (trace, w', s')
      ∧ trace = [Nodes.n_receive_query; Nodes.n_route_request;
                 Nodes.n_calculate_cost]
      ∧ (Nodes.n_generate_response ∉ trace)
      ∧ llm_prompts w' = llm_prompts store.
Proof.
  split; [reflexivity|].
  exact (Pipeline.calculation_skips_generation store dates_and_question eq_refl).
Defined.

(** C7, a chat request: the reply is generated and appended to the
    messages, and both the [conversation_memory] collection and the [memory]
    entry of the state are as empty as before. *)
Lemma chat_turn_not_stored :
  (λ r, (r.1.1, conversation_memory r.1.2, memory r.2, messages r.2))
  <$> Nodes.invoke store invoice_question
  = Some ([Nodes.n_receive_query; Nodes.n_route_request;
           Nodes.n_generate_response],
          [], ∅,
          [Message Human "What is on my invoice?";
           Message AI "Here is what I found in the context."]).
Proof. by vm_compute. Qed.

(** C8, three rows of which one has no amount: both parsers return three
    transactions, the second with amount NaN, and the response counts three
    and has no entry for skipped rows; with a non-numeric amount both
    parsers raise and the upload stores nothing. *)
Lemma missing_amount_row_is_kept :
  Notebook04.parse_csv_invoice "2024-02-01T09:00:00" csv_missing_amount
  = Py.Ok (with_defaults "2024-02-01T09:00:00" <$> parsed_rows)
  ∧ Api.upload_transactions csv_missing_amount = Py.Ok parsed_rows
  ∧ Notebook04.t_amount <$> parsed_rows = [Cents 850; NaN; Cents 450]
  ∧ (Api.upload_invoice 1700000000 "invoice.csv" csv_missing_amount
       (Some "alice") store).1
    = Py.Ok [("invoice_id", Py.VStr "invoice_alice_1700000000");
             ("transactions_count", Py.VInt 3)]
  ∧ Notebook04.parse_csv_invoice "2024-02-01T09:00:00" csv_bad_amount
    = Py.Raise "ValueError"
  ∧ Api.upload_invoice 1700000000 "invoice.csv" csv_bad_amount (Some "alice")
      store
    = (Py.Raise "ValueError", store).
Proof. by vm_compute. Qed.

Lemma csv_rows_kept_or_parse_aborts_witness :
  Py.endswith "invoice.csv" ".csv" = true
  ∧ (∀ ts, Api.upload_transactions csv_missing_amount = Py.Ok ts →
           length ts = length (Py.rows csv_missing_amount)).
Proof.
  split; [reflexivity|].
  exact (proj1 (proj2 (Ingest.csv_rows_kept_or_parse_aborts (V:=string)
                         1700000000 "2024-02-01T09:00:00" "invoice.csv"
                         csv_missing_amount (Some "alice") store eq_refl))).
Defined.

(** C9, the same file uploaded by the same user one second apart: the ids
    of the stored transactions differ; parsed one second apart by
    [parse_csv_invoice], the transactions differ in their timestamps. *)
Lemma ids_change_with_the_clock :
  Qdrant.id
  <$> drop 3 (tfl_invoices
                (Api.upload_invoice 1700000000 "invoice.csv" csv_missing_amount
                   (Some "alice") store).2)
  = ["invoice_alice_1700000000_0"; "invoice_alice_1700000000_1";
     "invoice_alice_1700000000_2"]
  ∧ Qdrant.id
    <$> drop 3 (tfl_invoices
                  (Api.upload_invoice 1700000001 "invoice.csv"
                     csv_missing_amount (Some "alice") store).2)
    = ["invoice_alice_1700000001_0"; "invoice_alice_1700000001_1";
       "invoice_alice_1700000001_2"]
  ∧ Notebook04.parse_csv_invoice "2024-02-01T09:00:00" csv_missing_amount
    ≠ Notebook04.parse_csv_invoice "2024-02-01T09:00:01" csv_missing_amount.
Proof.
  split; [by vm_compute|]. split; [by vm_compute|].
  intros Heq. vm_compute in Heq. discriminate Heq.
Qed.

Lemma upload_ids_follow_clock_witness :
  Py.endswith "invoice.csv" ".csv" = true
  ∧ Api.upload_transactions csv_missing_amount = Py.Ok parsed_rows
  ∧ (Qdrant.id
     <$> Notebook04.invoice_points (V:=string) false parsed_rows
           (Api.new_invoice_id (Some "alice") 1700000000) "alice"
     = Qdrant.id
       <$> Notebook04.invoice_points (V:=string) false parsed_rows
             (Api.new_invoice_id (Some "alice") 1700000001) "alice"
     ↔ 1700000000 = 1700000001).
Proof.
  split; [reflexivity|]. split; [reflexivity|].
  refine (proj2 (proj2 (proj2
            (proj2 (Ingest.upload_ids_follow_clock (V:=string) 1700000000
                      1700000001 "invoice.csv" csv_missing_amount (Some "alice")
                      store parsed_rows "invoice_001" "alice" eq_refl eq_refl))))
            _).
  discriminate.
Defined.

(** C1 on the fixtures: the prompt sent for session [A] carries the text of
    the document of session [B]. *)
Example chat_prompt_carries_other_session :
  llm_prompts (Api.chat 1700000100 (Py.Ok "invoice of A") "What did I spend?"
                 (Some "A") store).2
  = ["Context:" +:+ Py.nl +:+ "payslip of B" +:+ Py.nl +:+ "invoice of A"
     +:+ Py.nl +:+ Py.nl +:+ "Question: What did I spend?" +:+ Py.nl +:+ Py.nl
     +:+ "Answer:"].
Proof. by vm_compute. Qed.

End Evaluation.

(* ------------------------------------------------------------------------- *)
(** ** Storing an invoice and reading it back *)

Module StoreFacts.
Import Model StoreNotions Observations.

Lemma filter_fmap {A B} (f : A → B) (g : B → bool) (l : list A) :
  List.filter g (f <$> l) = f <$> List.filter (λ x, g (f x)) l.
Proof.
  induction l as [|x l IH]; simpl; [done|].
  destruct (g (f x)); simpl; [f_equal|]; exact IH.
Qed.

Lemma filter_none {A} (g : A → bool) (l : list A) :
  (∀ x, x ∈ l → g x = false) → List.filter g l = [].
Proof.
  induction l as [|x l IH]; intros Hall; simpl; [done|].
  rewrite (Hall x) by (by left). apply IH. intros y Hy. apply Hall. by right.
Qed.

Lemma filter_all {A} (g : A → bool) (l : list A) :
  (∀ x, x ∈ l → g x = true) → List.filter g l = l.
Proof.
  induction l as [|x l IH]; intros Hall; simpl; [done|].
  rewrite (Hall x) by (by left). f_equal. apply IH. intros y Hy. apply Hall.
  by right.
Qed.

Lemma take_enumerate_from {A} n i (l : list A) :
  take n (Py.enumerate_from i l) = Py.enumerate_from i (take n l).
Proof.
  revert n i. induction l as [|x l IH]; intros [|n] i; simpl; try done.
  by rewrite IH.
Qed.

Section store.
Context {F V : Type} `{!Binary64 F, !Services F V}.

Local Abbreviation world := (Model.world F V).
Local Abbreviation point := (Qdrant.point (V:=V) (txn_payload F)).

Lemma upsert1_fresh {P} (p : Qdrant.point (V:=V) P) coll :
  (∀ q, q ∈ coll → Qdrant.id q ≠ Qdrant.id p) →
  Qdrant.upsert1 p coll = coll ++ [p].
Proof.
  induction coll as [|r coll IH]; intros Hfresh; simpl; [done|].
  destruct (String.eqb_spec (Qdrant.id r) (Qdrant.id p)) as [Heq|_].
  - destruct (Hfresh r); [by left | done].
  - f_equal. apply IH. intros q Hq. apply Hfresh. by right.
Qed.

Lemma upsert_fresh {P} (coll pts : list (Qdrant.point (V:=V) P)) :
  NoDup (Qdrant.id <$> pts) →
  (∀ q p, q ∈ coll → p ∈ pts → Qdrant.id q ≠ Qdrant.id p) →
  Qdrant.upsert coll pts = coll ++ pts.
Proof.
  revert coll. induction pts as [|a pts IH]; intros coll Hnd Hfresh; simpl.
  - by rewrite app_nil_r.
  - apply NoDup_cons in Hnd as [Ha Hnd]. unfold Qdrant.upsert in *. simpl.
    rewrite upsert1_fresh by (intros q Hq; apply Hfresh; [done | by left]).
    rewrite IH; [by rewrite <- app_assoc | done |].
    intros q p Hq Hp. apply elem_of_app in Hq as [Hq | Hq].
    + apply Hfresh; [done | by right].
    + apply list_elem_of_singleton in Hq as ->. intros Heq. apply Ha.
      rewrite Heq. by apply list_elem_of_fmap_2.
Qed.

Lemma upsert1_heads {P} (p : Qdrant.point (V:=V) P) coll :
  heads p coll → Qdrant.upsert1 p coll = coll.
Proof.
  induction 1 as [coll | q coll Hne _ IH]; simpl.
  - by rewrite String.eqb_refl.
  - destruct (String.eqb_spec (Qdrant.id q) (Qdrant.id p)); [done|]. by rewrite IH.
Qed.

Lemma heads_upsert1 {P} (p : Qdrant.point (V:=V) P) coll :
  heads p (Qdrant.upsert1 p coll).
Proof.
  induction coll as [|q coll IH]; simpl; [constructor|].
  destruct (String.eqb_spec (Qdrant.id q) (Qdrant.id p)); by constructor.
Qed.

Lemma heads_upsert1_other {P} (p q : Qdrant.point (V:=V) P) coll :
  heads p coll → Qdrant.id q ≠ Qdrant.id p → heads p (Qdrant.upsert1 q coll).
Proof.
  intros Hh Hne. induction Hh as [coll | r coll Hr Hh IH]; simpl.
  - destruct (String.eqb_spec (Qdrant.id p) (Qdrant.id q)); [congruence|].
    constructor.
  - destruct (String.eqb_spec (Qdrant.id r) (Qdrant.id q)); by constructor.
Qed.

Lemma heads_upsert_others {P} (p : Qdrant.point (V:=V) P) coll pts :
  heads p coll → (∀ q, q ∈ pts → Qdrant.id q ≠ Qdrant.id p) →
  heads p (Qdrant.upsert coll pts).
Proof.
  revert coll. induction pts as [|a pts IH]; intros coll Hh Hne; [done|].
  unfold Qdrant.upsert in *. simpl. apply IH.
  - apply heads_upsert1_other; [done | apply Hne; by left].
  - intros q Hq. apply Hne. by right.
Qed.

Lemma heads_upsert {P} (coll pts : list (Qdrant.point (V:=V) P)) p :
  NoDup (Qdrant.id <$> pts) → p ∈ pts → heads p (Qdrant.upsert coll pts).
Proof.
  revert coll. induction pts as [|a pts IH]; intros coll Hnd Hin.
  - by apply elem_of_nil in Hin.
  - apply NoDup_cons in Hnd as [Ha Hnd].
    change (Qdrant.upsert coll (a :: pts))
      with (Qdrant.upsert (Qdrant.upsert1 a coll) pts).
    apply elem_of_cons in Hin as [-> | Hin]; [|by apply IH].
    apply heads_upsert_others; [apply heads_upsert1|].
    intros q Hq Heq. apply Ha. rewrite <- Heq. by apply list_elem_of_fmap_2.
Qed.

Lemma upsert_heads {P} (coll pts : list (Qdrant.point (V:=V) P)) :
  (∀ p, p ∈ pts → heads p coll) → Qdrant.upsert coll pts = coll.
Proof.
  induction pts as [|a pts IH]; intros Hall; [done|].
  change (Qdrant.upsert coll (a :: pts))
    with (Qdrant.upsert (Qdrant.upsert1 a coll) pts).
  rewrite upsert1_heads by (apply Hall; by left).
  apply IH. intros p Hp. apply Hall. by right.
Qed.

Lemma point_id_inj invoice i j :
  Notebook04.point_id invoice i = Notebook04.point_id invoice j → i = j.
Proof.
  unfold Notebook04.point_id. intros Heq. do 2 apply String.app_inj in Heq.
  by apply (inj pretty).
Qed.

Lemma invoice_points_NoDup b (ts : list (Notebook04.transaction F)) invoice user :
  NoDup (Qdrant.id <$> Notebook04.invoice_points (V:=V) b ts invoice user).
Proof.
  rewrite Ingest.invoice_points_ids. apply NoDup_fmap_2_strong; [|apply NoDup_seq].
  intros i j _ _. apply point_id_inj.
Qed.

Lemma elem_of_invoice_points b (ts : list (Notebook04.transaction F)) invoice user p :
  p ∈ Notebook04.invoice_points (V:=V) b ts invoice user →
  p_invoice_id (Qdrant.payload p) = invoice
  ∧ p_user_id (Qdrant.payload p) = user
  ∧ ∃ i, Qdrant.id p = Notebook04.point_id invoice i.
Proof.
  unfold Notebook04.invoice_points. intros Hin.
  apply list_elem_of_fmap in Hin as ([i t] & -> & _). simpl. eauto.
Qed.

(** The dates and amounts of the matching stored points are those of the
    transactions they were built from. *)
Lemma invoice_points_selected b (ts : list (Notebook04.transaction F))
  invoice user dates :
  (λ p, (p_date p, p_amount p))
  <$> List.filter (λ p, Nodes.date_in (p_date p) dates)
        (Qdrant.payload
           <$> take 1000 (Notebook04.invoice_points (V:=V) b ts invoice user))
  = (λ t, (Notebook04.t_date t, Notebook04.t_amount t))
    <$> selected_transactions ts dates.
Proof.
  unfold Notebook04.invoice_points, selected_transactions, Py.enumerate.
  rewrite <- fmap_take, take_enumerate_from. generalize (take 1000 ts).
  clear ts. intros ts. generalize 0%nat.
  induction ts as [|t ts IH]; intros i; simpl; [done|].
  destruct (Nodes.date_in (Notebook04.t_date t) dates); simpl; by rewrite IH.
Qed.

(** Reading back a freshly stored invoice: the points the scroll returns are
    the first 1000 of the new ones. *)
Lemma scroll_fresh_invoice b (coll : list point)
  (ts : list (Notebook04.transaction F)) invoice user (must : txn_payload F → bool) :
  fresh_invoice coll invoice →
  (∀ p, p_invoice_id p ≠ invoice → must p = false) →
  (∀ p, p_invoice_id p = invoice → p_user_id p = user → must p = true) →
  Qdrant.scroll
    (Qdrant.upsert coll (Notebook04.invoice_points b ts invoice user)) must 1000
  = take 1000 (Notebook04.invoice_points b ts invoice user).
Proof.
  intros Hfresh Hother Hown. unfold Qdrant.scroll.
  rewrite upsert_fresh.
  - rewrite List.filter_app, filter_none, filter_all; [done| |].
    + intros p Hp. apply elem_of_invoice_points in Hp as (Hi & Hu & _).
      by apply Hown.
    + intros p Hp. apply Hother. by apply Hfresh.
  - apply invoice_points_NoDup.
  - intros q p Hq Hp Heq. apply elem_of_invoice_points in Hp as (_ & _ & i & Hi).
    destruct (Hfresh q Hq) as [_ Hid]. apply (Hid i). congruence.
Qed.

End store.
End StoreFacts.

(* ------------------------------------------------------------------------- *)
(** ** Properties of the ledger: storing, reading back, whose data is read *)

Module LedgerFacts.
Import Model StoreNotions Observations.

Section ledger.
Context {F V : Type} `{!Binary64 F, !Services F V}.

Local Abbreviation AgentState := (Model.AgentState F).
Local Abbreviation world := (Model.world F V).
Local Abbreviation point := (Qdrant.point (V:=V) (txn_payload F)).

(** What a calculation computes from the matched transactions depends on
    their dates and amounts only. *)
Lemma calculation_of_pairs (l l' : list (txn_payload F)) per_day :
  pair_of <$> l = pair_of <$> l' →
  p_amount <$> l = p_amount <$> l'
  ∧ length l = length l'
  ∧ foldl Nodes.per_day_step per_day l = foldl Nodes.per_day_step per_day l'.
Proof.
  revert l' per_day. induction l as [|t l IH]; intros [|t' l'] per_day Heq;
    try done.
  csimpl in Heq. injection Heq as Hd Ha Hl.
  destruct (IH l' (Nodes.per_day_step per_day t) Hl) as (H1 & H2 & H3).
  csimpl. split; [by rewrite Ha, H1|]. split; [by rewrite H2|].
  rewrite H3. f_equal. unfold Nodes.per_day_step. by rewrite Hd, Ha.
Qed.

Lemma pairs_of_selected b (ts : list (Notebook04.transaction F)) invoice user dates :
  let filtered :=
    List.filter (λ p, Nodes.date_in (p_date p) dates)
      (Qdrant.payload
         <$> take 1000 (Notebook04.invoice_points (V:=V) b ts invoice user)) in
  p_amount <$> filtered = Notebook04.t_amount <$> selected_transactions ts dates
  ∧ length filtered = length (selected_transactions ts dates).
Proof.
  intros filtered.
  pose proof (StoreFacts.invoice_points_selected (V:=V) b ts invoice user dates)
    as Hsel. fold filtered in Hsel. split.
  - apply (f_equal (fmap snd)) in Hsel. rewrite <- !list_fmap_compose in Hsel.
    exact Hsel.
  - apply (f_equal length) in Hsel. by rewrite !length_fmap in Hsel.
Qed.

(** X1. Storing an invoice a second time under the same invoice id changes
    nothing: the points of the first call are replaced by themselves, so the
    ledger holds no duplicates. *)
Theorem store_invoice_idempotent (w : world)
  (ts : list (Notebook04.transaction F)) (invoice user : string) :
  Notebook04.store_invoice ts invoice user
    (Notebook04.store_invoice ts invoice user w)
  = Notebook04.store_invoice ts invoice user w.
Proof.
  unfold Notebook04.store_invoice. destruct w as [docs coll mem prompts]. simpl.
  unfold set_tfl_invoices. simpl. f_equal.
  apply StoreFacts.upsert_heads. intros p Hp.
  apply StoreFacts.heads_upsert; [apply StoreFacts.invoice_points_NoDup | done].
Qed.

(** X2. Reading back what was stored: after [store_invoice] has stored the
    transactions under an invoice id that no stored point uses yet,
    [calculate_cost] for that invoice and user counts exactly the stored
    transactions (the first 1000) whose date is selected, and its total is
    the rounded sum of their amounts. *)
Theorem store_then_calculate (w : world) (ts : list (Notebook04.transaction F))
  (invoice user : string) (dates : list string) :
  fresh_invoice (tfl_invoices w) invoice →
  Py.get "transactions_count"
    (Notebook04.calculate_cost invoice dates user
       (Notebook04.store_invoice ts invoice user w))
  = Some (Py.VInt (Z.of_nat (length (selected_transactions ts dates))))
  ∧ Py.get "total_amount"
      (Notebook04.calculate_cost invoice dates user
         (Notebook04.store_invoice ts invoice user w))
    = Some (Py.VFloat
              (fround2 (Py.sum (Notebook04.t_amount
                                  <$> selected_transactions ts dates)))).
Proof.
  intros Hfresh. unfold Notebook04.calculate_cost, Notebook04.store_invoice.
  destruct w as [docs coll mem prompts]. simpl in *.
  rewrite (StoreFacts.scroll_fresh_invoice true coll ts invoice user); [|done| |].
  - destruct (pairs_of_selected true ts invoice user dates) as [-> ->]. done.
  - intros p Hp. apply andb_false_iff. left. by apply String.eqb_neq.
  - intros p -> ->. by rewrite !String.eqb_refl.
Qed.

(** X3. From upload to calculation: after [upload_invoice] has stored a CSV
    under a new invoice id, the calculation node called with that invoice id
    and a non-empty selection counts exactly the uploaded rows (the first
    1000) whose date is selected and reports the rounded sum of their
    amounts. *)
Theorem upload_then_calculate (now : Z) (filename : string)
  (df : Py.DataFrame F) (user_id : option string) (w : world)
  (ts : list (Notebook04.transaction F)) (s : AgentState) :
  Py.endswith filename ".csv" = true →
  Api.upload_transactions df = Py.Ok ts →
  fresh_invoice (tfl_invoices w) (Api.new_invoice_id user_id now) →
  invoice_id s = Some (Api.new_invoice_id user_id now) →
  selected_dates s ≠ [] →
  calculated_amount
    (Nodes.calculate_cost (Api.upload_invoice now filename df user_id w).2 s)
  = Some (fround2 (Py.sum (Notebook04.t_amount
                             <$> selected_transactions ts (selected_dates s))))
  ∧ breakdown_entry "transactions_count"
      (Nodes.calculate_cost (Api.upload_invoice now filename df user_id w).2 s)
    = Some (Py.VInt (Z.of_nat (length (selected_transactions ts
                                         (selected_dates s))))).
Proof.
  intros Hcsv Hts Hfresh Hid Hsel.
  rewrite (Calculation.calculate_cost_ok _ s (Api.new_invoice_id user_id now));
    [|by rewrite Hid|done|done].
  unfold breakdown_entry, matched, Api.upload_invoice. rewrite Hcsv, Hts.
  destruct w as [docs coll mem prompts]. simpl in *.
  rewrite (StoreFacts.scroll_fresh_invoice false coll ts _
             (Py.or_default user_id "default")); [|done| |].
  - destruct (pairs_of_selected false ts (Api.new_invoice_id user_id now)
                (Py.or_default user_id "default") (selected_dates s))
      as [-> ->]. done.
  - intros p Hp. by apply String.eqb_neq.
  - intros p -> _. by rewrite String.eqb_refl.
Qed.

Lemma same_but_user_filter (coll coll' : list point) invoice :
  Forall2 same_but_user coll coll' →
  Forall2 same_but_user
    (List.filter (λ p, String.eqb (p_invoice_id (Qdrant.payload p)) invoice) coll)
    (List.filter (λ p, String.eqb (p_invoice_id (Qdrant.payload p)) invoice) coll').
Proof.
  induction 1 as [|p q coll coll' [u ->] _ IH]; simpl; [constructor|].
  destruct (String.eqb _ _); [constructor; [by exists u | done] | done].
Qed.

Lemma same_but_user_pairs (l l' : list point) dates :
  Forall2 same_but_user l l' →
  pair_of <$> List.filter (λ t, Nodes.date_in (p_date t) dates) (Qdrant.payload <$> l)
  = pair_of <$> List.filter (λ t, Nodes.date_in (p_date t) dates)
                  (Qdrant.payload <$> l').
Proof.
  induction 1 as [|p q l l' [u ->] _ IH]; csimpl; [done|].
  destruct (Nodes.date_in _ _); csimpl; [f_equal|]; exact IH.
Qed.

(** X4. The calculation node never looks at the user id of a stored
    transaction: on two ledgers that differ only in user ids it leaves the
    same state, so it sums the transactions of an invoice whoever owns
    them. *)
Theorem calculate_cost_ignores_users (w w' : world) (s : AgentState) :
  Forall2 same_but_user (tfl_invoices w) (tfl_invoices w') →
  Nodes.calculate_cost w' s = Nodes.calculate_cost w s.
Proof.
  intros Hrel. unfold Nodes.calculate_cost.
  destruct (negb _ || _); [done|]. unfold Qdrant.scroll.
  pose proof (same_but_user_pairs _ _ (selected_dates s)
                (Forall2_take _ _ _ 1000
                   (same_but_user_filter _ _ (default "" (invoice_id s)) Hrel)))
    as Hpairs.
  destruct (calculation_of_pairs _ _ ∅ Hpairs) as (Ha & Hl & Hp).
  by rewrite <- Ha, <- Hl, <- Hp.
Qed.

Lemma per_day_step_entries (l : list (txn_payload F)) per_day d :
  is_Some (foldl Nodes.per_day_step per_day l !! d)
  ↔ is_Some (per_day !! d) ∨ ∃ t, t ∈ l ∧ p_date t = Py.VStr d.
Proof.
  revert per_day. induction l as [|t l IH]; intros per_day; simpl.
  - split; [by left | intros [?|(t & Ht & _)]; [done | by apply elem_of_nil in Ht]].
  - rewrite IH. unfold Nodes.per_day_step. split.
    + intros [Hs | (t' & Ht' & Hd)]; [|right; exists t'; split; [by right | done]].
      destruct (p_date t) as [date| | | |] eqn:Hdate; try by left.
      destruct (decide (date = d)) as [->|Hne].
      * right. exists t. split; [by left | done].
      * left. by rewrite lookup_insert_ne in Hs.
    + intros [Hs | (t' & Ht' & Hd)].
      * left. destruct (p_date t) as [date| | | |]; try done.
        destruct (decide (date = d)) as [->|Hne];
          [by rewrite lookup_insert_eq | by rewrite lookup_insert_ne].
      * apply elem_of_cons in Ht' as [-> | Ht'];
          [|right; by exists t'].
        left. rewrite Hd. by rewrite lookup_insert_eq.
Qed.

(** X5. The per-day breakdown of the calculation node has an entry for a
    date exactly when some matched transaction of the invoice falls on it;
    every such date is one of the selected dates. *)
Theorem per_day_entries (w : world) (s : AgentState) (invoice d : string) :
  invoice_id s = Some invoice → invoice ≠ "" → selected_dates s ≠ [] →
  (is_Some (daily_total (Nodes.calculate_cost w s) d)
   ↔ ∃ t, t ∈ matched w invoice (selected_dates s) ∧ p_date t = Py.VStr d)
  ∧ (is_Some (daily_total (Nodes.calculate_cost w s) d) → d ∈ selected_dates s).
Proof.
  intros Hi Hne Hsel.
  assert (Ht : Py.truthy (invoice_id s) = true).
  { rewrite Hi. by destruct invoice. }
  rewrite (Calculation.calculate_cost_ok w s invoice Ht Hi Hsel).
  unfold daily_total, breakdown_entry. simpl.
  rewrite per_day_step_entries, lookup_empty.
  assert (Hiff : is_Some (None : option F)
                 ∨ (∃ t, t ∈ matched w invoice (selected_dates s)
                         ∧ p_date t = Py.VStr d)
                 ↔ ∃ t, t ∈ matched w invoice (selected_dates s)
                        ∧ p_date t = Py.VStr d).
  { split; [intros [[? ?]|?]; done | by right]. }
  split; [exact Hiff|]. intros Hs. apply Hiff in Hs as (t & Ht' & Hd).
  apply Calculation.elem_of_matched in Ht' as [Hin _].
  rewrite Hd in Hin. simpl in Hin. by apply bool_decide_eq_true in Hin.
Qed.

End ledger.
End LedgerFacts.

(* ------------------------------------------------------------------------- *)
(** ** Properties of retrieval, of the graph as a whole and of the parsers *)

Module ServiceFacts.
Import Model Observations.

Section services.
Context {F V : Type} `{!Binary64 F, !Services F V}.

Local Abbreviation AgentState := (Model.AgentState F).
Local Abbreviation world := (Model.world F V).

Lemma length_search {P} (coll : list (Qdrant.point (V:=V) P)) qv limit :
  length (Qdrant.search coll qv limit) = (limit `min` length coll)%nat.
Proof.
  unfold Qdrant.search.
  by rewrite length_take, merge_sort_Permutation, length_fmap.
Qed.

Lemma elem_of_search {P} (coll : list (Qdrant.point (V:=V) P)) qv limit r :
  r ∈ Qdrant.search coll qv limit →
  Qdrant.hit r ∈ coll ∧ Qdrant.score r = cosine qv (Qdrant.vector (Qdrant.hit r)).
Proof.
  unfold Qdrant.search. intros Hin. apply subseteq_take in Hin.
  rewrite merge_sort_Permutation in Hin.
  by apply list_elem_of_fmap in Hin as (p & -> & Hp).
Qed.

Lemma elem_of_upsert1_new {P} (p : Qdrant.point (V:=V) P) coll :
  p ∈ Qdrant.upsert1 p coll.
Proof.
  induction coll as [|q coll IH]; simpl; [by left|].
  destruct (String.eqb _ _); [by left | by right].
Qed.

(** X6. The retrieval node puts at most five documents into the state, as
    many as the collection holds if these are fewer; each of them carries the
    text of a stored document (the empty text if it has none) and its
    similarity to the query. *)
Theorem retrieve_documents_bounds (w : world) (s : AgentState) :
  length (retrieved_docs (Nodes.retrieve_documents w s))
  = (5 `min` length (documents w))%nat
  ∧ ∀ rd, rd ∈ retrieved_docs (Nodes.retrieve_documents w s) →
          ∃ p, p ∈ documents w
               ∧ rd_content rd = default "" (d_text (Qdrant.payload p))
               ∧ rd_score rd
                 = cosine (embed_query (F:=F) (query s)) (Qdrant.vector p).
Proof.
  unfold Nodes.retrieve_documents. simpl. split.
  - by rewrite length_fmap, length_search.
  - intros rd Hrd. apply list_elem_of_fmap in Hrd as (r & -> & Hr).
    apply elem_of_search in Hr as [Hin Hscore]. exists (Qdrant.hit r).
    by rewrite Hscore.
Qed.

(** X7. A chat request whose upload is not UTF-8 raises before anything is
    stored and before the model is asked.  A chat request whose upload
    decodes is answered with the model's reply and leaves the decoded text in
    the documents collection, under the session id of the request, next to
    the documents stored before under other ids; it retrieves at least one
    and at most three documents. *)
Theorem chat_stores_and_retrieves (now : Z) (decoded : Py.outcome string)
  (message : string) (session_id : option string) (w : world) :
  (∀ e, decoded = Py.Raise e →
        Api.chat now decoded message session_id w = (Py.Raise e, w))
  ∧ (∀ text, decoded = Py.Ok text →
       (∃ prompt,
          (Api.chat now decoded message session_id w).1
          = Py.Ok (llm_invoke (F:=F) (V:=V) prompt)
          ∧ llm_prompts (Api.chat now decoded message session_id w).2
            = llm_prompts w ++ [prompt])
       ∧ (1 ≤ length (Api.chat_retrieve now text message session_id w).1 ≤ 3)%nat
       ∧ ∃ p, p ∈ documents (Api.chat now decoded message session_id w).2
              ∧ d_text (Qdrant.payload p) = Some text
              ∧ d_session_id (Qdrant.payload p) = session_id
              ∧ ∀ q, q ∈ documents w → Qdrant.id q ≠ Qdrant.id p →
                     q ∈ documents
                           (Api.chat now decoded message session_id w).2).
Proof.
  split; [by intros e ->|]. intros text ->.
  unfold Api.chat, Api.chat_retrieve. simpl. split; [by eexists|]. split.
  - rewrite length_search.
    pose proof (elem_of_upsert1_new
                  (Qdrant.Point
                     ("doc_" +:+ Py.or_default session_id "default" +:+ "_"
                      +:+ pretty now) (embed_query (F:=F) text)
                     (DocPayload (Some text)
                        (Some ("doc_" +:+ Py.or_default session_id "default"
                               +:+ "_" +:+ pretty now)) session_id))
                  (documents w)) as Hin.
    destruct (Qdrant.upsert1 _ (documents w)); [by apply elem_of_nil in Hin|].
    rewrite length_cons. lia.
  - eexists. split; [apply elem_of_upsert1_new|]. simpl.
    split; [done|]. split; [done|]. intros q Hq Hne.
    by apply QdrantFacts.elem_of_upsert1.
Qed.

(** X8. Every invocation of the graph ends after at most five nodes; it
    never writes a collection, and it sends at most one prompt to the model,
    whose reply is then the response. *)
Theorem invoke_read_only (w : world) (s : AgentState) :
  ∃ trace w' s',
    Nodes.invoke w s = Some (trace, w', s')
    ∧ (length trace ≤ 5)%nat
    ∧ documents w' = documents w
    ∧ tfl_invoices w' = tfl_invoices w
    ∧ (llm_prompts w' = llm_prompts w
       ∨ ∃ prompt, llm_prompts w' = llm_prompts w ++ [prompt]
                   ∧ response s' = llm_invoke (F:=F) (V:=V) prompt).
Proof.
  pose proof (Pipeline.invoke_total w s) as Hinv. simpl in Hinv.
  destruct (String.eqb _ "tfl_calculation").
  - eexists _, _, _. split; [exact Hinv|]. simpl. split; [lia|]. by auto.
  - destruct (_ || _); eexists _, _, _; (split; [exact Hinv|]); simpl;
      (split; [lia|]); (split; [done|]); (split; [done|]); right; by eexists.
Qed.

(** X9. A CSV without an [amount] column: [upload_invoice]'s parsing loop
    still returns one transaction per row, each with amount 0.0, while
    [parse_csv_invoice] raises [KeyError] as soon as there is a row. *)
Theorem missing_amount_column (now_iso : string) (df : Py.DataFrame F) :
  Py.index_of "amount" (Py.columns df) = None →
  (∃ ts, Api.upload_transactions df = Py.Ok ts
         ∧ length ts = length (Py.rows df)
         ∧ Forall (λ t, Notebook04.t_amount t = fof_Z 0) ts)
  ∧ (Py.rows df ≠ [] →
     Notebook04.parse_csv_invoice now_iso df = Py.Raise "KeyError").
Proof.
  intros Hcol. split.
  - unfold Api.upload_transactions.
    induction (Py.rows df) as [|row l (ts & Hts & Hlen & Hall)]; simpl.
    + by exists [].
    + unfold Api.upload_row at 1, Py.row_get at 1. rewrite Hcol. simpl.
      rewrite Hts. simpl. eexists. split; [done|].
      split; [simpl; by f_equal|]. by constructor.
  - unfold Notebook04.parse_csv_invoice. destruct (Py.rows df) as [|row l]; [done|].
    intros _. simpl. unfold Notebook04.parse_csv_row, Py.row_item.
    destruct (Py.row_get df row "date") as [date|]; simpl; [|done].
    unfold Py.row_get at 1. by rewrite Hcol.
Qed.

End services.
End ServiceFacts.

(* ------------------------------------------------------------------------- *)
(** ** Calendar arithmetic *)

Module JsDateFacts.
Import JsDate.

Lemma all_from_spec fuel z p k :
  all_from fuel z p = true → z ≤ k < z + Z.of_nat fuel → p k = true.
Proof.
  revert z. induction fuel as [|fuel IH]; intros z Hall Hk; [lia|].
  simpl in Hall. apply andb_true_iff in Hall as [Hz Hall].
  destruct (decide (k = z)) as [->|Hne]; [done|].
  apply (IH (z + 1)); [done | lia].
Qed.

Lemma day_round_trip_era : all_from (Z.to_nat 146097) 0 day_round_trip = true.
Proof. by vm_compute. Qed.

Lemma first_round_trip_era : all_from (Z.to_nat 4800) 0 first_round_trip = true.
Proof. by vm_compute. Qed.

Lemma civil_from_days_tail z :
  Calendar.civil_from_days z
  = civil_tail ((z + 719468) `mod` 146097) ((z + 719468) `div` 146097).
Proof.
  unfold Calendar.civil_from_days, civil_tail.
  replace (z + 719468 - (z + 719468) `div` 146097 * 146097)
    with ((z + 719468) `mod` 146097); [done|].
  rewrite Z.mod_eq by lia. lia.
Qed.

Lemma civil_tail_shift doe era e :
  civil_tail doe (era + e)
  = ((civil_tail doe era).1.1 + 400 * e, (civil_tail doe era).1.2,
     (civil_tail doe era).2).
Proof. unfold civil_tail. cbn [fst snd]. f_equal. f_equal. lia. Qed.

Lemma civil_from_days_shift z e :
  Calendar.civil_from_days (z + 146097 * e)
  = ((Calendar.civil_from_days z).1.1 + 400 * e,
     (Calendar.civil_from_days z).1.2, (Calendar.civil_from_days z).2).
Proof.
  rewrite !civil_from_days_tail.
  replace (z + 146097 * e + 719468) with (z + 719468 + e * 146097) by lia.
  rewrite Z.mod_add, Z.div_add by lia. apply civil_tail_shift.
Qed.

Lemma days_from_civil_shift y m d e :
  days_from_civil (y + 400 * e) m d = days_from_civil y m d + 146097 * e.
Proof.
  unfold days_from_civil.
  assert (Hdiv : ∀ a, (a + 400 * e) `div` 400 = a `div` 400 + e).
  { intros a. rewrite (Z.mul_comm 400 e). apply Z.div_add. lia. }
  cbv zeta. destruct (m <=? 1).
  - replace (y + 400 * e - 1) with (y - 1 + 400 * e) by lia. rewrite Hdiv.
    replace (y - 1 + 400 * e - ((y - 1) `div` 400 + e) * 400)
      with (y - 1 - (y - 1) `div` 400 * 400) by lia.
    lia.
  - rewrite Hdiv.
    replace (y + 400 * e - (y `div` 400 + e) * 400)
      with (y - y `div` 400 * 400) by lia.
    lia.
Qed.

Lemma days_from_civil_date y m d :
  days_from_civil y m d = days_from_civil y m 1 + d - 1.
Proof. unfold days_from_civil. lia. Qed.

Lemma day_round_trip_below doe : 0 ≤ doe < 146097 → day_round_trip doe = true.
Proof.
  intros Hk. apply (all_from_spec _ _ _ doe day_round_trip_era).
  change (Z.of_nat (Z.to_nat 146097)) with 146097. lia.
Qed.

Lemma day_round_trip_elim doe :
  day_round_trip doe = true →
  days_from_civil (Calendar.civil_from_days (doe - 719468)).1.1
    (Calendar.civil_from_days (doe - 719468)).1.2
    (Calendar.civil_from_days (doe - 719468)).2 = doe - 719468
  ∧ 0 ≤ (Calendar.civil_from_days (doe - 719468)).1.2 ≤ 11
  ∧ 1 ≤ (Calendar.civil_from_days (doe - 719468)).2 ≤ 31.
Proof.
  unfold day_round_trip, civil_of_era.
  replace (0 * 146097 + doe - 719468) with (doe - 719468) by lia.
  destruct (Calendar.civil_from_days (doe - 719468)) as [[y m] d].
  cbn [fst snd]. rewrite !andb_true_iff, Z.eqb_eq, !Z.leb_le. lia.
Qed.

(** Every day number is the day number of its civil date, whose month and
    date are in range. *)
Lemma civil_round_trip z :
  days_from_civil (Calendar.civil_from_days z).1.1
    (Calendar.civil_from_days z).1.2 (Calendar.civil_from_days z).2 = z
  ∧ 0 ≤ (Calendar.civil_from_days z).1.2 ≤ 11
  ∧ 1 ≤ (Calendar.civil_from_days z).2 ≤ 31.
Proof.
  pose proof (Z.div_mod (z + 719468) 146097 ltac:(lia)) as Hz.
  pose proof (Z.mod_pos_bound (z + 719468) 146097 ltac:(lia)) as Hdoe.
  set (e := (z + 719468) `div` 146097) in *.
  set (doe := (z + 719468) `mod` 146097) in *.
  replace z with (doe - 719468 + 146097 * e) by lia.
  rewrite civil_from_days_shift. cbn [fst snd].
  destruct (day_round_trip_elim doe (day_round_trip_below doe Hdoe))
    as (H1 & H2 & H3).
  rewrite days_from_civil_shift. lia.
Qed.

Lemma first_round_trip_below k : 0 ≤ k < 4800 → first_round_trip k = true.
Proof.
  intros Hk. apply (all_from_spec _ _ _ k first_round_trip_era).
  change (Z.of_nat (Z.to_nat 4800)) with 4800. lia.
Qed.

Lemma first_round_trip_elim y m :
  0 ≤ m ≤ 11 → first_round_trip (y * 12 + m) = true →
  Calendar.civil_from_days (days_from_civil y m 1) = (y, m, 1).
Proof.
  intros Hm. unfold first_round_trip.
  replace ((y * 12 + m) `div` 12) with y
    by (apply (Z.div_unique _ _ _ m); lia).
  replace ((y * 12 + m) `mod` 12) with m
    by (apply (Z.mod_unique _ _ y); lia).
  destruct (Calendar.civil_from_days (days_from_civil y m 1)) as [[y' m'] d'].
  rewrite !andb_true_iff, !Z.eqb_eq. by intros [[-> ->] ->].
Qed.

(** The first of a month is read back from its day number. *)
Lemma first_of_month_round_trip y m :
  0 ≤ m ≤ 11 →
  Calendar.civil_from_days (days_from_civil y m 1) = (y, m, 1).
Proof.
  intros Hm.
  pose proof (Z.div_mod y 400 ltac:(lia)) as Hy.
  pose proof (Z.mod_pos_bound y 400 ltac:(lia)) as Hy0.
  set (e := y `div` 400) in *. set (y0 := y `mod` 400) in *.
  replace y with (y0 + 400 * e) by lia.
  rewrite days_from_civil_shift, civil_from_days_shift.
  by rewrite (first_round_trip_elim y0 m Hm
                (first_round_trip_below (y0 * 12 + m) ltac:(lia))).
Qed.

Lemma MakeDay_in_range y m d :
  0 ≤ m ≤ 11 → MakeDay y m d = days_from_civil y m 1 + d - 1.
Proof.
  intros Hm. unfold MakeDay.
  rewrite Z.div_small, Z.mod_small by lia. by rewrite Z.add_0_r.
Qed.

Lemma Day_MakeDate day time :
  0 ≤ time < Calendar.ms_per_day → Day (MakeDate day time) = day.
Proof.
  intros Ht. unfold Day, MakeDate. symmetry.
  apply (Z.div_unique _ _ _ time); unfold Calendar.ms_per_day in *; lia.
Qed.

Lemma TimeWithinDay_MakeDate day time :
  0 ≤ time < Calendar.ms_per_day → TimeWithinDay (MakeDate day time) = time.
Proof.
  intros Ht. unfold TimeWithinDay, MakeDate. symmetry.
  apply (Z.mod_unique _ _ day); unfold Calendar.ms_per_day in *; lia.
Qed.

Lemma TimeWithinDay_range t : 0 ≤ TimeWithinDay t < Calendar.ms_per_day.
Proof. apply Z.mod_pos_bound. by unfold Calendar.ms_per_day. Qed.

Lemma month_length_era : all_from (Z.to_nat 4800) 0 month_length = true.
Proof. by vm_compute. Qed.

Lemma month_length_below k : 0 ≤ k < 4800 → month_length k = true.
Proof.
  intros Hk. apply (all_from_spec _ _ _ k month_length_era).
  change (Z.of_nat (Z.to_nat 4800)) with 4800. lia.
Qed.

Lemma MakeDay_shift k e : MakeDay 0 (k + 4800 * e) 1 = MakeDay 0 k 1 + 146097 * e.
Proof.
  unfold MakeDay.
  replace (k + 4800 * e) with (k + (400 * e) * 12) by lia.
  rewrite Z.div_add, Z.mod_add by lia.
  replace (0 + (k `div` 12 + 400 * e)) with (0 + k `div` 12 + 400 * e) by lia.
  rewrite days_from_civil_shift. lia.
Qed.

Lemma MakeDay_months year month date :
  MakeDay year month date = MakeDay 0 (year * 12 + month) 1 + date - 1.
Proof.
  unfold MakeDay. replace (year * 12 + month) with (month + year * 12) by lia.
  rewrite Z.div_add, Z.mod_add by lia.
  replace (0 + (month `div` 12 + year)) with (year + month `div` 12) by lia.
  lia.
Qed.

(** From the first of a month to the first of the next it is 28 to 31
    days. *)
Lemma MakeDay_next k : 28 ≤ MakeDay 0 (k + 1) 1 - MakeDay 0 k 1 ≤ 31.
Proof.
  assert (Hera : ∀ r e, 0 ≤ r < 4800 →
                        28 ≤ MakeDay 0 (r + 1 + 4800 * e) 1
                             - MakeDay 0 (r + 4800 * e) 1 ≤ 31).
  { intros r e Hr. rewrite !MakeDay_shift.
    pose proof (month_length_below r Hr) as Hlen.
    unfold month_length in Hlen. cbv zeta in Hlen.
    apply andb_true_iff in Hlen as [H1 H2].
    apply Z.leb_le in H1, H2. lia. }
  pose proof (Z.div_mod k 4800 ltac:(lia)) as Hk.
  pose proof (Z.mod_pos_bound k 4800 ltac:(lia)) as Hr.
  specialize (Hera (k `mod` 4800) (k `div` 4800) Hr).
  replace (k `mod` 4800 + 1 + 4800 * k `div` 4800) with (k + 1) in Hera by lia.
  replace (k `mod` 4800 + 4800 * k `div` 4800) with k in Hera by lia.
  exact Hera.
Qed.

Lemma MakeDay_forward k (n : nat) :
  MakeDay 0 k 1 ≤ MakeDay 0 (k + Z.of_nat n) 1
  ≤ MakeDay 0 k 1 + 31 * Z.of_nat n.
Proof.
  induction n as [|n IH].
  - replace (k + Z.of_nat 0) with k by lia. lia.
  - pose proof (MakeDay_next (k + Z.of_nat n)) as Hn.
    replace (k + Z.of_nat (S n)) with (k + Z.of_nat n + 1) by lia. lia.
Qed.

(** The firsts of two months that are [amount] months apart are at most
    [31 * |amount|] days apart. *)
Lemma MakeDay_span k amount :
  Z.abs (MakeDay 0 (k + amount) 1 - MakeDay 0 k 1) ≤ 31 * Z.abs amount.
Proof.
  destruct (Z.le_gt_cases 0 amount) as [Hpos|Hneg].
  - pose proof (MakeDay_forward k (Z.to_nat amount)) as H.
    rewrite Z2Nat.id in H by done. lia.
  - pose proof (MakeDay_forward (k + amount) (Z.to_nat (- amount))) as H.
    rewrite Z2Nat.id in H by lia.
    replace (k + amount + - amount) with k in H by lia. lia.
Qed.

Lemma TimeClip_in_range time :
  - max_time ≤ time ≤ max_time → TimeClip time = Some time.
Proof.
  intros [H1 H2]. unfold TimeClip.
  apply Z.leb_le in H1, H2. by rewrite H1, H2.
Qed.

End JsDateFacts.

(* ------------------------------------------------------------------------- *)
(** ** Properties of the month grid and of the month navigation *)

Module MonthFacts.
Import JsDate.

Section local.
Variable offset : Z.

Local Abbreviation LocalTime := (JsDate.LocalTime offset).
Local Abbreviation getFullYear := (JsDate.getFullYear offset).
Local Abbreviation getMonth := (JsDate.getMonth offset).
Local Abbreviation getDate := (JsDate.getDate offset).
Local Abbreviation getDay := (JsDate.getDay offset).
Local Abbreviation setDate := (JsDate.setDate offset).
Local Abbreviation setMonth := (JsDate.setMonth offset).
Local Abbreviation newDate := (JsDate.newDate offset).
Local Abbreviation changeMonth := (JsDate.changeMonth offset).
Local Abbreviation grid_start := (JsDate.grid_start offset).
Local Abbreviation push_days := (JsDate.push_days offset).
Local Abbreviation days := (JsDate.days offset).
Local Abbreviation isSameDay := (JsDate.isSameDay offset).
Local Abbreviation isCurrentMonth := (JsDate.isCurrentMonth offset).
Local Abbreviation ms_per_day := Calendar.ms_per_day.

(** The day number of a local time, from its calendar fields. *)
Lemma Day_fields t :
  Day t = days_from_civil (YearFromTime t) (MonthFromTime t) 1 + DateFromTime t - 1
  ∧ 0 ≤ MonthFromTime t ≤ 11
  ∧ 1 ≤ DateFromTime t ≤ 31.
Proof.
  unfold YearFromTime, MonthFromTime, DateFromTime.
  destruct (JsDateFacts.civil_round_trip (Day t)) as (H1 & H2 & H3).
  rewrite JsDateFacts.days_from_civil_date in H1. lia.
Qed.

(** The calendar fields are those of the local day. *)
Lemma fields_of_Day t t' :
  Day (LocalTime t) = Day (LocalTime t') →
  getFullYear t = getFullYear t' ∧ getMonth t = getMonth t'
  ∧ getDate t = getDate t' ∧ getDay t = getDay t'.
Proof.
  unfold JsDate.getFullYear, JsDate.getMonth, JsDate.getDate, JsDate.getDay,
    YearFromTime, MonthFromTime, DateFromTime, WeekDay.
  by intros ->.
Qed.

(** A time is its day and its time within the day. *)
Lemma time_split t : t = Day t * ms_per_day + TimeWithinDay t.
Proof.
  unfold Day, TimeWithinDay.
  pose proof (Z.div_mod t Calendar.ms_per_day ltac:(done)). lia.
Qed.

(** Moving a time by whole days. *)
Lemma Day_add_days t n : Day (t + n * ms_per_day) = Day t + n.
Proof. unfold Day. apply Z.div_add. done. Qed.

Lemma TimeWithinDay_add_days t n :
  TimeWithinDay (t + n * ms_per_day) = TimeWithinDay t.
Proof. unfold TimeWithinDay. apply Z.mod_add. done. Qed.

Lemma LocalTime_add_days t n :
  LocalTime (t + n * ms_per_day) = LocalTime t + n * ms_per_day.
Proof. unfold JsDate.LocalTime. lia. Qed.

(** [setDate] moves by whole days, unless this leaves the range of time
    values. *)
Lemma setDate_days t d :
  setDate t d = TimeClip (t + (d - getDate t) * ms_per_day).
Proof.
  unfold JsDate.setDate. cbv zeta. f_equal.
  destruct (Day_fields (LocalTime t)) as (HD & HM & _).
  rewrite JsDateFacts.MakeDay_in_range by done.
  pose proof (time_split (LocalTime t)) as Hsplit.
  unfold JsDate.getDate, UTC, MakeDate.
  unfold JsDate.LocalTime in Hsplit at 1. lia.
Qed.

(** The day after a cell is the next cell, while the time values last. *)
Lemma push_days_lookup n start i :
  (i < n)%nat →
  - max_time ≤ start → start + Z.of_nat i * ms_per_day ≤ max_time →
  push_days n (Some start) !! i = Some (Some (start + Z.of_nat i * ms_per_day)).
Proof.
  revert start i. induction n as [|n IH]; intros start i Hi Hlo Hhi; [lia|].
  destruct i as [|i]; cbn [JsDate.push_days].
  - cbn. do 2 f_equal. lia.
  - cbn [mbind option_bind]. rewrite setDate_days.
    replace (start + (getDate start + 1 - getDate start) * ms_per_day)
      with (start + ms_per_day) by lia.
    rewrite JsDateFacts.TimeClip_in_range
      by (unfold Calendar.ms_per_day in *; lia).
    cbn [lookup list_lookup].
    change (push_days n (Some (start + ms_per_day)) !! i
            = Some (Some (start + Z.of_nat (S i) * ms_per_day))).
    rewrite IH by (unfold Calendar.ms_per_day in *; lia).
    do 2 f_equal. lia.
Qed.

Lemma length_push_days n start : length (push_days n start) = n.
Proof.
  revert start. induction n as [|n IH]; intros start; [reflexivity|].
  cbn [JsDate.push_days length]. by rewrite IH.
Qed.

(** The first of the displayed month lies at most 31 days before
    [currentMonth], when the year is not one the [Date] constructor reads as
    19xx. *)
Lemma month_start_days currentMonth :
  ¬ (0 ≤ getFullYear currentMonth ≤ 99) →
  ∃ back, 0 ≤ back < 31 * ms_per_day
    ∧ newDate (getFullYear currentMonth) (getMonth currentMonth) 1
      = TimeClip (currentMonth - back)
    ∧ Day (LocalTime (currentMonth - back))
      = days_from_civil (getFullYear currentMonth) (getMonth currentMonth) 1.
Proof.
  intros Hyear.
  destruct (Day_fields (LocalTime currentMonth)) as (HD & HM & Hdt).
  fold (getFullYear currentMonth) (getMonth currentMonth)
    (getDate currentMonth) in HD, HM, Hdt.
  pose proof (time_split (LocalTime currentMonth)) as Hsplit.
  pose proof (JsDateFacts.TimeWithinDay_range (LocalTime currentMonth)) as Htw.
  assert (Hms : ms_per_day = 86400000) by reflexivity.
  set (tw := TimeWithinDay (LocalTime currentMonth)) in *.
  set (first := days_from_civil (getFullYear currentMonth)
                  (getMonth currentMonth) 1) in *.
  exists ((getDate currentMonth - 1) * ms_per_day + tw).
  assert (Hutc : currentMonth - ((getDate currentMonth - 1) * ms_per_day + tw)
                 = UTC offset (MakeDate first 0)).
  { unfold UTC, MakeDate. unfold JsDate.LocalTime at 1 in Hsplit.
    rewrite HD in Hsplit. rewrite Hms in *. lia. }
  split; [rewrite Hms in *; lia|]. split.
  - unfold JsDate.newDate. rewrite Hutc.
    destruct (Z.leb_spec 0 (getFullYear currentMonth));
      destruct (Z.leb_spec (getFullYear currentMonth) 99); cbn [andb];
      try lia;
      rewrite JsDateFacts.MakeDay_in_range by done; fold first;
      by replace (first + 1 - 1) with first by lia.
  - rewrite Hutc.
    replace (LocalTime (UTC offset (MakeDate first 0))) with (MakeDate first 0)
      by (unfold JsDate.LocalTime, UTC; lia).
    apply JsDateFacts.Day_MakeDate. rewrite Hms. lia.
Qed.

(** The first of the displayed month in a year the [Date] constructor reads
    as 19xx. *)
Lemma month_start_legacy year month :
  0 ≤ year ≤ 99 → 0 ≤ month ≤ 11 → Z.abs offset < ms_per_day →
  ∃ monthStart, newDate year month 1 = Some monthStart
                ∧ Z.abs monthStart ≤ 40000 * ms_per_day.
Proof.
  intros Hy Hm Hoff. unfold JsDate.newDate.
  destruct (Z.leb_spec 0 year); [|lia].
  destruct (Z.leb_spec year 99); [|lia]. cbn [andb].
  rewrite JsDateFacts.MakeDay_months.
  pose proof (JsDateFacts.MakeDay_forward 22800
                (Z.to_nat ((1900 + year) * 12 + month - 22800))) as Hspan.
  rewrite Z2Nat.id in Hspan by lia.
  replace (22800 + ((1900 + year) * 12 + month - 22800))
    with ((1900 + year) * 12 + month) in Hspan by lia.
  assert (H1900 : MakeDay 0 22800 1 = -25567) by (by vm_compute).
  rewrite H1900 in Hspan.
  eexists. split.
  - apply JsDateFacts.TimeClip_in_range.
    unfold UTC, MakeDate, max_time, Calendar.ms_per_day in *. lia.
  - unfold UTC, MakeDate, Calendar.ms_per_day in *. lia.
Qed.

(** The first cell is a Sunday at most 37 days before [currentMonth] (for a
    year read as 19xx: in the twentieth century). *)
Lemma grid_start_some currentMonth :
  Z.abs offset < ms_per_day →
  Z.abs currentMonth + 42 * ms_per_day ≤ max_time →
  ∃ start, grid_start currentMonth = Some start
           ∧ - max_time ≤ start ≤ max_time - 42 * ms_per_day
           ∧ (Day (LocalTime start) + 4) `mod` 7 = 0.
Proof.
  intros Hoff Hrange.
  assert (Hms : ∃ monthStart,
             newDate (getFullYear currentMonth) (getMonth currentMonth) 1
             = Some monthStart
             ∧ - max_time + 11 * ms_per_day ≤ monthStart
               ≤ max_time - 42 * ms_per_day).
  { destruct (decide (0 ≤ getFullYear currentMonth ≤ 99)) as [Hleg|Hyear].
    - destruct (Day_fields (LocalTime currentMonth)) as (_ & HM & _).
      destruct (month_start_legacy _ _ Hleg HM Hoff) as (m & Hm & Hb).
      exists m. split; [done|].
      unfold max_time, Calendar.ms_per_day in *. lia.
    - destruct (month_start_days currentMonth Hyear) as (back & Hb & Hnew & _).
      exists (currentMonth - back). split.
      + rewrite Hnew. apply JsDateFacts.TimeClip_in_range.
        unfold max_time, Calendar.ms_per_day in *. lia.
      + unfold max_time, Calendar.ms_per_day in *. lia. }
  destruct Hms as (monthStart & Hnew & Hb).
  pose proof (Z.mod_pos_bound (Day (LocalTime monthStart) + 4) 7 ltac:(lia))
    as Hwd.
  exists (monthStart - getDay monthStart * ms_per_day).
  unfold JsDate.grid_start. rewrite Hnew. cbn [mbind option_bind].
  rewrite setDate_days.
  replace (monthStart
           + (getDate monthStart - getDay monthStart - getDate monthStart)
             * ms_per_day)
    with (monthStart - getDay monthStart * ms_per_day) by lia.
  unfold JsDate.getDay, WeekDay in *.
  set (wd := (Day (LocalTime monthStart) + 4) `mod` 7) in *.
  split; [|split].
  - apply JsDateFacts.TimeClip_in_range.
    unfold max_time, Calendar.ms_per_day in *. lia.
  - unfold max_time, Calendar.ms_per_day in *. lia.
  - replace (monthStart - wd * ms_per_day)
      with (monthStart + (- wd) * ms_per_day) by lia.
    rewrite LocalTime_add_days, Day_add_days.
    pose proof (Z.div_mod (Day (LocalTime monthStart) + 4) 7 ltac:(lia)) as Hdm.
    fold wd in Hdm.
    replace (Day (LocalTime monthStart) + - wd + 4)
      with (((Day (LocalTime monthStart) + 4) `div` 7) * 7) by lia.
    apply Z.mod_mul. lia.
Qed.

(** X10. In a time zone less than a day from UTC, and for a [currentMonth]
    at least 42 days inside the range of time values: the first cell is a
    valid date, the month grid has 42 cells, all of them valid dates, on
    consecutive days, and the cell at position i falls on weekday i mod 7, so
    that every row runs from Sunday to Saturday, as the header row of the
    calendar says. *)
Theorem grid_weekdays (currentMonth : Z) :
  Z.abs offset < ms_per_day →
  Z.abs currentMonth + 42 * ms_per_day ≤ max_time →
  ∃ start,
    grid_start currentMonth = Some start
    ∧ length (days (Some currentMonth)) = 42%nat
    ∧ ∀ i, (i < 42)%nat →
           ∃ d, days (Some currentMonth) !! i = Some (Some d)
                ∧ getDay d = Z.of_nat i `mod` 7
                ∧ Day (LocalTime d) = Day (LocalTime start) + Z.of_nat i.
Proof.
  intros Hoff Hrange.
  destruct (grid_start_some currentMonth Hoff Hrange) as (start & Hs & Hb & Hsun).
  exists start. split; [done|]. unfold JsDate.days.
  split; [apply length_push_days|]. intros i Hi.
  exists (start + Z.of_nat i * ms_per_day).
  cbn [mbind option_bind]. rewrite Hs. split.
  - apply push_days_lookup; [done|..];
      unfold max_time, Calendar.ms_per_day in *; lia.
  - rewrite LocalTime_add_days, Day_add_days. split; [|done].
    unfold JsDate.getDay, WeekDay.
    rewrite LocalTime_add_days, Day_add_days.
    replace (Day (LocalTime start) + Z.of_nat i + 4)
      with (Z.of_nat i + (Day (LocalTime start) + 4)) by lia.
    rewrite Z.add_mod, Hsun, Z.add_0_r, Z.mod_mod by lia. done.
Qed.

(** X11. In a time zone less than a day from UTC, for a [currentMonth] at
    least 42 days inside the range of time values and in a year outside
    0..99 (which the [Date] constructor reads as 1900..1999): every day of
    the displayed month can be clicked.  For a time in the year and month of
    [currentMonth], one of the first 37 cells of the grid is a valid date on
    its day, and a click on that cell reaches [handleDateClick]. *)
Theorem grid_covers_month (currentMonth t : Z) :
  Z.abs offset < ms_per_day →
  Z.abs currentMonth + 42 * ms_per_day ≤ max_time →
  ¬ (0 ≤ getFullYear currentMonth ≤ 99) →
  getFullYear t = getFullYear currentMonth →
  getMonth t = getMonth currentMonth →
  ∃ i d, (i < 37)%nat
         ∧ days (Some currentMonth) !! i = Some (Some d)
         ∧ isSameDay d t = true
         ∧ ∀ selectedDates,
             JsDate.cell_click offset (Some currentMonth) selectedDates (Some d)
             = Calendar.handleDateClick getFullYear getMonth getDate
                 selectedDates d.
Proof.
  intros Hoff Hrange Hyear HY HM.
  destruct (month_start_days currentMonth Hyear) as (back & Hback & Hnew & Hday).
  set (monthStart := currentMonth - back) in *.
  assert (Hvalid : TimeClip monthStart = Some monthStart).
  { apply JsDateFacts.TimeClip_in_range.
    unfold monthStart, max_time, Calendar.ms_per_day in *. lia. }
  pose proof (Z.mod_pos_bound (Day (LocalTime monthStart) + 4) 7 ltac:(lia))
    as Hwd.
  fold (WeekDay (LocalTime monthStart)) in Hwd. fold (getDay monthStart) in Hwd.
  set (start := monthStart - getDay monthStart * ms_per_day).
  assert (Hstart : grid_start currentMonth = Some start).
  { unfold JsDate.grid_start. rewrite Hnew, Hvalid. cbn [mbind option_bind].
    rewrite setDate_days.
    replace (monthStart
             + (getDate monthStart - getDay monthStart - getDate monthStart)
               * ms_per_day) with start by (unfold start; lia).
    apply JsDateFacts.TimeClip_in_range.
    unfold start, monthStart, max_time, Calendar.ms_per_day in *. lia. }
  destruct (Day_fields (LocalTime t)) as (Ht & _ & Hdt).
  fold (getFullYear t) (getMonth t) (getDate t) in Ht, Hdt.
  set (i := Z.to_nat (getDay monthStart + getDate t - 1)).
  exists i, (start + Z.of_nat i * ms_per_day).
  split; [unfold i; lia|]. split.
  { unfold JsDate.days. cbn [mbind option_bind]. rewrite Hstart.
    apply push_days_lookup; [unfold i; lia|..];
      unfold i, start, monthStart, max_time, Calendar.ms_per_day in *; lia. }
  assert (Hsame : Day (LocalTime (start + Z.of_nat i * ms_per_day))
                  = Day (LocalTime t)).
  { rewrite LocalTime_add_days, Day_add_days. unfold start.
    replace (monthStart - getDay monthStart * ms_per_day)
      with (monthStart + (- getDay monthStart) * ms_per_day) by lia.
    rewrite LocalTime_add_days, Day_add_days, Hday, Ht, HY, HM.
    unfold i. lia. }
  destruct (fields_of_Day _ t Hsame) as (H1 & H2 & H3 & _).
  split.
  - unfold JsDate.isSameDay, Calendar.isSameDay.
    by rewrite H1, H2, H3, !Z.eqb_refl.
  - intros selectedDates. unfold JsDate.cell_click, JsDate.isCurrentMonth.
    by rewrite H2, HM, Z.eqb_refl.
Qed.

(** The calendar fields of the first of month [k]. *)
Lemma month_time_fields k time :
  0 ≤ time < ms_per_day →
  getFullYear (month_time offset k time) = k `div` 12
  ∧ getMonth (month_time offset k time) = k `mod` 12
  ∧ getDate (month_time offset k time) = 1
  ∧ TimeWithinDay (LocalTime (month_time offset k time)) = time.
Proof.
  intros Htime.
  assert (Hlocal : LocalTime (month_time offset k time)
                   = MakeDate (MakeDay 0 k 1) time).
  { unfold month_time, JsDate.LocalTime, UTC. lia. }
  pose proof (Z.mod_pos_bound k 12 ltac:(lia)) as Hm.
  assert (Hciv : Calendar.civil_from_days (Day (LocalTime (month_time offset k time)))
                 = (k `div` 12, k `mod` 12, 1)).
  { rewrite Hlocal, JsDateFacts.Day_MakeDate by done. unfold MakeDay.
    replace (days_from_civil (0 + k `div` 12) (k `mod` 12) 1 + 1 - 1)
      with (days_from_civil (k `div` 12) (k `mod` 12) 1)
      by (rewrite Z.add_0_l; lia).
    apply JsDateFacts.first_of_month_round_trip. lia. }
  unfold JsDate.getFullYear, JsDate.getMonth, JsDate.getDate,
    YearFromTime, MonthFromTime, DateFromTime.
  rewrite Hciv. cbn [fst snd]. split; [done|]. split; [done|]. split; [done|].
  rewrite Hlocal. by apply JsDateFacts.TimeWithinDay_MakeDate.
Qed.

(** A time is some days after the first of its month. *)
Lemma month_time_of prev :
  prev
  = month_time offset (getFullYear prev * 12 + getMonth prev)
      (TimeWithinDay (LocalTime prev))
    + (getDate prev - 1) * ms_per_day.
Proof.
  destruct (Day_fields (LocalTime prev)) as (HD & HM & _).
  fold (getFullYear prev) (getMonth prev) (getDate prev) in HD, HM.
  pose proof (time_split (LocalTime prev)) as Hsplit.
  unfold JsDate.LocalTime at 1 in Hsplit. rewrite HD in Hsplit.
  unfold month_time, UTC, MakeDate.
  rewrite <- (Z.add_0_r (MakeDay 0 _ 1)).
  replace (MakeDay 0 (getFullYear prev * 12 + getMonth prev) 1 + 0)
    with (MakeDay (getFullYear prev) (getMonth prev) 1)
    by (rewrite (JsDateFacts.MakeDay_months (getFullYear prev)); lia).
  rewrite JsDateFacts.MakeDay_in_range by done.
  assert (Hms : ms_per_day = 86400000) by reflexivity.
  rewrite Hms in *. lia.
Qed.

(** [setMonth] on a first of a month. *)
Lemma setMonth_first t month :
  getDate t = 1 →
  setMonth t month
  = TimeClip (month_time offset (getFullYear t * 12 + month)
                (TimeWithinDay (LocalTime t))).
Proof.
  intros Hd. unfold JsDate.setMonth, month_time. cbv zeta.
  fold (getFullYear t) (getDate t).
  by rewrite JsDateFacts.MakeDay_months, Hd, Z.add_simpl_r.
Qed.

(** The months are 28 to 31 days long. *)
Lemma month_time_span k amount time :
  Z.abs (month_time offset (k + amount) time - month_time offset k time)
  ≤ 31 * Z.abs amount * ms_per_day.
Proof.
  pose proof (JsDateFacts.MakeDay_span k amount) as Hspan.
  assert (Hms : ms_per_day = 86400000) by reflexivity.
  unfold month_time, UTC, MakeDate. rewrite Hms. lia.
Qed.

(** What [changeMonth] returns, when the first of the month of [prev] is a
    time value. *)
Lemma changeMonth_value amount prev :
  - max_time ≤ prev - (getDate prev - 1) * ms_per_day →
  prev ≤ max_time →
  setDate prev 1
  = Some (month_time offset (getFullYear prev * 12 + getMonth prev)
            (TimeWithinDay (LocalTime prev)))
  ∧ changeMonth amount prev
    = TimeClip (month_time offset
                  (getFullYear prev * 12 + getMonth prev + amount)
                  (TimeWithinDay (LocalTime prev))).
Proof.
  intros Hlo Hhi.
  pose proof (month_time_of prev) as Hprev.
  destruct (Day_fields (LocalTime prev)) as (_ & _ & Hdt).
  fold (getDate prev) in Hdt.
  pose proof (JsDateFacts.TimeWithinDay_range (LocalTime prev)) as Htime.
  set (k := getFullYear prev * 12 + getMonth prev) in *.
  set (time := TimeWithinDay (LocalTime prev)) in *.
  destruct (month_time_fields k time Htime) as (HY & HM & HD & HT).
  assert (Hms : ms_per_day = 86400000) by reflexivity.
  assert (Hfirst : setDate prev 1 = Some (month_time offset k time)).
  { rewrite setDate_days.
    replace (prev + (1 - getDate prev) * ms_per_day)
      with (month_time offset k time) by lia.
    apply JsDateFacts.TimeClip_in_range. rewrite Hms in *. lia. }
  split; [exact Hfirst|].
  unfold JsDate.changeMonth. rewrite Hfirst. cbn [mbind option_bind].
  rewrite (setMonth_first _ _ HD), HY, HT. do 2 f_equal.
  destruct (Day_fields (LocalTime prev)) as (_ & Hm & _).
  fold (getMonth prev) in Hm.
  replace (k `div` 12) with (getFullYear prev)
    by (apply (Z.div_unique _ _ _ (getMonth prev)); unfold k; lia).
  unfold k. lia.
Qed.

(** X12. Month navigation never skips a month.  In a time zone less than a
    day from UTC, and for a [prev] at least [31 * (|amount| + 1)] days inside
    the range of time values: from any day of a month, [changeMonth(amount)]
    gives a valid date, on the first day of the month [amount] months away,
    carrying into the year, at the same time of day. *)
Theorem changeMonth_first_of_month (amount prev : Z) :
  Z.abs offset < ms_per_day →
  Z.abs prev + 31 * (Z.abs amount + 1) * ms_per_day ≤ max_time →
  ∃ r, changeMonth amount prev = Some r
       ∧ getDate r = 1
       ∧ getMonth r = (getMonth prev + amount) `mod` 12
       ∧ getFullYear r = getFullYear prev + (getMonth prev + amount) `div` 12
       ∧ TimeWithinDay (LocalTime r) = TimeWithinDay (LocalTime prev).
Proof.
  intros _ Hrange.
  assert (Hms : ms_per_day = 86400000) by reflexivity.
  destruct (Day_fields (LocalTime prev)) as (_ & _ & Hdt).
  fold (getDate prev) in Hdt.
  pose proof (JsDateFacts.TimeWithinDay_range (LocalTime prev)) as Htime.
  pose proof (month_time_of prev) as Hprev.
  pose proof (month_time_span (getFullYear prev * 12 + getMonth prev) amount
                (TimeWithinDay (LocalTime prev))) as Hspan.
  destruct (changeMonth_value amount prev) as [_ Hvalue];
    [rewrite Hms in *; lia..|].
  set (k := getFullYear prev * 12 + getMonth prev) in *.
  set (time := TimeWithinDay (LocalTime prev)) in *.
  exists (month_time offset (k + amount) time). split.
  - rewrite Hvalue. apply JsDateFacts.TimeClip_in_range.
    rewrite Hms in *. lia.
  - destruct (month_time_fields (k + amount) time Htime) as (HY & HM & HD & HT).
    assert (Hk : k + amount = getMonth prev + amount + getFullYear prev * 12)
      by (unfold k; lia).
    split; [exact HD|]. split; [|split; [|exact HT]].
    + rewrite HM, Hk. apply Z.mod_add. lia.
    + rewrite HY, Hk, Z.div_add by lia. lia.
Qed.

(** X13. In a time zone less than a day from UTC, and for a [prev] at least
    [31 * (|amount| + 1)] days inside the range of time values: going
    [amount] months forward and [amount] months back gives valid dates and
    ends on the first of the month one started from, at the same time of
    day. *)
Theorem changeMonth_back (amount prev : Z) :
  Z.abs offset < ms_per_day →
  Z.abs prev + 31 * (Z.abs amount + 1) * ms_per_day ≤ max_time →
  ∃ r r', changeMonth amount prev = Some r
          ∧ changeMonth (- amount) r = Some r'
          ∧ setDate prev 1 = Some r'
          ∧ getMonth r' = getMonth prev
          ∧ getFullYear r' = getFullYear prev.
Proof.
  intros _ Hrange.
  assert (Hms : ms_per_day = 86400000) by reflexivity.
  destruct (Day_fields (LocalTime prev)) as (_ & Hm & Hdt).
  fold (getDate prev) in Hdt. fold (getMonth prev) in Hm.
  pose proof (JsDateFacts.TimeWithinDay_range (LocalTime prev)) as Htime.
  pose proof (month_time_of prev) as Hprev.
  pose proof (month_time_span (getFullYear prev * 12 + getMonth prev) amount
                (TimeWithinDay (LocalTime prev))) as Hspan.
  destruct (changeMonth_value amount prev) as [Hfirst Hvalue];
    [rewrite Hms in *; lia..|].
  set (k := getFullYear prev * 12 + getMonth prev) in *.
  set (time := TimeWithinDay (LocalTime prev)) in *.
  destruct (month_time_fields (k + amount) time Htime) as (HY & HM & HD & HT).
  destruct (month_time_fields k time Htime) as (HY0 & HM0 & _ & _).
  set (r := month_time offset (k + amount) time) in *.
  assert (Hr : - max_time ≤ r ≤ max_time) by (rewrite Hms in *; lia).
  exists r, (month_time offset k time).
  split; [rewrite Hvalue; by apply JsDateFacts.TimeClip_in_range|].
  split; [|split; [exact Hfirst|]].
  - destruct (changeMonth_value (- amount) r) as [_ Hback];
      [rewrite HD; lia | lia |].
    rewrite Hback, HY, HM, HT.
    pose proof (Z.div_mod (k + amount) 12 ltac:(lia)) as Hdm.
    replace ((k + amount) `div` 12 * 12 + (k + amount) `mod` 12 + - amount)
      with k by lia.
    apply JsDateFacts.TimeClip_in_range. rewrite Hms in *. lia.
  - rewrite HM0, HY0. unfold k. split.
    + symmetry. apply (Z.mod_unique _ _ (getFullYear prev)); lia.
    + symmetry. apply (Z.div_unique _ _ _ (getMonth prev)); lia.
Qed.

End local.
End MonthFacts.

(* ------------------------------------------------------------------------- *)
(** ** Properties of the page *)

Module UiFacts.
Import Ui.

Lemma pdf_not_csv (fileName : string) :
  endsWith fileName ".pdf" = true → endsWith fileName ".csv" = false.
Proof.
  unfold endsWith. generalize (String.rev fileName). intros [|c r]; [done|].
  change (String.rev ".pdf") with "fdp.". change (String.rev ".csv") with "vsc.".
  cbn [String.prefix].
  destruct (Ascii.ascii_dec _ c) as [<-|]; [|done]. intros _.
  by destruct (Ascii.ascii_dec _ _).
Qed.

Lemma accepted_icon (file : string) :
  existsb (λ type, endsWith file type) [".csv"; ".pdf"] = true →
  getFileIcon file ≠ FileIcon.
Proof.
  unfold getFileIcon. cbn [existsb]. rewrite orb_false_r.
  intros [-> | H]%orb_true_iff; [done|].
  rewrite H. by destruct (endsWith file ".csv").
Qed.

(** X14. Toasts made in the same millisecond share an id: dismissing one
    toast removes every toast with its id, so a toast shown at time [now]
    and dismissed by its id takes the earlier toasts of that millisecond with
    it; toasts with other ids stay, in order, and when no earlier toast has
    the id, showing and dismissing gives back the list. *)
Theorem dismiss_after_show (id now : Z) (message : string)
  (type : Frontend.toast_type) (prev : list Toast) :
  dismissToast id (showToast now message type prev)
  = (if now =? id then dismissToast id prev
     else showToast now message type (dismissToast id prev))
  ∧ ((∀ toast, toast ∈ prev → toast_id toast ≠ now) →
     dismissToast now (showToast now message type prev) = prev).
Proof.
  unfold dismissToast, showToast. split.
  - rewrite List.filter_app. cbn [List.filter toast_id].
    destruct (Z.eqb_spec now id); simpl; [apply app_nil_r | done].
  - intros Hprev. rewrite List.filter_app. cbn [List.filter toast_id].
    rewrite Z.eqb_refl. simpl. rewrite app_nil_r.
    induction prev as [|toast prev IH]; [done|]. cbn [List.filter].
    destruct (Z.eqb_spec (toast_id toast) now) as [Heq|_].
    + destruct (Hprev toast); [by left | done].
    + simpl. f_equal. apply IH. intros t Ht. apply Hprev. by right.
Qed.

Section app.
Context {F V : Type} `{!Binary64 F, !Services F V}.
Variable offset : Z.

Local Abbreviation app := (Ui.app F).
Local Abbreviation event := (Ui.event F).
Local Abbreviation step := (Ui.step (F:=F) offset).
Local Abbreviation run := (Ui.run (F:=F) offset).
Local Abbreviation getFullYear := (JsDate.getFullYear offset).
Local Abbreviation getMonth := (JsDate.getMonth offset).
Local Abbreviation getDate := (JsDate.getDate offset).
Local Abbreviation handleDateClick :=
  (Calendar.handleDateClick getFullYear getMonth getDate).
Local Abbreviation distinct_days :=
  (Calendar.distinct_days getFullYear getMonth getDate).

(** What holds at the start and after every event holds all along. *)
Lemma run_ind (P : app → Prop) :
  P initial → (∀ st e, P st → P (step st e)) → ∀ events, P (run events).
Proof.
  intros H0 Hstep events. unfold Ui.run. generalize (initial (F:=F)) H0.
  induction events as [|e events IH]; intros st Hst; [done|].
  cbn [fold_left]. apply IH, Hstep, Hst.
Qed.

(** X15. Whatever happens on the page, the file shared with the chat is the
    uploaded file while the chat is enabled, and no file otherwise. *)
Theorem chat_shares_uploaded_file (events : list event) :
  sharedInvoiceFile (run events)
  = if Frontend.enableChat (calc (run events))
    then Frontend.uploadedFile (calc (run events))
    else None.
Proof.
  apply (run_ind (λ st, sharedInvoiceFile st
                        = if Frontend.enableChat (calc st)
                          then Frontend.uploadedFile (calc st) else None));
    [done|].
  intros [[sel file loading cost chat] shared ts pend] e Hst. simpl in Hst.
  destruct e as [now|files| |now enabled|day|now|now random|id]; simpl.
  - done.
  - destruct (handleFileChange _ files); [|done|done]. simpl.
    by destruct chat.
  - by destruct chat.
  - by destruct enabled, file.
  - done.
  - by destruct file, sel.
  - by destruct pend.
  - done.
Qed.

(** X16. Whatever happens on the page, the uploaded file is one the upload
    box accepted: its name ends with .csv or .pdf, and the file card never
    shows the icon of an unknown type. *)
Theorem uploaded_file_accepted (events : list event) (file : string) :
  Frontend.uploadedFile (calc (run events)) = Some file →
  (endsWith file ".csv" = true ∨ endsWith file ".pdf" = true)
  ∧ getFileIcon file ≠ FileIcon.
Proof.
  revert file.
  apply (run_ind (λ st, ∀ file, Frontend.uploadedFile (calc st) = Some file →
                        (endsWith file ".csv" = true ∨ endsWith file ".pdf" = true)
                        ∧ getFileIcon file ≠ FileIcon)); [done|].
  intros [[sel file loading cost chat] shared ts pend] e Hst. simpl in Hst.
  destruct e as [now|files| |now enabled|day|now|now random|id]; simpl;
    try done.
  - unfold handleFileChange. destruct files as [[|f rest]|]; try done.
    destruct (existsb _ _) eqn:Hacc; [|done]. simpl.
    intros ? [= <-]. split; [|by apply accepted_icon].
    cbn [existsb] in Hacc. rewrite orb_false_r in Hacc.
    by apply orb_true_iff in Hacc.
  - by destruct enabled, file.
  - by destruct file, sel.
  - by destruct pend.
Qed.

(** A click keeps the selection free of two dates on one day. *)
Lemma handleDateClick_distinct (selectedDates : list Z) (day : Z) :
  distinct_days selectedDates →
  distinct_days (handleDateClick selectedDates day).
Proof.
  intros Hdist.
  destruct (JsFacts.findIndex_range
              (λ d, Calendar.isSameDay getFullYear getMonth getDate d day)
              selectedDates) as [Hnone | Hsome].
  - pose proof (CalendarFacts.handleDateClick_fresh _ _ _ _ _ Hnone) as Hperm.
    pose proof (proj1 (JsFacts.findIndex_none _ _) Hnone) as Hall.
    simpl in Hall.
    apply (CalendarFacts.distinct_days_perm _ _ _ (selectedDates ++ [day]));
      [done|].
    apply CalendarFacts.distinct_days_NoDup. rewrite fmap_app. simpl.
    apply NoDup_app. split; [by apply CalendarFacts.distinct_days_NoDup|].
    split; [|apply NoDup_singleton].
    intros k Hk Hk'. apply list_elem_of_singleton in Hk' as ->.
    apply list_elem_of_fmap in Hk as (d & Hd & Hin).
    symmetry in Hd. apply CalendarFacts.isSameDay_key in Hd.
    rewrite (Hall d Hin) in Hd. discriminate.
  - destruct (JsFacts.findIndex_found
                (λ d, Calendar.isSameDay getFullYear getMonth getDate d day)
                selectedDates) as (x & Hx & _); [lia|].
    set (n := Z.to_nat (Js.findIndex _ selectedDates)) in *.
    apply (CalendarFacts.distinct_days_perm _ _ _ (delete n selectedDates)).
    + symmetry. apply (CalendarFacts.handleDateClick_found _ _ _ _ _ n x);
        [unfold n; lia | done].
    + apply CalendarFacts.distinct_days_NoDup in Hdist.
      apply CalendarFacts.distinct_days_NoDup.
      rewrite (delete_Permutation _ _ _ Hx) in Hdist.
      by apply NoDup_cons in Hdist as [_ ?].
Qed.

(** X17. Whatever happens on the page, the selection is in ascending order
    and holds at most one date per local calendar day, so the number of
    selected dates [handleCalculate] multiplies is a number of days. *)
Theorem selection_sorted_distinct (events : list event) :
  Sorted Z.le (Frontend.selectedDates (calc (run events)))
  ∧ distinct_days (Frontend.selectedDates (calc (run events))).
Proof.
  apply (run_ind (λ st, Sorted Z.le (Frontend.selectedDates (calc st))
                        ∧ distinct_days (Frontend.selectedDates (calc st)))).
  - split; [constructor|]. intros i j a b Ha. simpl in Ha. by rewrite lookup_nil in Ha.
  - intros [[sel file loading cost chat] shared ts pend] e Hst. simpl in Hst.
    destruct e as [now|files| |now enabled|day|now|now random|id]; simpl;
      try done.
    + by destruct (handleFileChange _ files).
    + by destruct enabled, file.
    + split; [apply JsFacts.sort_by_time_sorted|].
      apply handleDateClick_distinct, Hst.
    + by destruct file, sel.
    + by destruct pend.
Qed.

(** X18. [handleCalculate] in two halves: when no other calculation waits,
    the part before the [await] followed by the part after it leaves the
    calculator in the state, and shows the toasts, of the handler run in one
    go; the shared file is untouched and nothing is left waiting. *)
Theorem handleCalculate_in_two_halves (now now' : Z) (random : F) (st : app) :
  calculating st = [] →
  let st' := handleCalculate_resume now' random (handleCalculate_begin now st) in
  calc st' = (Frontend.handleCalculate random (calc st)).1
  ∧ (λ toast, (toast_message toast, toast_type toast))
      <$> drop (length (toasts st)) (toasts st')
    = (Frontend.handleCalculate random (calc st)).2
  ∧ take (length (toasts st)) (toasts st') = toasts st
  ∧ sharedInvoiceFile st' = sharedInvoiceFile st
  ∧ calculating st' = [].
Proof.
  destruct st as [[sel file loading cost chat] shared ts pend]. simpl.
  intros ->. unfold handleCalculate_begin, handleCalculate_resume,
    Frontend.handleCalculate, showToast. simpl.
  destruct file as [f|], sel as [|d sel]; simpl;
    rewrite ?drop_app_length, ?take_app_length; done.
Qed.

(** X19. [Clear] does not cancel a calculation that is under way: when the
    timer fires after the form was cleared, a total for the selection held at
    the click is shown although no file and no dates are left, and the
    button is disabled. *)
Theorem clear_does_not_cancel (now1 now2 now3 : Z) (random : F) (st : app)
  (file : string) :
  Frontend.uploadedFile (calc st) = Some file →
  Frontend.selectedDates (calc st) ≠ [] →
  calculating st = [] →
  let st' :=
    fold_left step [CalculateClicked now1; Clear now2; TimerFired now3 random]
      st in
  calc st'
  = Frontend.Calculator [] None false
      (Some (fadd (fmul (fof_Z (Z.of_nat (length (Frontend.selectedDates (calc st)))))
                     (fdec 575 2))
               (fmul random (fof_Z 10))))
      false
  ∧ sharedInvoiceFile st' = None
  ∧ isButtonDisabled st' = true.
Proof.
  destruct st as [[sel f loading cost chat] shared ts pend]. simpl.
  intros -> Hsel ->. destruct sel as [|d sel]; [done|]. done.
Qed.

(** X20. The upload box accepts what the upload endpoint refuses: a file
    whose name ends with .pdf is handed on by [handleFileChange], and
    [upload_invoice] answers it with the error reply and stores nothing. *)
Theorem pdf_accepted_then_refused (filename : string) (others : list string)
  (now : Z) (df : Py.DataFrame F) (user_id : option string)
  (w : Model.world F V) :
  endsWith filename ".pdf" = true →
  handleFileChange [".csv"; ".pdf"] (Some (filename :: others))
  = onFileUpload filename
  ∧ Api.upload_invoice now filename df user_id w
    = (Py.Ok [("error", Py.VStr "Only CSV supported for MVP")], w).
Proof.
  intros Hpdf. split.
  - unfold handleFileChange. cbn [existsb]. rewrite Hpdf.
    by rewrite orb_true_r.
  - unfold Api.upload_invoice.
    change (Py.endswith filename ".csv") with (endsWith filename ".csv").
    by rewrite (pdf_not_csv _ Hpdf).
Qed.

End app.
End UiFacts.

(* ------------------------------------------------------------------------- *)
(** ** The properties above at concrete inputs *)

Module Scenarios.
Import Model Exact Fixtures.

(** X2 on the store of scenario A and a second invoice. *)
Lemma store_then_calculate_witness :
  StoreNotions.fresh_invoice (tfl_invoices store) "invoice_002"
  ∧ Py.get "transactions_count"
      (Notebook04.calculate_cost "invoice_002" ["2024-01-15"] "bob"
         (Notebook04.store_invoice parsed_rows "invoice_002" "bob" store))
    = Some (Py.VInt 2).
Proof.
  assert (Hfresh : StoreNotions.fresh_invoice (tfl_invoices store) "invoice_002").
  { intros p Hp. vm_compute in Hp.
    repeat (apply elem_of_cons in Hp as [-> | Hp]);
      [..|by apply elem_of_nil in Hp];
      (split; [discriminate | intros i Hi; cbn in Hi; discriminate Hi]). }
  exact (conj Hfresh
           (proj1 (LedgerFacts.store_then_calculate store parsed_rows
                     "invoice_002" "bob" ["2024-01-15"] Hfresh))).
Defined.

(** X3 on the three-row file uploaded by alice to the store of scenario A. *)
Lemma upload_then_calculate_witness :
  Py.endswith "invoice.csv" ".csv" = true
  ∧ Api.upload_transactions csv_missing_amount = Py.Ok parsed_rows
  ∧ StoreNotions.fresh_invoice (tfl_invoices store)
      (Api.new_invoice_id (Some "alice") 1700000000)
  ∧ Observations.breakdown_entry "transactions_count"
      (Nodes.calculate_cost
         (Api.upload_invoice 1700000000 "invoice.csv" csv_missing_amount
            (Some "alice") store).2
         (request "" (Some (Api.new_invoice_id (Some "alice") 1700000000))
            ["2024-01-16"]))
    = Some (Py.VInt 1).
Proof.
  assert (Hfresh : StoreNotions.fresh_invoice (tfl_invoices store)
                     (Api.new_invoice_id (Some "alice") 1700000000)).
  { intros p Hp. vm_compute in Hp.
    repeat (apply elem_of_cons in Hp as [-> | Hp]);
      [..|by apply elem_of_nil in Hp];
      (split; [intros Hi; vm_compute in Hi; discriminate Hi
              | intros i Hi; cbn in Hi; discriminate Hi]). }
  split; [reflexivity|]. split; [reflexivity|]. split; [exact Hfresh|].
  refine (proj2 (LedgerFacts.upload_then_calculate 1700000000 "invoice.csv"
                   csv_missing_amount (Some "alice") store parsed_rows
                   (request "" (Some (Api.new_invoice_id (Some "alice") 1700000000))
                      ["2024-01-16"])
                   eq_refl eq_refl Hfresh eq_refl _)).
  discriminate.
Defined.

(** X4 on the store of scenario A with every transaction handed to another
    user. *)
Lemma calculate_cost_ignores_users_witness :
  Forall2 StoreNotions.same_but_user (tfl_invoices store)
    (StoreNotions.with_user "mallory" <$> tfl_invoices store)
  ∧ Nodes.calculate_cost
      (World [foreign_doc] (StoreNotions.with_user "mallory" <$> ledger) [] [])
      dates_and_question
    = Nodes.calculate_cost store dates_and_question.
Proof.
  assert (Hrel : Forall2 StoreNotions.same_but_user (tfl_invoices store)
                   (StoreNotions.with_user "mallory" <$> tfl_invoices store)).
  { repeat constructor; by exists "mallory". }
  exact (conj Hrel
           (LedgerFacts.calculate_cost_ignores_users store
              (World [foreign_doc] (StoreNotions.with_user "mallory" <$> ledger)
                 [] [])
              dates_and_question Hrel)).
Defined.

(** X5 on scenario A: 15 January has an entry and is selected. *)
Lemma per_day_entries_witness :
  invoice_id dates_and_question = Some "invoice_001"
  ∧ (is_Some (Observations.daily_total
                (Nodes.calculate_cost store dates_and_question) "2024-01-15")
     → "2024-01-15" ∈ selected_dates dates_and_question).
Proof.
  split; [reflexivity|].
  refine (proj2 (LedgerFacts.per_day_entries store dates_and_question
                   "invoice_001" "2024-01-15" eq_refl _ _));
    discriminate.
Defined.

(** X7 on a text uploaded in session A to the store of scenario A. *)
Lemma chat_stores_and_retrieves_witness :
  (1 ≤ length (Api.chat_retrieve 1700000100 "invoice of A" "What did I spend?"
                 (Some "A") store).1 ≤ 3)%nat.
Proof.
  exact (proj1 (proj2 (proj2 (ServiceFacts.chat_stores_and_retrieves 1700000100
                                (Py.Ok "invoice of A") "What did I spend?"
                                (Some "A") store)
                         "invoice of A" eq_refl))).
Defined.

(** X9 on a file with the columns [date] and [journey_type] only. *)
Lemma missing_amount_column_witness :
  Py.index_of "amount" ["date"; "journey_type"] = None
  ∧ ∃ ts, Api.upload_transactions
            (Py.mkDataFrame (F:=cents) ["date"; "journey_type"]
               [[Py.VStr "2024-01-15"; Py.VStr "tube"]])
          = Py.Ok ts
          ∧ length ts = 1%nat
          ∧ Forall (λ t, Notebook04.t_amount t = Cents 0) ts.
Proof.
  split; [reflexivity|].
  exact (proj1 (ServiceFacts.missing_amount_column
                  "2024-02-01T09:00:00"
                  (Py.mkDataFrame ["date"; "journey_type"]
                     [[Py.VStr "2024-01-15"; Py.VStr "tube"]])
                  eq_refl)).
Defined.

(** X10 for January 2024, one hour east of Greenwich. *)
Lemma grid_weekdays_witness :
  Z.abs Calendar.jan15 + 42 * Calendar.ms_per_day ≤ JsDate.max_time
  ∧ ∃ start,
      JsDate.grid_start 3600000 Calendar.jan15 = Some start
      ∧ length (JsDate.days 3600000 (Some Calendar.jan15)) = 42%nat
      ∧ ∀ i, (i < 42)%nat →
             ∃ d, JsDate.days 3600000 (Some Calendar.jan15) !! i = Some (Some d)
                  ∧ JsDate.getDay 3600000 d = Z.of_nat i `mod` 7
                  ∧ JsDate.Day (JsDate.LocalTime 3600000 d)
                    = JsDate.Day (JsDate.LocalTime 3600000 start) + Z.of_nat i.
Proof.
  assert (Hrange : Z.abs Calendar.jan15 + 42 * Calendar.ms_per_day
                   ≤ JsDate.max_time) by (vm_compute; discriminate).
  exact (conj Hrange
           (MonthFacts.grid_weekdays 3600000 Calendar.jan15 eq_refl Hrange)).
Defined.

(** X11 for January 2024, one hour east of Greenwich: 17 January has its
    cell. *)
Lemma grid_covers_month_witness :
  JsDate.getFullYear 3600000 Calendar.jan15 = 2024
  ∧ ∃ i d, (i < 37)%nat
           ∧ JsDate.days 3600000 (Some Calendar.jan15) !! i = Some (Some d)
           ∧ JsDate.isSameDay 3600000 d Calendar.jan17 = true
           ∧ ∀ selectedDates,
               JsDate.cell_click 3600000 (Some Calendar.jan15) selectedDates
                 (Some d)
               = Calendar.handleDateClick (JsDate.getFullYear 3600000)
                   (JsDate.getMonth 3600000) (JsDate.getDate 3600000)
                   selectedDates d.
Proof.
  split; [reflexivity|].
  refine (MonthFacts.grid_covers_month 3600000 Calendar.jan15 Calendar.jan17
            eq_refl _ _ eq_refl eq_refl).
  - vm_compute. discriminate.
  - intros [_ Hle]. vm_compute in Hle. exact (Hle eq_refl).
Defined.

(** X12 from 15 January 2024 to February. *)
Lemma changeMonth_first_of_month_witness :
  Z.abs Calendar.jan15 + 31 * (Z.abs 1 + 1) * Calendar.ms_per_day
  ≤ JsDate.max_time
  ∧ ∃ r, JsDate.changeMonth 3600000 1 Calendar.jan15 = Some r
         ∧ JsDate.getDate 3600000 r = 1
         ∧ JsDate.getMonth 3600000 r
           = (JsDate.getMonth 3600000 Calendar.jan15 + 1) `mod` 12
         ∧ JsDate.getFullYear 3600000 r
           = JsDate.getFullYear 3600000 Calendar.jan15
             + (JsDate.getMonth 3600000 Calendar.jan15 + 1) `div` 12
         ∧ JsDate.TimeWithinDay (JsDate.LocalTime 3600000 r)
           = JsDate.TimeWithinDay (JsDate.LocalTime 3600000 Calendar.jan15).
Proof.
  assert (Hrange : Z.abs Calendar.jan15
                   + 31 * (Z.abs 1 + 1) * Calendar.ms_per_day
                   ≤ JsDate.max_time) by (vm_compute; discriminate).
  exact (conj Hrange
           (MonthFacts.changeMonth_first_of_month 3600000 1 Calendar.jan15
              eq_refl Hrange)).
Defined.

(** X13 from 15 January 2024 to December 2023 and back. *)
Lemma changeMonth_back_witness :
  Z.abs Calendar.jan15 + 31 * (Z.abs (-1) + 1) * Calendar.ms_per_day
  ≤ JsDate.max_time
  ∧ ∃ r r', JsDate.changeMonth 3600000 (-1) Calendar.jan15 = Some r
            ∧ JsDate.changeMonth 3600000 (- -1) r = Some r'
            ∧ JsDate.setDate 3600000 Calendar.jan15 1 = Some r'
            ∧ JsDate.getMonth 3600000 r' = JsDate.getMonth 3600000 Calendar.jan15
            ∧ JsDate.getFullYear 3600000 r'
              = JsDate.getFullYear 3600000 Calendar.jan15.
Proof.
  assert (Hrange : Z.abs Calendar.jan15
                   + 31 * (Z.abs (-1) + 1) * Calendar.ms_per_day
                   ≤ JsDate.max_time) by (vm_compute; discriminate).
  exact (conj Hrange
           (MonthFacts.changeMonth_back 3600000 (-1) Calendar.jan15
              eq_refl Hrange)).
Defined.

(** At the ends of the range of time values (host in UTC): the month of the
    last time value has 14 cells, the others are Invalid Dates; the month of
    the first time value has none, its first day lying before the range;
    from the last month [changeMonth(1)] gives an Invalid Date, and
    [changeMonth(-1)] the first of August 275760. *)
Example grid_at_the_ends :
  JsDate.days 0 (Some JsDate.max_time) !! 13%nat = Some (Some JsDate.max_time)
  ∧ drop 14 (JsDate.days 0 (Some JsDate.max_time)) = replicate 28 None
  ∧ JsDate.days 0 (Some (- JsDate.max_time)) = replicate 42 None
  ∧ JsDate.changeMonth 0 1 JsDate.max_time = None
  ∧ JsDate.changeMonth 0 (-1) JsDate.max_time = Some 8639996284800000.
Proof. by vm_compute. Qed.

(** X16 after a PDF was chosen and the chat enabled. *)
Lemma uploaded_file_accepted_witness :
  Frontend.uploadedFile
    (Ui.calc (Ui.run (F:=cents) 0
                [Ui.FilesChosen (Some ["statement.pdf"]); Ui.ChatToggled 1 true]))
  = Some "statement.pdf"
  ∧ Ui.getFileIcon "statement.pdf" ≠ Ui.FileIcon.
Proof.
  split; [reflexivity|].
  exact (proj2 (UiFacts.uploaded_file_accepted (F:=cents) 0
                  [Ui.FilesChosen (Some ["statement.pdf"]);
                   Ui.ChatToggled 1 true]
                  "statement.pdf" eq_refl)).
Defined.

(** X18 on the calculator with an invoice and two selected days. *)
Lemma handleCalculate_in_two_halves_witness :
  Ui.calculating (Ui.App two_days None [] []) = []
  ∧ Ui.calc (Ui.handleCalculate_resume 1700000002000 (Cents 50)
               (Ui.handleCalculate_begin 1700000000000
                  (Ui.App two_days None [] [])))
    = (Frontend.handleCalculate (Cents 50) two_days).1.
Proof.
  split; [reflexivity|].
  exact (proj1 (UiFacts.handleCalculate_in_two_halves 1700000000000
                  1700000002000 (Cents 50) (Ui.App two_days None [] [])
                  eq_refl)).
Defined.

(** X19 on the same calculator: the total 16.50 of two days appears on the
    cleared form. *)
Lemma clear_does_not_cancel_witness :
  Frontend.uploadedFile two_days = Some "invoice.csv"
  ∧ Ui.calc
      (fold_left (Ui.step 0)
         [Ui.CalculateClicked 1700000000000; Ui.Clear 1700000001000;
          Ui.TimerFired 1700000002000 (Cents 50)]
         (Ui.App two_days None [] []))
    = Frontend.Calculator [] None false (Some (Cents 1650)) false.
Proof.
  split; [reflexivity|].
  refine (proj1 (UiFacts.clear_does_not_cancel 0 1700000000000 1700000001000
                   1700000002000 (Cents 50) (Ui.App two_days None [] [])
                   "invoice.csv" eq_refl _ eq_refl)).
  discriminate.
Defined.

(** X20 on a PDF sent to the store of scenario A. *)
Lemma pdf_accepted_then_refused_witness :
  Ui.endsWith "statement.pdf" ".pdf" = true
  ∧ Api.upload_invoice 1700000000 "statement.pdf" csv_missing_amount
      (Some "alice") store
    = (Py.Ok [("error", Py.VStr "Only CSV supported for MVP")], store).
Proof.
  split; [reflexivity|].
  exact (proj2 (UiFacts.pdf_accepted_then_refused "statement.pdf" []
                  1700000000 csv_missing_amount (Some "alice") store eq_refl)).
Defined.

End Scenarios.
